(** * lightsout: the inactivity-timeout controller of [main.go]

    A shallow embedding of the Go program.  The globals of the program
    ([config], [tracker], [shutdownTimer], [serverShutdown]) and the part
    of the Go runtime the program talks to (the clock, the pending
    [time.AfterFunc] timers) form one record [State].  Every Go function
    is a program in a small monad [Prog] whose atomic actions are the
    critical sections of the source and whose I/O nodes are the blocking
    calls.  A program can be run on its own against an oracle ([run]) or
    as one goroutine among others ([exec]). *)

From stdpp Require Import base numbers option list gmap strings pretty.
From Stdlib Require Import ZArith.

Local Open Scope Z_scope.

(** ** Time *)

(** [time.Time] and [time.Duration] are counted in nanoseconds.  A
    [Duration] is an [int64]. *)
Abbreviation Time := Z (only parsing).
Abbreviation Duration := Z (only parsing).

Definition minDuration : Z := - 2 ^ 63.
Definition maxDuration : Z := 2 ^ 63 - 1.
Definition Second : Z := 1000000000.

(** [t.Sub(u)]: the difference, saturated to the [int64] range. *)
Definition Time_Sub (t u : Time) : Duration :=
  let d := t - u in
  if d <? minDuration then minDuration
  else if maxDuration <? d then maxDuration
  else d.

(** [int64] wrap-around, for [requestCount++]. *)
Definition wrap64 (z : Z) : Z := (z + 2 ^ 63) mod 2 ^ 64 - 2 ^ 63.

(** ** Data of [main.go] *)

Abbreviation error := string (only parsing).

Inductive result (A : Type) : Type :=
| Ok (a : A)
| Err (e : error).
Arguments Ok {A} a.
Arguments Err {A} e.

Record Config := mkConfig {
  Port : string;
  InactivityTimeout : Duration;
  LibOpsKeepOnline : string;
  LogLevel : string;
  GoogleProjectID : string;
  GCEZone : string;
  GCEInstance : string;
}.

Record AccessToken := mkAccessToken {
  Token : string;
  ExpiresIn : Z;
  TokenType : string;
}.

Record ComputeInstance := mkComputeInstance {
  Status : string;
}.

Record ActivityTracker := mkActivityTracker {
  requestCount : Z;
  lastPing : Time;
}.

(** ** The outside world *)

Record Request := mkRequest {
  Method : string;
  URL : string;
  Header : list (string * string);
}.

Record Response := mkResponse {
  StatusCode : Z;
  Body : string;
}.

(** An inbound request, as far as the handlers read it. *)
Record Inbound := mkInbound {
  Path : string;
  RemoteAddr : string;
  UserAgent : string;
}.

Inductive SelectCase :=
| CaseSigChan          (* case <-sigChan *)
| CaseServerShutdown.  (* case <-serverShutdown *)

(** The blocking calls of the program. *)
Inductive IOReq :=
| ReqExec (name : string) (args : list string)
    (* exec.Command(name, args...).Output() *)
| ReqHttpDo (timeout : Duration) (req : Request)
    (* (&http.Client{Timeout: timeout}).Do(req) *)
| ReqWrite (data : string)
    (* the ResponseWriter sends bytes to the connection *)
| ReqListenAndServe (addr : string)
    (* server.ListenAndServe() binds the port *)
| ReqSelect
    (* the select of main *)
| ReqServerShutdown
    (* server.Shutdown(ctx) *)
| ReqFindDefaultCredentials (scope : string)
    (* google.FindDefaultCredentials *)
| ReqNewService
    (* compute.NewService *)
| ReqInstancesGet (project zone instance : string)
    (* service.Instances.Get(...).Do() *)
| ReqInstancesSuspend (project zone instance : string).
    (* service.Instances.Suspend(...).Do() *)

Definition IOResp (r : IOReq) : Type :=
  match r with
  | ReqExec _ _ => result string
  | ReqHttpDo _ _ => result Response
  | ReqWrite _ => option error
  | ReqListenAndServe _ => option error
  | ReqSelect => SelectCase
  | ReqServerShutdown => option error
  | ReqFindDefaultCredentials _ => option error
  | ReqNewService => option error
  | ReqInstancesGet _ _ _ => result ComputeInstance
  | ReqInstancesSuspend _ _ _ => option error
  end.

(** ** Log records and the trace of effects *)

Inductive Level := LevelDebug | LevelInfo | LevelWarn | LevelError.

(** The value of a log attribute.  [ASeconds d] stands for
    [int(d.Seconds())]: the conversion goes through [float64] and is kept
    symbolic. *)
Inductive Attr :=
| AString (s : string)
| ASeconds (d : Duration)
| ADuration (d : Duration)
| ABool (b : bool).

Inductive Event :=
| EvLog (lvl : Level) (msg : string) (attrs : list (string * Attr))
| EvIO (r : IOReq)
| EvAfterFunc (t : nat) (due : Z)   (* time.AfterFunc scheduled timer t *)
| EvStop (t : nat)                  (* t.Stop() *)
| EvClose                       (* close(serverShutdown) *)
| EvMockSuspend                 (* mockGCP.suspendCalled = true *)
| EvResponse (code : Z) (body : string).

(** ** The state shared by all goroutines *)

Abbreviation TimerId := nat (only parsing).

Record State := mkState {
  (* globals of main.go *)
  config : Config;
  tracker : ActivityTracker;
  shutdownTimer : option TimerId;     (* nil, or the timer last created *)
  serverShutdown : bool;              (* the channel is closed *)
  (* Go runtime *)
  clock : Time;
  timers : gmap nat Z;                (* pending AfterFunc timers and when they fire *)
  timerSeq : TimerId;                 (* the next timer to allocate *)
  listening : bool;                   (* the HTTP server accepts requests *)
  crashed : option string;            (* a goroutine panicked *)
  exited : bool;                      (* main returned *)
  (* everything that happened, newest first *)
  trace : list (Time * Event);
}.

Definition set_tracker (v : ActivityTracker) (s : State) : State :=
  mkState (config s) v (shutdownTimer s) (serverShutdown s) (clock s)
          (timers s) (timerSeq s) (listening s) (crashed s) (exited s) (trace s).
Definition set_shutdownTimer (v : option TimerId) (s : State) : State :=
  mkState (config s) (tracker s) v (serverShutdown s) (clock s)
          (timers s) (timerSeq s) (listening s) (crashed s) (exited s) (trace s).
Definition set_serverShutdown (v : bool) (s : State) : State :=
  mkState (config s) (tracker s) (shutdownTimer s) v (clock s)
          (timers s) (timerSeq s) (listening s) (crashed s) (exited s) (trace s).
Definition set_clock (v : Time) (s : State) : State :=
  mkState (config s) (tracker s) (shutdownTimer s) (serverShutdown s) v
          (timers s) (timerSeq s) (listening s) (crashed s) (exited s) (trace s).
Definition set_timers (v : gmap nat Z) (s : State) : State :=
  mkState (config s) (tracker s) (shutdownTimer s) (serverShutdown s) (clock s)
          v (timerSeq s) (listening s) (crashed s) (exited s) (trace s).
Definition set_timerSeq (v : TimerId) (s : State) : State :=
  mkState (config s) (tracker s) (shutdownTimer s) (serverShutdown s) (clock s)
          (timers s) v (listening s) (crashed s) (exited s) (trace s).
Definition set_listening (v : bool) (s : State) : State :=
  mkState (config s) (tracker s) (shutdownTimer s) (serverShutdown s) (clock s)
          (timers s) (timerSeq s) v (crashed s) (exited s) (trace s).
Definition set_crashed (v : option string) (s : State) : State :=
  mkState (config s) (tracker s) (shutdownTimer s) (serverShutdown s) (clock s)
          (timers s) (timerSeq s) (listening s) v (exited s) (trace s).
Definition set_exited (v : bool) (s : State) : State :=
  mkState (config s) (tracker s) (shutdownTimer s) (serverShutdown s) (clock s)
          (timers s) (timerSeq s) (listening s) (crashed s) v (trace s).
Definition set_trace (v : list (Time * Event)) (s : State) : State :=
  mkState (config s) (tracker s) (shutdownTimer s) (serverShutdown s) (clock s)
          (timers s) (timerSeq s) (listening s) (crashed s) (exited s) v.

(** Every effect is stamped with the clock. *)
Definition emit (e : Event) (s : State) : State :=
  set_trace ((clock s, e) :: trace s) s.

Definition slog (lvl : Level) (msg : string) (attrs : list (string * Attr))
    (s : State) : State :=
  emit (EvLog lvl msg attrs) s.

(** ** Go runtime: timers and channels *)

(** [when(d)] of the runtime: a duration that is not positive fires now. *)
Definition when (d : Duration) (s : State) : Time :=
  if d <=? 0 then clock s else clock s + d.

(** [time.AfterFunc(d, f)]: allocates a timer and schedules it. The
    callback is always the closure of [resetShutdownTimer]. *)
Definition time_AfterFunc (d : Duration) (s : State) : TimerId * State :=
  let t := timerSeq s in
  (t, emit (EvAfterFunc t (when d s))
        (set_timerSeq (S t) (set_timers (<[t := when d s]> (timers s)) s))).

(** [t.Stop()]: unschedules; reports whether the timer was pending. *)
Definition Timer_Stop (t : TimerId) (s : State) : bool * State :=
  (bool_decide (is_Some (timers s !! t)),
   emit (EvStop t) (set_timers (delete t (timers s)) s)).

(** [close(ch)]: closing a closed channel panics. *)
Definition chan_close (s : State) : State :=
  if serverShutdown s
  then set_crashed (Some "close of closed channel"%string) s
  else emit EvClose (set_serverShutdown true s).

(** ** Programs *)

Inductive Prog (A : Type) : Type :=
| Ret (a : A)
| Atomic {B : Type} (act : State -> B * State) (k : B -> Prog A)
| IO (r : IOReq) (k : IOResp r -> Prog A).
Arguments Ret {A} a.
Arguments Atomic {A B} act k.
Arguments IO {A} r k.

Fixpoint bind {A B} (p : Prog A) (f : A -> Prog B) : Prog B :=
  match p with
  | Ret a => f a
  | Atomic act k => Atomic act (fun b => bind (k b) f)
  | IO r k => IO r (fun x => bind (k x) f)
  end.

Notation "'do' x <- p ; q" := (bind p (fun x => q))
  (at level 10, x name, p at level 100, q at level 200).
Notation "'do' ' pat <- p ; q" := (bind p (fun x => match x with pat => q end))
  (at level 10, pat pattern, p at level 100, q at level 200).

(** One state update, one read, one blocking call. *)
Definition modify (f : State -> State) : Prog unit :=
  Atomic (fun s => (tt, f s)) Ret.
Definition gets {B} (f : State -> B) : Prog B :=
  Atomic (fun s => (f s, s)) Ret.
Definition call (r : IOReq) : Prog (IOResp r) := IO r Ret.

(** An oracle answers every blocking call, knowing all that happened. *)
Definition Oracle := forall r : IOReq, State -> IOResp r.

(** A program run on its own: no other goroutine, no time passing. *)
Fixpoint run {A} (o : Oracle) (p : Prog A) (s : State) : A * State :=
  match p with
  | Ret a => (a, s)
  | Atomic act k => let '(b, s') := act s in run o (k b) s'
  | IO r k => run o (k (o r s)) (emit (EvIO r) s)
  end.

(** ** Library functions the program calls

    The Go standard library is not part of the repository; the functions
    of it that compute on strings and dates are parameters. *)

Record Lib := mkLib {
  strings_TrimSpace : string -> string;
  time_Parse : string -> string -> option Time;       (* layout, value *)
  time_Year : Time -> Z;
  time_Month : Time -> Z;
  time_Day : Time -> Z;
  time_Hour : Time -> Z;
  time_Minute : Time -> Z;
  time_Second : Time -> Z;
  time_Date_UTC : Z -> Z -> Z -> Z -> Z -> Z -> Z -> Time;
  http_NewRequest_err : string -> string -> option error;   (* method, url *)
  json_Decode_AccessToken : string -> AccessToken * option error;
  json_Decode_ComputeInstance : string -> ComputeInstance * option error;
}.

(** [strings.Split(s, ":")] *)
Fixpoint strings_Split_colon (s : string) : list string :=
  match s with
  | EmptyString => [EmptyString]
  | String c rest =>
      let parts := strings_Split_colon rest in
      if Ascii.eqb c (Ascii.ascii_of_nat 58) (* ':' *) then EmptyString :: parts
      else match parts with
           | p :: ps => String c p :: ps
           | [] => [String c EmptyString]
           end
  end.

(** The zero [time.Time]; times count from it. *)
Definition Time_zero : Time := 0.

Definition http_NewRequest (lib : Lib) (method url : string) : result Request :=
  match http_NewRequest_err lib method url with
  | Some e => Err e
  | None => Ok (mkRequest method url [])
  end.

Definition Header_Set (k v : string) (h : list (string * string))
    : list (string * string) :=
  (k, v) :: filter (fun kv => negb (String.eqb kv.1 k)) h.

Definition Header_Del (k : string) (h : list (string * string))
    : list (string * string) :=
  filter (fun kv => negb (String.eqb kv.1 k)) h.

Definition Request_Header_Set (k v : string) (req : Request) : Request :=
  mkRequest (Method req) (URL req) (Header_Set k v (Header req)).

(** ** The timer controller *)

(** [resetShutdownTimer]: the body between [shutdownMutex.Lock()] and the
    deferred [Unlock()] is one atomic action. *)
Definition resetShutdownTimer (s : State) : unit * State :=
  let s1 := match shutdownTimer s with
            | Some t => (Timer_Stop t s).2
            | None => s
            end in
  let '(t, s2) := time_AfterFunc (InactivityTimeout (config s1)) s1 in
  let s3 := set_shutdownTimer (Some t) s2 in
  (tt, slog LevelDebug "Shutdown timer reset"
         [("timeout_seconds"%string, ASeconds (InactivityTimeout (config s3)))] s3).

Definition stopShutdownTimer (s : State) : unit * State :=
  match shutdownTimer s with
  | Some t =>
      let s1 := (Timer_Stop t s).2 in
      let s2 := set_shutdownTimer None s1 in
      (tt, slog LevelDebug "Shutdown timer stopped" [] s2)
  | None => (tt, s)
  end.

(** ** The fallback activity probe *)

Definition getLastGitHubActionsActivity (lib : Lib) : Prog (Time * option error) :=
  do output <- call (ReqExec "docker" ["logs"; "--tail"; "1"; "github-actions-runner"]%string);
  match output with
  | Err e => Ret (Time_zero, Some ("no github-actions-runner logs: " +:+ e))
  | Ok output =>
    let line := strings_TrimSpace lib output in
    if String.eqb line "" then
      Ret (Time_zero, Some "empty github-actions-runner logs"%string)
    else
      let parts := strings_Split_colon line in
      let unparsed : Prog (Time * option error) :=
        Ret (Time_zero, Some "could not parse github-actions timestamp"%string) in
      match parts with
      | p0 :: p1 :: p2 :: _ =>
        let timeStr := p0 +:+ ":" +:+ p1 +:+ ":" +:+ p2 in
        match time_Parse lib "15:04:05" timeStr with
        | Some t =>
          do now <- gets clock;
          Ret (time_Date_UTC lib (time_Year lib now) (time_Month lib now)
                 (time_Day lib now) (time_Hour lib t) (time_Minute lib t)
                 (time_Second lib t) 0, None)
        | None => unparsed
        end
      | _ => unparsed
      end
  end.

(** ** The inactivity decision *)

(** The last statements of [initiateShutdown], under [shutdownMutex]: the
    [select] receives from [serverShutdown] when it is closed and closes
    it otherwise. *)
Definition signalShutdown (s : State) : unit * State :=
  if serverShutdown s then (tt, s) else (tt, chan_close s).

Definition missingGCPConfig (cfg : Config) : bool :=
  String.eqb (GoogleProjectID cfg) "" || String.eqb (GCEZone cfg) ""
  || String.eqb (GCEInstance cfg) "".

(** The fallback check of [initiateShutdown]; [true] stands for its
    early return. *)
Definition checkGitHubActions (lib : Lib) (now : Time) : Prog bool :=
  do '(lastGHA, err) <- getLastGitHubActionsActivity lib;
  match err with
  | None =>
    let ghaDuration := Time_Sub now lastGHA in
    do cfg <- gets config;
    if ghaDuration <? InactivityTimeout cfg then
      do _ <- modify (slog LevelInfo "Staying online for GitHub Actions"
                        [("gha_duration_seconds"%string, ASeconds ghaDuration)]);
      do _ <- Atomic resetShutdownTimer Ret;
      Ret true
    else Ret false
  | Some _ => Ret false
  end.

(** [initiateShutdown] from "Proceeding with shutdown" on. *)
Definition proceedWithShutdown (suspendFunc : Prog (option error))
    (duration : Duration) : Prog unit :=
  do _ <- modify (slog LevelInfo "Proceeding with shutdown"
                    [("ping_duration_seconds"%string, ASeconds duration)]);
  do cfg <- gets config;
  do _ <- (if missingGCPConfig cfg then
             modify (slog LevelWarn "Missing GCP configuration, cannot suspend"
                       [("project"%string, AString (GoogleProjectID cfg));
                        ("zone"%string, AString (GCEZone cfg));
                        ("instance"%string, AString (GCEInstance cfg))])
           else
             do err <- suspendFunc;
             match err with
             | Some e => modify (slog LevelError "Failed to suspend instance"
                                   [("error"%string, AString e)])
             | None => modify (slog LevelInfo "Suspend request sent successfully" [])
             end);
  Atomic signalShutdown Ret.

Definition initiateShutdown (lib : Lib) (suspendFunc : Prog (option error))
    : Prog unit :=
  do lastPing <- gets (fun s => lastPing (tracker s));
  do now <- gets clock;
  let duration := Time_Sub now lastPing in
  do returned <- checkGitHubActions lib now;
  if returned : bool then Ret tt
  else proceedWithShutdown suspendFunc duration.

(** The closure handed to [time.AfterFunc]. *)
Definition timerCallback (lib : Lib) (suspendFunc : Prog (option error))
    : Prog unit :=
  do cfg <- gets config;
  do _ <- modify (slog LevelInfo "Inactivity timeout reached, initiating shutdown"
                    [("timeout_seconds"%string, ASeconds (InactivityTimeout cfg))]);
  initiateShutdown lib suspendFunc.

(** ** The HTTP handlers *)

(** [http.ResponseWriter], as the documentation of [net/http] describes
    it: the first [WriteHeader] fixes the status code and the headers that
    are sent, a later one is superfluous and changes nothing, and a
    [Write] before any [WriteHeader] sends status 200 first. *)
Record ResponseWriter := mkResponseWriter {
  rwHeader : list (string * string);     (* the map behind Header() *)
  rwStatus : option Z;                   (* the status code sent, once sent *)
  rwSentHeader : list (string * string); (* the headers sent with it *)
  rwBody : string;                       (* the bytes sent *)
}.

Definition newResponseWriter : ResponseWriter :=
  mkResponseWriter [] None [] "".

Definition rw_Header_Set (k v : string) (w : ResponseWriter) : ResponseWriter :=
  mkResponseWriter (Header_Set k v (rwHeader w)) (rwStatus w) (rwSentHeader w)
                   (rwBody w).

Definition rw_Header_Del (k : string) (w : ResponseWriter) : ResponseWriter :=
  mkResponseWriter (Header_Del k (rwHeader w)) (rwStatus w) (rwSentHeader w)
                   (rwBody w).

Definition WriteHeader (code : Z) (w : ResponseWriter) : ResponseWriter :=
  match rwStatus w with
  | Some _ => w
  | None => mkResponseWriter (rwHeader w) (Some code) (rwHeader w) (rwBody w)
  end.

Definition Write (data : string) (w : ResponseWriter)
    : Prog (ResponseWriter * option error) :=
  let w := WriteHeader 200 w in
  do err <- call (ReqWrite data);
  match err with
  | Some e => Ret (w, Some e)
  | None =>
      Ret (mkResponseWriter (rwHeader w) (rwStatus w) (rwSentHeader w)
             (rwBody w +:+ data), None)
  end.

(** The newline byte. *)
Definition LF : string := String (Ascii.ascii_of_nat 10) EmptyString.

(** [http.Error(w, msg, code)] *)
Definition http_Error (w : ResponseWriter) (msg : string) (code : Z)
    : Prog ResponseWriter :=
  let w := rw_Header_Del "Content-Length" w in
  let w := rw_Header_Set "Content-Type" "text/plain; charset=utf-8" w in
  let w := rw_Header_Set "X-Content-Type-Options" "nosniff" w in
  let w := WriteHeader code w in
  do '(w, _) <- Write (msg +:+ LF) w;
  Ret w.

Definition StatusOK : Z := 200.
Definition StatusInternalServerError : Z := 500.

Definition recordPing (s : State) : unit * State :=
  (tt, set_tracker (mkActivityTracker (wrap64 (requestCount (tracker s) + 1))
                                      (clock s)) s).

Definition pingHandler (w : ResponseWriter) (r : Inbound) : Prog ResponseWriter :=
  do _ <- Atomic recordPing Ret;
  do _ <- Atomic resetShutdownTimer Ret;
  do _ <- modify (slog LevelInfo "Ping request received"
                    [("remote_addr"%string, AString (RemoteAddr r));
                     ("user_agent"%string, AString (UserAgent r));
                     ("timer_reset"%string, ABool true)]);
  let w := rw_Header_Set "Content-Type" "text/plain" w in
  let w := WriteHeader StatusOK w in
  do '(w, err) <- Write "pong" w;
  match err with
  | Some e =>
      do _ <- modify (slog LevelError "Failed to write ping response"
                        [("error"%string, AString e)]);
      http_Error w "Failed to write response" StatusInternalServerError
  | None => Ret w
  end.

Definition healthHandler (w : ResponseWriter) (r : Inbound) : Prog ResponseWriter :=
  let w := rw_Header_Set "Content-Type" "text/plain" w in
  let w := WriteHeader StatusOK w in
  Ret w.

(** What the server does with an inbound request: the two registered
    patterns run their handler; when the handler returns without having
    sent a status the server sends 200.  Other paths run no code of the
    program. *)
Definition serve (r : Inbound) : Prog unit :=
  let finish (w : ResponseWriter) : Prog unit :=
    let w := WriteHeader StatusOK w in
    modify (emit (EvResponse (default 0 (rwStatus w)) (rwBody w))) in
  if String.eqb (Path r) "/ping" then
    do w <- pingHandler newResponseWriter r; finish w
  else if String.eqb (Path r) "/healthcheck" then
    do w <- healthHandler newResponseWriter r; finish w
  else Ret tt.

(** ** main *)

Definition main : Prog unit :=
  do cfg <- gets config;
  do _ <- modify (slog LevelInfo "Lightswitch starting"
                    [("port"%string, AString (Port cfg));
                     ("inactivity_timeout"%string, ADuration (InactivityTimeout cfg));
                     ("keep_online"%string,
                      ABool (String.eqb (LibOpsKeepOnline cfg) "yes"))]);
  do _ <- (if negb (String.eqb (LibOpsKeepOnline cfg) "yes") then
             do _ <- modify (slog LevelInfo "Starting inactivity timer"
                               [("timeout_seconds"%string,
                                 ASeconds (InactivityTimeout cfg))]);
             Atomic resetShutdownTimer Ret
           else Ret tt);
  (* the goroutine that serves; it is run here, before the select *)
  do _ <- modify (slog LevelInfo "HTTP server starting"
                    [("port"%string, AString (Port cfg))]);
  do err <- call (ReqListenAndServe (":" +:+ Port cfg));
  do _ <- match err with
          | Some e => modify (slog LevelError "HTTP server error"
                                [("error"%string, AString e)])
          | None => modify (set_listening true)
          end;
  do c <- call ReqSelect;
  do _ <- match c with
          | CaseSigChan => modify (slog LevelInfo "Shutdown signal received" [])
          | CaseServerShutdown => modify (slog LevelInfo "Internal shutdown triggered" [])
          end;
  do _ <- modify (slog LevelInfo "Gracefully shutting down..." []);
  do _ <- Atomic stopShutdownTimer Ret;
  do err <- call ReqServerShutdown;
  do _ <- modify (set_listening false);
  do _ <- match err with
          | Some e => modify (slog LevelError "Server shutdown error"
                                [("error"%string, AString e)])
          | None => Ret tt
          end;
  do _ <- modify (slog LevelInfo "Lightswitch shutdown complete" []);
  modify (set_exited true).

(** ** The lifecycle client, first strategy: token and REST calls *)

Module Rest.

Definition tokenURL : string :=
  "http://metadata.google.internal/computeMetadata/v1/instance/service-accounts/default/token".

Definition getAccessToken (lib : Lib) : Prog (AccessToken * option error) :=
  let t := mkAccessToken "" 0 "" in
  match http_NewRequest lib "GET" tokenURL with
  | Err e => Ret (t, Some e)
  | Ok req =>
    let req := Request_Header_Set "Metadata-Flavor" "Google" req in
    do resp <- call (ReqHttpDo (10 * Second) req);
    match resp with
    | Err e => Ret (t, Some e)
    | Ok resp =>
      if negb (StatusCode resp =? StatusOK) then
        Ret (t, Some ("fetching token non-200: " +:+ pretty (StatusCode resp)))
      else
        let '(t, err) := json_Decode_AccessToken lib (Body resp) in
        match err with
        | Some e => Ret (t, Some ("failed to decode token response: " +:+ e))
        | None => Ret (t, None)
        end
    end
  end.

Definition getMachineMetadata (lib : Lib) (token : AccessToken) (targetURL : string)
    : Prog (ComputeInstance * option error) :=
  let vm := mkComputeInstance "" in
  match http_NewRequest lib "GET" targetURL with
  | Err e => Ret (vm, Some e)
  | Ok req =>
    let req := Request_Header_Set "Authorization" ("Bearer " +:+ Token token) req in
    do resp <- call (ReqHttpDo (30 * Second) req);
    match resp with
    | Err e => Ret (vm, Some e)
    | Ok resp =>
      if negb (StatusCode resp =? StatusOK) then
        Ret (vm, Some ("getMachineMetadata non-200: " +:+ pretty (StatusCode resp)))
      else
        let '(vm, err) := json_Decode_ComputeInstance lib (Body resp) in
        match err with
        | Some e => Ret (vm, Some ("failed to decode instance metadata: " +:+ e))
        | None => Ret (vm, None)
        end
    end
  end.

Definition performInstanceAction (lib : Lib) (token : AccessToken)
    (targetURL action : string) : Prog (option error) :=
  let actionURL := targetURL +:+ "/" +:+ action in
  match http_NewRequest lib "POST" actionURL with
  | Err e => Ret (Some e)
  | Ok req =>
    let req := Request_Header_Set "Authorization" ("Bearer " +:+ Token token) req in
    do resp <- call (ReqHttpDo (30 * Second) req);
    match resp with
    | Err e => Ret (Some e)
    | Ok resp =>
      if negb (StatusCode resp =? StatusOK) then
        Ret (Some ("performInstanceAction non-200: " +:+ pretty (StatusCode resp)))
      else Ret None
    end
  end.

Definition targetURL (cfg : Config) : string :=
  "https://compute.googleapis.com/compute/v1/projects/" +:+ GoogleProjectID cfg
  +:+ "/zones/" +:+ GCEZone cfg +:+ "/instances/" +:+ GCEInstance cfg.

Definition suspendMachine (lib : Lib) : Prog (ComputeInstance * option error) :=
  do cfg <- gets config;
  let targetURL := targetURL cfg in
  do _ <- modify (slog LevelInfo "Checking if machine is suspended"
                    [("project"%string, AString (GoogleProjectID cfg));
                     ("zone"%string, AString (GCEZone cfg));
                     ("instance"%string, AString (GCEInstance cfg))]);
  do '(t, err) <- getAccessToken lib;
  match err with
  | Some e => Ret (mkComputeInstance "", Some ("getAccessToken: " +:+ e))
  | None =>
    do '(vm, err) <- getMachineMetadata lib t targetURL;
    match err with
    | Some e => Ret (vm, Some ("getMachineMetadata: " +:+ e))
    | None =>
      if String.eqb (Status vm) "RUNNING" then
        do _ <- modify (slog LevelInfo "Instance is RUNNING, suspending instance" []);
        do err <- performInstanceAction lib t targetURL "suspend";
        match err with
        | Some e => Ret (vm, Some ("performInstanceAction: " +:+ e))
        | None => Ret (vm, None)
        end
      else
        do _ <- modify (slog LevelInfo "Instance is not RUNNING, skipping suspension"
                          [("status"%string, AString (Status vm))]);
        Ret (vm, None)
    end
  end.

Definition suspendInstance (lib : Lib) : Prog (option error) :=
  do _ <- modify (slog LevelInfo "Attempting to suspend instance directly via GCP API" []);
  do _ <- Atomic resetShutdownTimer Ret;
  do '(_, err) <- suspendMachine lib;
  match err with
  | Some e => Ret (Some ("failed to suspend machine: " +:+ e))
  | None =>
      do _ <- modify (slog LevelInfo "Suspend request completed successfully" []);
      Ret None
  end.

End Rest.

(** ** The lifecycle client, second strategy: the compute SDK *)

Module Sdk.

Definition ComputeScope : string := "https://www.googleapis.com/auth/compute".

(** The service value is a handle; only the error matters. *)
Definition createComputeService : Prog (option error) :=
  do err <- call (ReqFindDefaultCredentials ComputeScope);
  match err with
  | Some e => Ret (Some ("failed to find default credentials: " +:+ e))
  | None =>
    do err <- call ReqNewService;
    match err with
    | Some e => Ret (Some ("failed to create compute service: " +:+ e))
    | None => Ret None
    end
  end.

(** [*compute.Instance] may be nil. *)
Definition suspendMachine : Prog (option ComputeInstance * option error) :=
  do cfg <- gets config;
  do _ <- modify (slog LevelInfo "Checking if machine is suspended"
                    [("project"%string, AString (GoogleProjectID cfg));
                     ("zone"%string, AString (GCEZone cfg));
                     ("instance"%string, AString (GCEInstance cfg))]);
  do err <- createComputeService;
  match err with
  | Some e => Ret (None, Some ("createComputeService: " +:+ e))
  | None =>
    do got <- call (ReqInstancesGet (GoogleProjectID cfg) (GCEZone cfg) (GCEInstance cfg));
    match got with
    | Err e => Ret (None, Some ("failed to get instance: " +:+ e))
    | Ok instance =>
      if String.eqb (Status instance) "RUNNING" then
        do _ <- modify (slog LevelInfo "Instance is RUNNING, suspending instance" []);
        do err <- call (ReqInstancesSuspend (GoogleProjectID cfg) (GCEZone cfg)
                          (GCEInstance cfg));
        match err with
        | Some e => Ret (Some instance, Some ("failed to suspend instance: " +:+ e))
        | None => Ret (Some instance, None)
        end
      else
        do _ <- modify (slog LevelInfo "Instance is not RUNNING, skipping suspension"
                          [("status"%string, AString (Status instance))]);
        Ret (Some instance, None)
    end
  end.

Definition suspendInstance : Prog (option error) :=
  do _ <- modify (slog LevelInfo "Attempting to suspend instance directly via GCP API" []);
  do _ <- Atomic resetShutdownTimer Ret;
  do '(_, err) <- suspendMachine;
  match err with
  | Some e => Ret (Some ("failed to suspend machine: " +:+ e))
  | None =>
      do _ <- modify (slog LevelInfo "Suspend request completed successfully" []);
      Ret None
  end.

End Sdk.

(** [mockSuspendInstance] of [main_test.go] *)
Definition mockSuspendInstance : Prog (option error) :=
  do _ <- modify (emit EvMockSuspend);
  Ret None.

(** What [suspendFunc] holds: [init] stores [suspendInstance] of the
    strategy that was built, the tests store the mock. *)
Inductive Build := BuildRest | BuildSdk | BuildTest.

Definition suspendFunc (lib : Lib) (b : Build) : Prog (option error) :=
  match b with
  | BuildRest => Rest.suspendInstance lib
  | BuildSdk => Sdk.suspendInstance
  | BuildTest => mockSuspendInstance
  end.

(** ** The running process: goroutines interleaved *)

(** The goroutines in the order they were started; one that has returned
    stays as [Ret tt]. *)
Record Sys := mkSys {
  shared : State;
  pool : list (Prog unit);
}.

Inductive Label :=
| LTick (d : Duration)          (* time passes *)
| LFire (t : nat)               (* the runtime fires a pending timer *)
| LRequest (r : Inbound)        (* the server accepts a request *)
| LStep (i : nat) (o : Oracle). (* goroutine i takes one step *)

(** The select of main takes the [serverShutdown] case only once the
    channel is closed; a signal may arrive at any time. *)
Definition io_enabled (r : IOReq) : IOResp r -> State -> bool :=
  match r with
  | ReqSelect => fun c s =>
      match c with
      | CaseSigChan => true
      | CaseServerShutdown => serverShutdown s
      end
  | _ => fun _ _ => true
  end.

Definition step_thread (o : Oracle) (p : Prog unit) (s : State)
    : option (Prog unit * State) :=
  match p with
  | Ret _ => None
  | Atomic act k => let '(b, s') := act s in Some (k b, s')
  | IO r k =>
      let a := o r s in
      if io_enabled r a s then Some (k a, emit (EvIO r) s) else None
  end.

Definition halted (s : State) : bool :=
  exited s || bool_decide (is_Some (crashed s)).

Definition exec (lib : Lib) (b : Build) (y : Sys) (l : Label) : option Sys :=
  let s := shared y in
  if halted s then None else
  match l with
  | LTick d =>
      if 0 <=? d then Some (mkSys (set_clock (clock s + d) s) (pool y)) else None
  | LFire t =>
      match timers s !! t with
      | Some due =>
          if due <=? clock s then
            Some (mkSys (set_timers (delete t (timers s)) s)
                        (pool y ++ [timerCallback lib (suspendFunc lib b)]))
          else None
      | None => None
      end
  | LRequest r =>
      if listening s then Some (mkSys s (pool y ++ [serve r])) else None
  | LStep i o =>
      match pool y !! i with
      | Some p =>
          match step_thread o p s with
          | Some (p', s') => Some (mkSys s' (<[i := p']> (pool y)))
          | None => None
          end
      | None => None
      end
  end.

Fixpoint execs (lib : Lib) (b : Build) (y : Sys) (ls : list Label) : option Sys :=
  match ls with
  | [] => Some y
  | l :: ls =>
      match exec lib b y l with
      | Some y' => execs lib b y' ls
      | None => None
      end
  end.

(** The process after [init]: the tracker holds the time of its
    creation, no timer exists, [main] is the only goroutine. *)
Definition boot (cfg : Config) (now : Time) : Sys :=
  mkSys (mkState cfg (mkActivityTracker 0 now) None false now ∅ 0%nat false
                 None false [])
        [main].

(** ** Reading the trace *)

(** The events that show a suspension under way: the first statement of
    [suspendInstance], the flag of the mock, and the suspend request of
    either strategy. *)
Definition suspend_event (e : Event) : bool :=
  match e with
  | EvLog _ msg _ =>
      String.eqb msg "Attempting to suspend instance directly via GCP API"
  | EvIO (ReqHttpDo _ req) => String.eqb (Method req) "POST"
  | EvIO (ReqInstancesSuspend _ _ _) => true
  | EvMockSuspend => true
  | _ => false
  end.

Definition close_event (e : Event) : bool :=
  match e with EvClose => true | _ => false end.

Definition io_event (e : Event) : bool :=
  match e with EvIO _ => true | _ => false end.

(** [main] left its [select] through the [serverShutdown] case. *)
Definition observed_event (e : Event) : bool :=
  match e with
  | EvLog _ msg _ => String.eqb msg "Internal shutdown triggered"
  | _ => false
  end.

Fixpoint count_events (f : Event -> bool) (tr : list (Time * Event)) : nat :=
  match tr with
  | [] => 0%nat
  | (_, e) :: older => ((if f e then 1 else 0) + count_events f older)%nat
  end.

(** The probe found activity younger than the timeout. *)
Definition fallback_fresh (lib : Lib) (o : Oracle) (s : State) : bool :=
  let '((lastGHA, err), _) := run o (getLastGitHubActionsActivity lib) s in
  bool_decide (err = None)
  && (Time_Sub (clock s) lastGHA <? InactivityTimeout (config s)).

(** ** Predicates and concrete inputs of the statements *)

(** The probe leaves one mark: the command it ran. *)
Definition dockerLogs : IOReq :=
  ReqExec "docker" ["logs"; "--tail"; "1"; "github-actions-runner"]%string.

(** The events [resetShutdownTimer] adds. *)
Definition rearm_events (s : State) : list (Time * Event) :=
  let d := InactivityTimeout (config s) in
  (clock s, EvLog LevelDebug "Shutdown timer reset"
              [("timeout_seconds"%string, ASeconds d)])
  :: (clock s, EvAfterFunc (timerSeq s) (when d s))
  :: match shutdownTimer s with
     | Some t => [(clock s, EvStop t)]
     | None => []
     end.

Definition stayingOnline (ghaDuration : Duration) (s : State) : State :=
  (resetShutdownTimer
     (slog LevelInfo "Staying online for GitHub Actions"
        [("gha_duration_seconds"%string, ASeconds ghaDuration)] s)).2.

(** The state in which [suspendFunc] is called, or the one in which it is
    skipped. *)
Definition proceeding (duration : Duration) (s : State) : State :=
  slog LevelInfo "Proceeding with shutdown"
       [("ping_duration_seconds"%string, ASeconds duration)] s.

Definition missingWarned (s : State) : State :=
  slog LevelWarn "Missing GCP configuration, cannot suspend"
       [("project"%string, AString (GoogleProjectID (config s)));
        ("zone"%string, AString (GCEZone (config s)));
        ("instance"%string, AString (GCEInstance (config s)))] s.

Definition suspendReported (err : option error) (s : State) : State :=
  match err with
  | Some e => slog LevelError "Failed to suspend instance"
                   [("error"%string, AString e)] s
  | None => slog LevelInfo "Suspend request sent successfully" [] s
  end.

(** [guarantees R p]: every atomic action and every blocking call of [p]
    takes a state [s] to a state [s'] with [R s s']. *)
Inductive guarantees (R : State -> State -> Prop) {A : Type} : Prog A -> Prop :=
| g_Ret (a : A) : guarantees R (Ret a)
| g_Atomic (B : Type) (act : State -> B * State) (k : B -> Prog A) :
    (forall s, R s (act s).2) ->
    (forall b, guarantees R (k b)) ->
    guarantees R (Atomic act k)
| g_IO (r : IOReq) (k : IOResp r -> Prog A) :
    (forall s, R s (emit (EvIO r) s)) ->
    (forall a, guarantees R (k a)) ->
    guarantees R (IO r k).

(** The primitive actions of the handlers and of [main]. *)
Record Prims (R : State -> State -> Prop) : Prop := mkPrims {
  prim_id : forall s, R s s;
  prim_quiet : forall e s,
    suspend_event e = false -> close_event e = false ->
    observed_event e = false -> R s (emit e s);
  prim_reset : forall s, R s (resetShutdownTimer s).2;
  prim_stop : forall s, R s (stopShutdownTimer s).2;
  prim_ping : forall s, R s (recordPing s).2;
  prim_listen : forall v s, R s (set_listening v s);
  prim_exit : forall s, R s (set_exited true s);
}.

(** The one more that only [main] performs. *)
Record MainPrims (R : State -> State -> Prop) : Prop := mkMainPrims {
  prim_observed : forall e s, observed_event e = true -> R s (emit e s);
}.

(** The two more that only the timer callback performs. *)
Record DecisionPrims (R : State -> State -> Prop) : Prop := mkDecisionPrims {
  prim_suspend : forall e s, suspend_event e = true -> R s (emit e s);
  prim_signal : forall s, R s (signalShutdown s).2;
}.

(** The steps of a goroutine that may start at any time keep [I] and what
    holds late; the steps of a timer callback may assume [Late]. *)
Definition Rany (I Late : State -> Prop) (s s' : State) : Prop :=
  I s -> I s' /\ (Late s -> Late s').

Definition Rlate (I Late : State -> Prop) (s s' : State) : Prop :=
  Late s -> I s -> I s' /\ Late s'.

Definition thread_ok (I Late : State -> Prop) (s : State) (p : Prog unit) : Prop :=
  guarantees (Rany I Late) p \/ (Late s /\ guarantees (Rlate I Late) p).

Definition sys_inv (I Late : State -> Prop) (y : Sys) : Prop :=
  I (shared y) /\ Forall (thread_ok I Late (shared y)) (pool y).

(** Every pending timer is the one the controller holds. *)
Definition held (s : State) : Prop :=
  forall t due, timers s !! t = Some due -> shutdownTimer s = Some t.





(** The time of the first [time.AfterFunc]: when the controller was
    armed. *)
Fixpoint first_armed (tr : list (Time * Event)) : option Time :=
  match tr with
  | [] => None
  | (t, e) :: older =>
      match first_armed older with
      | Some a => Some a
      | None => match e with EvAfterFunc _ _ => Some t | _ => None end
      end
  end.

(** Before the controller is armed nothing is pending and nothing was
    suspended; from then on every pending timer is due, and every
    suspension recorded happened, a full timeout after that moment at the
    earliest. *)
Definition timely (cfg : Config) (s : State) : Prop :=
  config s = cfg /\
  match first_armed (trace s) with
  | None =>
      timers s = ∅ /\ Forall (fun te => suspend_event te.2 = false) (trace s)
  | Some a =>
      a <= clock s
      /\ (forall t due, timers s !! t = Some due ->
                        a + InactivityTimeout cfg <= due)
      /\ Forall (fun te => suspend_event te.2 = true ->
                           a + InactivityTimeout cfg <= te.1) (trace s)
  end.

(** A full timeout has passed since the controller was armed. *)
Definition timeout_passed (cfg : Config) (s : State) : Prop :=
  exists a, first_armed (trace s) = Some a
            /\ a + InactivityTimeout cfg <= clock s.

Definition Rtimely (cfg : Config) (s s' : State) : Prop :=
  Rany (timely cfg) (timeout_passed cfg) s s'.

Definition Rcrash (s s' : State) : Prop := crashed s' = crashed s.

(** What is left of an event, and of a state, when the last ping is
    hidden: the log attribute computed from it, and the tracker field. *)
Definition blind_event (e : Event) : Event :=
  match e with
  | EvLog lvl msg attrs =>
      EvLog lvl msg
        (List.filter (fun kv => negb (String.eqb kv.1 "ping_duration_seconds"))
                     attrs)
  | _ => e
  end.

Definition blind (s : State) : State :=
  mkState (config s) (mkActivityTracker (requestCount (tracker s)) 0)
          (shutdownTimer s) (serverShutdown s) (clock s) (timers s)
          (timerSeq s) (listening s) (crashed s) (exited s)
          (List.map (fun te => (te.1, blind_event te.2)) (trace s)).

(** The outside world does not see the tracker of the process. *)
Definition oracle_blind (o : Oracle) : Prop :=
  forall r s1 s2, blind s1 = blind s2 -> o r s1 = o r s2.

(** An action that does not read what is hidden. *)
Definition commutes {B} (act : State -> B * State) : Prop :=
  forall s, (act (blind s)).1 = (act s).1 /\ (act (blind s)).2 = blind (act s).2.

Inductive secure {A : Type} : Prog A -> Prop :=
| sec_Ret (a : A) : secure (Ret a)
| sec_Atomic (B : Type) (act : State -> B * State) (k : B -> Prog A) :
    commutes act -> (forall b, secure (k b)) -> secure (Atomic act k)
| sec_IO (r : IOReq) (k : IOResp r -> Prog A) :
    (forall a, secure (k a)) -> secure (IO r k).

(** [proceedWithShutdown] after its first log record: there the two runs
    differ in one log attribute at most. *)
Definition afterProceeding (suspendFunc : Prog (option error)) : Prog unit :=
  do cfg <- gets config;
  do _ <- (if missingGCPConfig cfg then
             modify (slog LevelWarn "Missing GCP configuration, cannot suspend"
                       [("project"%string, AString (GoogleProjectID cfg));
                        ("zone"%string, AString (GCEZone cfg));
                        ("instance"%string, AString (GCEInstance cfg))])
           else
             do err <- suspendFunc;
             match err with
             | Some e => modify (slog LevelError "Failed to suspend instance"
                                   [("error"%string, AString e)])
             | None => modify (slog LevelInfo "Suspend request sent successfully" [])
             end);
  Atomic signalShutdown Ret.

(** Two states that differ in [lastPing] only. *)
Definition with_lastPing (t : Time) (s : State) : State :=
  set_tracker (mkActivityTracker (requestCount (tracker s)) t) s.

(** The suspend request of either strategy. *)
Definition action_event (e : Event) : bool :=
  match e with
  | EvIO (ReqHttpDo _ req) => String.eqb (Method req) "POST"
  | EvIO (ReqInstancesSuspend _ _ _) => true
  | _ => false
  end.

Definition tokenRequest : Request :=
  Request_Header_Set "Metadata-Flavor" "Google" (mkRequest "GET" Rest.tokenURL []).

Definition statusRequest (token : AccessToken) (url : string) : Request :=
  Request_Header_Set "Authorization" ("Bearer " +:+ Token token)
                     (mkRequest "GET" url []).

Definition suspendRequest (token : AccessToken) (url : string) : Request :=
  Request_Header_Set "Authorization" ("Bearer " +:+ Token token)
                     (mkRequest "POST" (url +:+ "/suspend") []).

(** The states [suspendInstance] and [suspendMachine] go through. *)
Definition attempting (s : State) : State :=
  (resetShutdownTimer
     (slog LevelInfo "Attempting to suspend instance directly via GCP API" [] s)).2.

Definition checking (s : State) : State :=
  slog LevelInfo "Checking if machine is suspended"
       [("project"%string, AString (GoogleProjectID (config s)));
        ("zone"%string, AString (GCEZone (config s)));
        ("instance"%string, AString (GCEInstance (config s)))] s.

Definition running (s : State) : State :=
  slog LevelInfo "Instance is RUNNING, suspending instance" [] s.

Definition notRunning (status : string) (s : State) : State :=
  slog LevelInfo "Instance is not RUNNING, skipping suspension"
       [("status"%string, AString status)] s.

Definition completed (s : State) : State :=
  slog LevelInfo "Suspend request completed successfully" [] s.

(** The trace only grows. *)
Definition Rgrow (s s' : State) : Prop :=
  exists evs, trace s' = evs ++ trace s.

(** The sub-step that failed, and the calls made on the lifecycle API. *)
Inductive Stage := StageCredentials | StageStatus | StageSuspend.



(** The events a run added to the trace, oldest first. *)
Definition new_events (s s' : State) : list (Time * Event) :=
  rev (take (length (trace s') - length (trace s))%nat (trace s')).




Fixpoint has_prefix (p s : string) : bool :=
  match p with
  | EmptyString => true
  | String a p' =>
      match s with
      | EmptyString => false
      | String b s' => Ascii.eqb a b && has_prefix p' s'
      end
  end.

(** The failed sub-step, read off the error each strategy returns. *)
Definition Rest_stage (err : option error) : option Stage :=
  match err with
  | None => None
  | Some e =>
      if has_prefix "getAccessToken: " e then Some StageCredentials
      else if has_prefix "getMachineMetadata: " e then Some StageStatus
      else if has_prefix "performInstanceAction: " e then Some StageSuspend
      else None
  end.

Definition Sdk_stage (err : option error) : option Stage :=
  match err with
  | None => None
  | Some e =>
      if has_prefix "createComputeService: " e then Some StageCredentials
      else if has_prefix "failed to get instance: " e then Some StageStatus
      else if has_prefix "failed to suspend instance: " e then Some StageSuspend
      else None
  end.

(** The blocking calls among a list of events, in their order. *)
Definition io_requests (evs : list (Time * Event)) : list IOReq :=
  omap (fun te => match te.2 with EvIO q => Some q | _ => None end) evs.



(** What an answer of the outside world amounts to for the REST strategy:
    a token when a response came with status 200 and a body that decodes,
    an instance likewise, an accepted action when a response came with
    status 200. *)
Definition token_of (lib : Lib) (ans : result Response) : option AccessToken :=
  match ans with
  | Ok resp =>
      if StatusCode resp =? StatusOK then
        match json_Decode_AccessToken lib (Body resp) with
        | (t, None) => Some t
        | (_, Some _) => None
        end
      else None
  | Err _ => None
  end.

Definition instance_of (lib : Lib) (ans : result Response) : option ComputeInstance :=
  match ans with
  | Ok resp =>
      if StatusCode resp =? StatusOK then
        match json_Decode_ComputeInstance lib (Body resp) with
        | (vm, None) => Some vm
        | (_, Some _) => None
        end
      else None
  | Err _ => None
  end.

Definition accepted (ans : result Response) : bool :=
  match ans with
  | Ok resp => StatusCode resp =? StatusOK
  | Err _ => false
  end.

(** The suspend procedure in the words of the specification, told against
    the answers [o] of the outside world, from the state [s] in which the
    first request is made: acquire the credentials, fetch the status,
    issue the suspend action if and only if the status is "RUNNING"; fail
    when a sub-step fails or is answered with a non-success response.
    The result is the requests that are sent, in order, and the sub-step
    that failed, if any.  For the REST strategy a request that cannot be
    built is not sent, and its sub-step has failed. *)
Definition Rest_expected (lib : Lib) (o : Oracle) (url : string) (s : State)
    : list IOReq * option Stage :=
  let q1 := ReqHttpDo (10 * Second) tokenRequest in
  match http_NewRequest_err lib "GET" Rest.tokenURL with
  | Some _ => ([], Some StageCredentials)
  | None =>
    match token_of lib (o q1 s) with
    | None => ([q1], Some StageCredentials)
    | Some t =>
      let s1 := emit (EvIO q1) s in
      let q2 := ReqHttpDo (30 * Second) (statusRequest t url) in
      match http_NewRequest_err lib "GET" url with
      | Some _ => ([q1], Some StageStatus)
      | None =>
        match instance_of lib (o q2 s1) with
        | None => ([q1; q2], Some StageStatus)
        | Some vm =>
          if String.eqb (Status vm) "RUNNING" then
            let s2 := running (emit (EvIO q2) s1) in
            let q3 := ReqHttpDo (30 * Second) (suspendRequest t url) in
            match http_NewRequest_err lib "POST" (url +:+ "/suspend") with
            | Some _ => ([q1; q2], Some StageSuspend)
            | None =>
                ([q1; q2; q3],
                 if accepted (o q3 s2) then None else Some StageSuspend)
            end
          else ([q1; q2], None)
        end
      end
    end
  end.

Definition Sdk_expected (o : Oracle) (cfg : Config) (s : State)
    : list IOReq * option Stage :=
  let q1 := ReqFindDefaultCredentials Sdk.ComputeScope in
  let q2 := ReqNewService in
  let q3 := ReqInstancesGet (GoogleProjectID cfg) (GCEZone cfg) (GCEInstance cfg) in
  let q4 := ReqInstancesSuspend (GoogleProjectID cfg) (GCEZone cfg)
                                (GCEInstance cfg) in
  match o q1 s with
  | Some _ => ([q1], Some StageCredentials)
  | None =>
    let s1 := emit (EvIO q1) s in
    match o q2 s1 with
    | Some _ => ([q1; q2], Some StageCredentials)
    | None =>
      let s2 := emit (EvIO q2) s1 in
      match o q3 s2 with
      | Err _ => ([q1; q2; q3], Some StageStatus)
      | Ok instance =>
        if String.eqb (Status instance) "RUNNING" then
          let s3 := running (emit (EvIO q3) s2) in
          ([q1; q2; q3; q4],
           match o q4 s3 with None => None | Some _ => Some StageSuspend end)
        else ([q1; q2; q3], None)
      end
    end
  end.







(** A world in which every write to the connection fails with [e]. *)
Definition fail_writes (e : error) (o : Oracle) : Oracle :=
  fun r =>
    match r return State -> IOResp r with
    | ReqWrite _ => fun _ => Some e
    | ReqExec n a => o (ReqExec n a)
    | ReqHttpDo t q => o (ReqHttpDo t q)
    | ReqListenAndServe a => o (ReqListenAndServe a)
    | ReqSelect => o ReqSelect
    | ReqServerShutdown => o ReqServerShutdown
    | ReqFindDefaultCredentials c => o (ReqFindDefaultCredentials c)
    | ReqNewService => o ReqNewService
    | ReqInstancesGet p z i => o (ReqInstancesGet p z i)
    | ReqInstancesSuspend p z i => o (ReqInstancesSuspend p z i)
    end.

(** A library in which a date is a count of days: enough to run the
    probe. *)
Definition Day : Z := 86400 * Second.

Definition demoLib : Lib :=
  mkLib (fun s => s)
        (fun layout value =>
           if String.eqb value "12:00:05" then Some ((12 * 3600 + 5) * Second)
           else None)
        (fun t => t / Day) (fun _ => 1) (fun _ => 1)
        (fun t => (t mod Day) / (3600 * Second))
        (fun t => (t mod (3600 * Second)) / (60 * Second))
        (fun t => (t mod (60 * Second)) / Second)
        (fun y _ _ h m sec ns => y * Day + (h * 3600 + m * 60 + sec) * Second + ns)
        (fun _ _ => None)
        (fun body => (mkAccessToken body 3600 "Bearer", None))
        (fun body => (mkComputeInstance body, None)).

(** A world without a runner container, in which every call succeeds and
    the instance is running. *)
Definition idleWorld : Oracle :=
  fun r =>
    match r return State -> IOResp r with
    | ReqExec _ _ => fun _ => Err "exit status 1"%string
    | ReqHttpDo _ q => fun _ =>
        if String.eqb (URL q) Rest.tokenURL then Ok (mkResponse 200 "ya29.demo")
        else Ok (mkResponse 200 "RUNNING")
    | ReqWrite _ => fun _ => None
    | ReqListenAndServe _ => fun _ => None
    | ReqSelect => fun _ => CaseServerShutdown
    | ReqServerShutdown => fun _ => None
    | ReqFindDefaultCredentials _ => fun _ => None
    | ReqNewService => fun _ => None
    | ReqInstancesGet _ _ _ => fun _ => Ok (mkComputeInstance "RUNNING")
    | ReqInstancesSuspend _ _ _ => fun _ => None
    end.

(** The same world with a runner that logged at 12:00:05. *)
Definition busyWorld : Oracle :=
  fun r =>
    match r return State -> IOResp r with
    | ReqExec _ _ => fun _ => Ok "12:00:05:job started"%string
    | ReqHttpDo t q => idleWorld (ReqHttpDo t q)
    | ReqWrite d => idleWorld (ReqWrite d)
    | ReqListenAndServe a => idleWorld (ReqListenAndServe a)
    | ReqSelect => idleWorld ReqSelect
    | ReqServerShutdown => idleWorld ReqServerShutdown
    | ReqFindDefaultCredentials c => idleWorld (ReqFindDefaultCredentials c)
    | ReqNewService => idleWorld ReqNewService
    | ReqInstancesGet p z i => idleWorld (ReqInstancesGet p z i)
    | ReqInstancesSuspend p z i => idleWorld (ReqInstancesSuspend p z i)
    end.

Definition demoConfig : Config :=
  mkConfig "8808" (90 * Second) "" "INFO" "test-project" "test-zone"
           "test-instance".

Definition keepOnlineConfig : Config :=
  mkConfig "8808" (90 * Second) "yes" "INFO" "test-project" "test-zone"
           "test-instance".

Definition demoPing : Inbound := mkInbound "/ping" "10.0.0.1:40000" "curl/8".

(** A state at 12:00:10 of day 0, the timer armed ten seconds before. *)
Definition demoState : State :=
  mkState demoConfig (mkActivityTracker 3 ((12 * 3600) * Second))
          (Some 0%nat) false ((12 * 3600 + 10) * Second)
          {[ 0%nat := (12 * 3600 + 90) * Second ]} 1%nat true None false [].








(** [main] starts, arms the timer and serves (7 steps); nothing happens
    for the timeout; the timer fires and its callback runs to the end (18
    steps); [main] sees the closed channel and shuts down. *)
Definition demoSchedule : list Label :=
  replicate 7 (LStep 0 idleWorld)
  ++ [LTick (90 * Second); LFire 0]
  ++ replicate 18 (LStep 1 idleWorld)
  ++ replicate 3 (LStep 0 idleWorld).

Definition demoFinal : Sys :=
  default (boot demoConfig 0) (execs demoLib BuildRest (boot demoConfig 0) demoSchedule).

(** With the keep-online flag set: [main] starts and serves without
    arming (5 steps); one ping is handled (5 steps); nothing happens for
    the timeout; the timer armed by the ping fires and its callback runs
    to the end (18 steps). *)
Definition keepOnlineSchedule : list Label :=
  replicate 5 (LStep 0 idleWorld)
  ++ [LRequest demoPing]
  ++ replicate 5 (LStep 1 idleWorld)
  ++ [LTick (90 * Second); LFire 0]
  ++ replicate 18 (LStep 2 idleWorld).

Definition keepOnlineFinal : Sys :=
  default (boot keepOnlineConfig 0)
          (execs demoLib BuildRest (boot keepOnlineConfig 0) keepOnlineSchedule).

(** [TestTimerResetOnPingRequest] of [main_test.go], with the test double:
    the timer is armed at 0, a ping arrives one second before the timeout
    and is handled, two seconds pass. *)
Definition pingResetPrefix : list Label :=
  replicate 7 (LStep 0 idleWorld)
  ++ [LTick (89 * Second); LRequest demoPing]
  ++ replicate 5 (LStep 1 idleWorld)
  ++ [LTick (2 * Second)].

(** The timeout passes after the ping, the new timer fires and its
    callback runs to the end (9 steps with the test double). *)
Definition pingResetSuffix : list Label :=
  [LTick (88 * Second); LFire 1] ++ replicate 9 (LStep 2 idleWorld).

Definition traceOf (y : option Sys) : list (Time * Event) :=
  match y with Some y => trace (shared y) | None => [] end.

(** ** Loading the configuration *)

(** The environment of the process.  [os.Getenv] gives the empty string
    for a variable that is not set. *)
Definition os_Getenv (env : gmap string string) (key : string) : string :=
  default EmptyString (env !! key).

Definition getEnv (env : gmap string string) (key defaultValue : string) : string :=
  let value := os_Getenv env key in
  if negb (String.eqb value "") then value else defaultValue.

(** [strconv.Atoi] is a parameter: the integer it parsed, or [None] for
    its error. *)
Definition getDurationEnv (atoi : string -> option Z) (env : gmap string string)
    (key : string) (defaultSeconds : Z) : Duration :=
  let value := getEnv env key "" in
  if negb (String.eqb value "") then
    match atoi value with
    | Some seconds => seconds
    | None => defaultSeconds
    end
  else defaultSeconds.

(** The product with [time.Second] is an [int64] product. *)
Definition loadConfig (atoi : string -> option Z) (env : gmap string string)
    : Config :=
  mkConfig (getEnv env "PORT" "8808")
           (wrap64 (getDurationEnv atoi env "INACTIVITY_TIMEOUT" 90 * Second))
           (getEnv env "LIBOPS_KEEP_ONLINE" "")
           (getEnv env "LOG_LEVEL" "INFO")
           (getEnv env "GCP_PROJECT" "")
           (getEnv env "GCP_ZONE" "")
           (getEnv env "GCP_INSTANCE_NAME" "").

(** [init]: the configuration is loaded and the tracker created; [main]
    runs next.  [setupLogging] only chooses which records are printed. *)
Definition init (atoi : string -> option Z) (env : gmap string string)
    (now : Time) : Sys :=
  boot (loadConfig atoi env) now.

(** ** More worlds and predicates for the statements *)

(** A world in which every write to the connection succeeds. *)
Definition pass_writes (o : Oracle) : Oracle :=
  fun r =>
    match r return State -> IOResp r with
    | ReqWrite _ => fun _ => None
    | ReqExec n a => o (ReqExec n a)
    | ReqHttpDo t q => o (ReqHttpDo t q)
    | ReqListenAndServe a => o (ReqListenAndServe a)
    | ReqSelect => o ReqSelect
    | ReqServerShutdown => o ReqServerShutdown
    | ReqFindDefaultCredentials c => o (ReqFindDefaultCredentials c)
    | ReqNewService => o ReqNewService
    | ReqInstancesGet p z i => o (ReqInstancesGet p z i)
    | ReqInstancesSuspend p z i => o (ReqInstancesSuspend p z i)
    end.

(** What a handler that only answers leaves alone: everything but the
    trace. *)
Definition Ranswer (s s' : State) : Prop :=
  tracker s' = tracker s /\ timers s' = timers s
  /\ shutdownTimer s' = shutdownTimer s /\ timerSeq s' = timerSeq s
  /\ serverShutdown s' = serverShutdown s /\ config s' = config s
  /\ clock s' = clock s /\ crashed s' = crashed s
  /\ count_events suspend_event (trace s') = count_events suspend_event (trace s).

(** An environment that sets nothing but the timeout, and a state of the
    process it configures. *)
Definition demoEnv : gmap string string := {[ "INACTIVITY_TIMEOUT"%string := "90"%string ]}.

Definition demoAtoi (v : string) : option Z :=
  if String.eqb v "90" then Some 90 else None.

(** The configuration is the one loaded and the last ping is not in the
    future. *)
Definition steady (cfg : Config) (now : Time) (s : State) : Prop :=
  config s = cfg /\ now <= lastPing (tracker s) /\ lastPing (tracker s) <= clock s.

(** [ensures I p]: started in a state of [I], every step of [p] ends in a
    state of [I].  What follows an atomic action is what follows the value
    it returns in such a state. *)
Inductive ensures (I : State -> Prop) {A : Type} : Prog A -> Prop :=
| e_Ret (a : A) : ensures I (Ret a)
| e_Atomic (B : Type) (act : State -> B * State) (k : B -> Prog A) :
    (forall s, I s -> I (act s).2) ->
    (forall s, I s -> ensures I (k (act s).1)) ->
    ensures I (Atomic act k)
| e_IO (r : IOReq) (k : IOResp r -> Prog A) :
    (forall s, I s -> I (emit (EvIO r) s)) ->
    (forall a, ensures I (k a)) ->
    ensures I (IO r k).

(** The requests of a schedule that the statement admits. *)
Definition label_ok (ok : Inbound -> bool) (l : Label) : bool :=
  match l with
  | LRequest r => ok r
  | _ => true
  end.

Definition not_ping (r : Inbound) : bool := negb (String.eqb (Path r) "/ping").

Definition arm_event (e : Event) : bool :=
  match e with EvAfterFunc _ _ => true | _ => false end.

(** The process was told to stay online and nothing ever armed the
    timer. *)
Definition never_armed (s : State) : Prop :=
  LibOpsKeepOnline (config s) = "yes"%string
  /\ timers s = ∅ /\ shutdownTimer s = None
  /\ serverShutdown s = false /\ crashed s = None
  /\ Forall (fun te => arm_event te.2 = false /\ suspend_event te.2 = false
                       /\ close_event te.2 = false) (trace s).

(** The identity of the machine is incomplete and nothing was
    suspended. *)
Definition never_suspended (s : State) : Prop :=
  missingGCPConfig (config s) = true
  /\ Forall (fun te => suspend_event te.2 = false) (trace s).

(** The number of colons of a string, and [strings.Join(parts, ":")]. *)
Fixpoint colons (s : string) : nat :=
  match s with
  | EmptyString => 0%nat
  | String c rest =>
      ((if Ascii.eqb c (Ascii.ascii_of_nat 58) then 1 else 0) + colons rest)%nat
  end.

Fixpoint strings_Join_colon (parts : list string) : string :=
  match parts with
  | [] => EmptyString
  | p :: ps =>
      match ps with
      | [] => p
      | _ :: _ => p +:+ ":" +:+ strings_Join_colon ps
      end
  end.

(** What no step of the process undoes. *)
Definition Rforward (s s' : State) : Prop :=
  config s' = config s
  /\ clock s <= clock s'
  /\ (exists evs, trace s' = evs ++ trace s)
  /\ (serverShutdown s = true -> serverShutdown s' = true)
  /\ (lastPing (tracker s) <= clock s ->
      lastPing (tracker s) <= lastPing (tracker s') <= clock s').

(** The number of steps a program takes when it runs on its own. *)
Fixpoint steps_of {A} (o : Oracle) (p : Prog A) (s : State) : nat :=
  match p with
  | Ret _ => 0%nat
  | Atomic act k => let '(b, s') := act s in S (steps_of o (k b) s')
  | IO r k => S (steps_of o (k (o r s)) (emit (EvIO r) s))
  end.

(** A program that can always take its next step and never halts the
    process: it does not wait in a [select], does not panic and does not
    return from [main]. *)
Inductive uninterrupted {A : Type} : Prog A -> Prop :=
| u_Ret (a : A) : uninterrupted (Ret a)
| u_Atomic (B : Type) (act : State -> B * State) (k : B -> Prog A) :
    (forall s, halted s = false -> halted (act s).2 = false) ->
    (forall b, uninterrupted (k b)) ->
    uninterrupted (Atomic act k)
| u_IO (r : IOReq) (k : IOResp r -> Prog A) :
    (forall a s, io_enabled r a s = true) ->
    (forall a, uninterrupted (k a)) ->
    uninterrupted (IO r k).

(** The time of the latest [time.AfterFunc]. *)
Fixpoint last_armed (tr : list (Time * Event)) : option Time :=
  match tr with
  | [] => None
  | (t, e) :: older => if arm_event e then Some t else last_armed older
  end.

(** Every pending timer is the one [shutdownTimer] holds, it was armed
    last, and it is due a timeout after that moment or later. *)
Definition rested (cfg : Config) (s : State) : Prop :=
  config s = cfg /\ held s
  /\ forall t due, timers s !! t = Some due ->
       exists a, last_armed (trace s) = Some a
                 /\ a + InactivityTimeout cfg <= due.

(** ** More concrete inputs *)

Definition demoHealth : Inbound := mkInbound "/healthcheck" "10.0.0.1:40001" "kube-probe/1.30".

(** With the keep-online flag set and no ping: [main] starts and serves (5
    steps), a health check is answered, time passes. *)
Definition quietSchedule : list Label :=
  replicate 5 (LStep 0 idleWorld)
  ++ [LRequest demoHealth; LStep 1 idleWorld; LTick (200 * Second)].

Definition quietFinal : Sys :=
  default (boot keepOnlineConfig 0)
          (execs demoLib BuildRest (boot keepOnlineConfig 0) quietSchedule).

(** A process whose environment names no machine: the timer is armed,
    fires after the timeout, and its callback runs to the end (9 steps). *)
Definition unsetSchedule : list Label :=
  replicate 7 (LStep 0 idleWorld)
  ++ [LTick (90 * Second); LFire 0]
  ++ replicate 9 (LStep 1 idleWorld).

Definition unsetFinal : Sys :=
  default (init demoAtoi demoEnv 0)
          (execs demoLib BuildRest (init demoAtoi demoEnv 0) unsetSchedule).

(** The run of [demoSchedule] in two parts: up to the moment the server
    listens, and from there on. *)
Definition demoScheduleStart : list Label := replicate 7 (LStep 0 idleWorld).

Definition demoScheduleRest : list Label :=
  [LTick (90 * Second); LFire 0]
  ++ replicate 18 (LStep 1 idleWorld)
  ++ replicate 3 (LStep 0 idleWorld).

Definition demoArmed : Sys :=
  default (boot demoConfig 0)
          (execs demoLib BuildRest (boot demoConfig 0) demoScheduleStart).

(** The run of [demoSchedule] up to the moment the timer is due. *)
Definition demoDue : Sys :=
  default (boot demoConfig 0)
          (execs demoLib BuildRest (boot demoConfig 0)
                 (demoScheduleStart ++ [LTick (90 * Second)])).

Definition demoFired : Sys :=
  mkSys (set_timers (delete 0%nat (timers (shared demoDue))) (shared demoDue))
        (pool demoDue ++ [timerCallback demoLib (suspendFunc demoLib BuildRest)]).

(** * Properties *)

(** ** Running programs *)

Lemma run_bind {A B} (o : Oracle) (p : Prog A) (f : A -> Prog B) (s : State) :
  run o (bind p f) s = run o (f (run o p s).1) (run o p s).2.
Proof.
  revert s. induction p as [a | C act k IH | r k IH]; intros s; simpl.
  - reflexivity.
  - destruct (act s) as [b s']. apply IH.
  - apply IH.
Qed.

Lemma probe_state (lib : Lib) (o : Oracle) (s : State) :
  (run o (getLastGitHubActionsActivity lib) s).2 = emit (EvIO dockerLogs) s.
Proof.
  unfold getLastGitHubActionsActivity. rewrite run_bind. simpl.
  destruct (o _ s) as [output | e]; simpl; [| reflexivity].
  destruct (String.eqb _ _); simpl; [reflexivity |].
  destruct (strings_Split_colon _) as [| p0 [| p1 [| p2 rest]]]; simpl;
    try reflexivity.
  destruct (time_Parse _ _ _); reflexivity.
Qed.

(** What [resetShutdownTimer] leaves alone. *)
Lemma resetShutdownTimer_frame (s : State) :
  let s' := (resetShutdownTimer s).2 in
  config s' = config s /\ tracker s' = tracker s /\
  serverShutdown s' = serverShutdown s /\ clock s' = clock s /\
  crashed s' = crashed s /\ exited s' = exited s /\ listening s' = listening s.
Proof.
  unfold resetShutdownTimer. destruct (shutdownTimer s); simpl; repeat split.
Qed.

Lemma resetShutdownTimer_trace (s : State) :
  trace (resetShutdownTimer s).2 = rearm_events s ++ trace s.
Proof.
  unfold resetShutdownTimer, rearm_events. destruct (shutdownTimer s); reflexivity.
Qed.

Lemma rearm_events_quiet (s : State) :
  Forall (fun te => suspend_event te.2 = false /\ close_event te.2 = false
                    /\ io_event te.2 = false) (rearm_events s).
Proof.
  unfold rearm_events. destruct (shutdownTimer s); repeat constructor.
Qed.

Lemma count_events_app (f : Event -> bool) (l1 l2 : list (Time * Event)) :
  count_events f (l1 ++ l2) = (count_events f l1 + count_events f l2)%nat.
Proof.
  induction l1 as [| [t e] l1 IH]; [reflexivity |].
  cbn [app count_events]. rewrite IH. lia.
Qed.

(** ** The decision routine, step by step *)

Lemma run_atomic {B} (o : Oracle) (act : State -> B * State) (s : State) :
  run o (Atomic act Ret) s = act s.
Proof. cbn [run]. destruct (act s); reflexivity. Qed.

Ltac run_step :=
  rewrite run_bind; rewrite ?run_atomic; cbn [run gets modify fst snd].

Lemma run_checkGitHubActions (lib : Lib) (o : Oracle) (s : State) :
  let lastGHA := (run o (getLastGitHubActionsActivity lib) s).1.1 in
  let s1 := emit (EvIO dockerLogs) s in
  run o (checkGitHubActions lib (clock s)) s =
    if fallback_fresh lib o s
    then (true, stayingOnline (Time_Sub (clock s) lastGHA) s1)
    else (false, s1).
Proof.
  intros lastGHA s1. unfold checkGitHubActions, fallback_fresh.
  rewrite run_bind, probe_state. subst lastGHA.
  destruct (run o (getLastGitHubActionsActivity lib) s) as [[ts err] s0].
  cbn [fst snd]. destruct err as [e |]; [reflexivity |].
  run_step. change (config (emit (EvIO dockerLogs) s)) with (config s).
  rewrite bool_decide_true by reflexivity. cbn [andb].
  destruct (Time_Sub (clock s) ts <? InactivityTimeout (config s)); [| reflexivity].
  run_step. run_step. unfold stayingOnline. fold s1.
  destruct (resetShutdownTimer _) as [[] s2]. reflexivity.
Qed.

Lemma run_initiateShutdown (lib : Lib) (o : Oracle) (sf : Prog (option error))
    (s : State) :
  run o (initiateShutdown lib sf) s =
    let r := run o (checkGitHubActions lib (clock s)) s in
    if r.1 then (tt, r.2)
    else run o (proceedWithShutdown sf (Time_Sub (clock s) (lastPing (tracker s))))
             r.2.
Proof.
  unfold initiateShutdown. run_step. run_step. run_step.
  destruct (run o (checkGitHubActions lib (clock s)) s) as [[] s1]; reflexivity.
Qed.

Lemma run_proceedWithShutdown (o : Oracle) (sf : Prog (option error))
    (duration : Duration) (s : State) :
  run o (proceedWithShutdown sf duration) s =
    let s1 := proceeding duration s in
    let s2 := if missingGCPConfig (config s) then missingWarned s1
              else let r := run o sf s1 in suspendReported r.1 r.2 in
    signalShutdown s2.
Proof.
  unfold proceedWithShutdown. run_step. run_step. run_step.
  change (config (slog _ _ _ s)) with (config s).
  fold (proceeding duration s).
  destruct (missingGCPConfig (config s)).
  - cbn [run modify fst snd]. destruct (signalShutdown _) as [[] ?]. reflexivity.
  - run_step. destruct (run o sf _) as [[e |] s2]; cbn [run modify fst snd];
      destruct (signalShutdown _) as [[] ?]; reflexivity.
Qed.

Lemma stayingOnline_frame (d : Duration) (s : State) :
  let s' := stayingOnline d s in
  config s' = config s /\ tracker s' = tracker s /\
  serverShutdown s' = serverShutdown s /\ clock s' = clock s /\
  crashed s' = crashed s.
Proof.
  unfold stayingOnline.
  pose proof (resetShutdownTimer_frame
                (slog LevelInfo "Staying online for GitHub Actions"
                   [("gha_duration_seconds"%string, ASeconds d)] s)) as F.
  cbn zeta in F. destruct F as (F1 & F2 & F3 & F4 & F5 & _).
  cbn zeta. rewrite F1, F2, F3, F4, F5. repeat split.
Qed.

Lemma stayingOnline_trace (d : Duration) (s : State) :
  exists evs, trace (stayingOnline d s) = evs ++ trace s
    /\ Forall (fun te => suspend_event te.2 = false /\ close_event te.2 = false
                         /\ io_event te.2 = false) evs.
Proof.
  unfold stayingOnline. rewrite resetShutdownTimer_trace.
  eexists (rearm_events _ ++ [_]). split.
  - rewrite <- app_assoc. reflexivity.
  - apply Forall_app. split; [apply rearm_events_quiet | repeat constructor].
Qed.

(** The rearm, said of the state itself: the new timer is pending and is
    the one [shutdownTimer] holds, the timer held before was stopped, and
    both calls are on record. *)
Lemma stayingOnline_rearmed (d : Duration) (s : State) :
  let s' := stayingOnline d s in
  let due := when (InactivityTimeout (config s)) s in
  timers s' = <[timerSeq s := due]>
                (match shutdownTimer s with
                 | Some t => delete t (timers s)
                 | None => timers s
                 end)
  /\ timers s' !! timerSeq s = Some due
  /\ shutdownTimer s' = Some (timerSeq s)
  /\ timerSeq s' = S (timerSeq s)
  /\ In (clock s, EvAfterFunc (timerSeq s) due) (trace s')
  /\ (forall t, shutdownTimer s = Some t -> In (clock s, EvStop t) (trace s')).
Proof.
  unfold stayingOnline, resetShutdownTimer.
  destruct (shutdownTimer s) as [t0 |] eqn:E0; cbn.
  - rewrite E0. cbn. repeat split.
    + apply lookup_insert_eq.
    + right. left. reflexivity.
    + intros t [= <-]. right. right. left. reflexivity.
  - rewrite E0. cbn. repeat split.
    + apply lookup_insert_eq.
    + right. left. reflexivity.
    + discriminate.
Qed.

(** ** C1: fresh fallback activity *)

(** C1. When the fallback probe returns a timestamp [lastGHA] without an
    error and [now.Sub(lastGHA)] is strictly below the configured timeout,
    [initiateShutdown] logs, rearms the timer and returns: the state it
    leaves is the one [resetShutdownTimer] produces right after the probe,
    whatever [suspendFunc] is (it is not run); [serverShutdown] is as it
    was, and none of the events added is a suspension or a close.  The
    rearm itself: when the routine returns, a new timer is pending, due a
    timeout from now, [shutdownTimer] holds it, the timer held before is
    no longer pending, and the calls of [Stop] and [time.AfterFunc] are on
    record; the pending timers are the ones pending before, less the one
    that was held, plus the new one. *)
Theorem initiateShutdown_fresh_fallback_rearms
    (lib : Lib) (o : Oracle) (sf : Prog (option error)) (s : State)
    (lastGHA : Time) (s1 : State) :
  run o (getLastGitHubActionsActivity lib) s = ((lastGHA, None), s1) ->
  Time_Sub (clock s) lastGHA < InactivityTimeout (config s) ->
  let s' := (run o (initiateShutdown lib sf) s).2 in
  let due := when (InactivityTimeout (config s)) s in
  s' = stayingOnline (Time_Sub (clock s) lastGHA) s1
  /\ serverShutdown s' = serverShutdown s
  /\ crashed s' = crashed s
  /\ (exists evs, trace s' = evs ++ trace s
       /\ Forall (fun te => suspend_event te.2 = false
                            /\ close_event te.2 = false) evs)
  /\ timers s' !! timerSeq s = Some due
  /\ shutdownTimer s' = Some (timerSeq s)
  /\ timers s' = <[timerSeq s := due]>
                   (match shutdownTimer s with
                    | Some t => delete t (timers s)
                    | None => timers s
                    end)
  /\ (forall t, shutdownTimer s = Some t -> t <> timerSeq s ->
                timers s' !! t = None)
  /\ In (clock s, EvAfterFunc (timerSeq s) due) (trace s')
  /\ (forall t, shutdownTimer s = Some t -> In (clock s, EvStop t) (trace s'))
  /\ count_events arm_event (trace s') = S (count_events arm_event (trace s)).
Proof.
  intros Hprobe Hfresh s' due.
  assert (Hs1 : s1 = emit (EvIO dockerLogs) s).
  { rewrite <- (probe_state lib o s), Hprobe. reflexivity. }
  assert (Hff : fallback_fresh lib o s = true).
  { unfold fallback_fresh. rewrite Hprobe.
    rewrite bool_decide_true by reflexivity. apply Z.ltb_lt in Hfresh.
    rewrite Hfresh. reflexivity. }
  assert (Es' : s' = stayingOnline (Time_Sub (clock s) lastGHA) s1).
  { subst s'. rewrite run_initiateShutdown. cbn zeta.
    rewrite run_checkGitHubActions. cbn zeta. rewrite Hff, Hprobe, Hs1.
    reflexivity. }
  split; [exact Es' |]. rewrite Es'.
  destruct (stayingOnline_frame (Time_Sub (clock s) lastGHA) s1)
    as (_ & _ & Fsd & _ & Fcr).
  split; [rewrite Fsd, Hs1; reflexivity |].
  split; [rewrite Fcr, Hs1; reflexivity |].
  split.
  { destruct (stayingOnline_trace (Time_Sub (clock s) lastGHA) s1)
      as (evs & Etr & Hq).
    exists (evs ++ [(clock s, EvIO dockerLogs)]). split.
    - rewrite Etr, Hs1, <- app_assoc. reflexivity.
    - apply Forall_app. split.
      + eapply Forall_impl; [exact Hq |]. cbn beta. tauto.
      + repeat constructor. }
  destruct (stayingOnline_rearmed (Time_Sub (clock s) lastGHA) s1)
    as (R1 & R2 & R3 & _ & R5 & R6).
  rewrite Hs1 in R1, R2, R3, R5, R6.
  change (timerSeq (emit (EvIO dockerLogs) s)) with (timerSeq s) in *.
  change (shutdownTimer (emit (EvIO dockerLogs) s)) with (shutdownTimer s) in *.
  change (timers (emit (EvIO dockerLogs) s)) with (timers s) in *.
  change (clock (emit (EvIO dockerLogs) s)) with (clock s) in *.
  change (when (InactivityTimeout (config (emit (EvIO dockerLogs) s)))
               (emit (EvIO dockerLogs) s)) with due in *.
  rewrite <- Hs1 in R1, R2, R3, R5, R6.
  split; [exact R2 |]. split; [exact R3 |]. split; [exact R1 |].
  split.
  { intros t Ht Hne. rewrite R1, Ht, lookup_insert_ne by congruence.
    apply lookup_delete_eq. }
  split; [exact R5 |]. split; [exact R6 |].
  unfold stayingOnline. rewrite resetShutdownTimer_trace, count_events_app.
  rewrite Hs1. unfold rearm_events. cbn [shutdownTimer slog emit set_trace].
  destruct (shutdownTimer s); reflexivity.
Qed.

(** ** What every step of a program guarantees *)

Section Guarantees.
Context (R : State -> State -> Prop).

Lemma guarantees_bind {A B} (p : Prog A) (f : A -> Prog B) :
  guarantees R p -> (forall a, guarantees R (f a)) -> guarantees R (bind p f).
Proof.
  intros Hp Hf. induction Hp as [a | C act k Hact Hk IH | r k Hr Hk IH];
    cbn [bind].
  - apply Hf.
  - apply g_Atomic; assumption.
  - apply g_IO; assumption.
Qed.

Lemma guarantees_modify (f : State -> State) :
  (forall s, R s (f s)) -> guarantees R (modify f).
Proof. intros H. apply g_Atomic; [exact H | intros []; apply g_Ret]. Qed.

Lemma guarantees_gets {B} (f : State -> B) :
  (forall s, R s s) -> guarantees R (gets f).
Proof. intros H. apply g_Atomic; [exact H | intros b; apply g_Ret]. Qed.

Lemma guarantees_call (r : IOReq) :
  (forall s, R s (emit (EvIO r) s)) -> guarantees R (call r).
Proof. intros H. apply g_IO; [exact H | intros a; apply g_Ret]. Qed.

(** A run on its own is a chain of such steps. *)
Lemma run_guarantees {A} (o : Oracle) (p : Prog A) :
  (forall s, R s s) ->
  (forall s1 s2 s3, R s1 s2 -> R s2 s3 -> R s1 s3) ->
  guarantees R p -> forall s, R s (run o p s).2.
Proof.
  intros Hrefl Htrans Hp.
  induction Hp as [a | C act k Hact Hk IH | r k Hr Hk IH]; intros s; cbn [run].
  - apply Hrefl.
  - specialize (Hact s). destruct (act s) as [b s']. cbn [snd] in Hact.
    eapply Htrans; [exact Hact | apply IH].
  - eapply Htrans; [apply Hr | apply IH].
Qed.

(** A step of a goroutine is one of them, and what is left of the
    program guarantees the same. *)
Lemma step_thread_guarantees (o : Oracle) (p p' : Prog unit) (s s' : State) :
  guarantees R p -> step_thread o p s = Some (p', s') ->
  R s s' /\ guarantees R p'.
Proof.
  intros Hp. destruct Hp as [a | C act k Hact Hk | r k Hr Hk]; cbn [step_thread].
  - discriminate.
  - specialize (Hact s). destruct (act s) as [b s0]. intros [= <- <-].
    split; [exact Hact | apply Hk].
  - destruct (io_enabled r (o r s) s); [| discriminate]. intros [= <- <-].
    split; [apply Hr | apply Hk].
Qed.
End Guarantees.

(** The programs of the repository, piece by piece. *)
Ltac prog_head :=
  lazymatch goal with
  | |- guarantees _ (bind _ _) => apply guarantees_bind
  | |- guarantees _ (Ret _) => apply g_Ret
  | |- guarantees _ (modify _) => apply guarantees_modify
  | |- guarantees _ (gets _) => apply guarantees_gets
  | |- guarantees _ (call _) => apply guarantees_call
  | |- guarantees _ (Atomic _ _) => apply g_Atomic
  | |- guarantees _ (match (match ?y with _ => _ end) with _ => _ end) =>
      destruct y
  | |- guarantees _ (match ?x with _ => _ end) => destruct x
  | |- forall _, _ => intro
  end.

Ltac prim_solve P :=
  first
    [ apply (prim_id _ P)
    | apply (prim_reset _ P)
    | apply (prim_stop _ P)
    | apply (prim_ping _ P)
    | apply (prim_listen _ P)
    | apply (prim_exit _ P)
    | apply (prim_quiet _ P); reflexivity ].

Section Programs.
Context (R : State -> State -> Prop) (P : Prims R).

Lemma guarantees_probe (lib : Lib) :
  guarantees R (getLastGitHubActionsActivity lib).
Proof.
  unfold getLastGitHubActionsActivity.
  repeat first [prog_head | prim_solve P].
Qed.

Lemma guarantees_checkGitHubActions (lib : Lib) (now : Time) :
  guarantees R (checkGitHubActions lib now).
Proof.
  unfold checkGitHubActions.
  repeat first [apply guarantees_probe | prog_head | prim_solve P].
Qed.

Lemma guarantees_Write (data : string) (w : ResponseWriter) :
  guarantees R (Write data w).
Proof. unfold Write. repeat first [prog_head | prim_solve P]. Qed.

Lemma guarantees_serve (r : Inbound) : guarantees R (serve r).
Proof.
  unfold serve, pingHandler, healthHandler, http_Error.
  repeat first [apply guarantees_Write | prog_head | prim_solve P].
Qed.

Lemma guarantees_main : MainPrims R -> guarantees R main.
Proof.
  intros M. unfold main.
  repeat first [prog_head | prim_solve P
               | apply (prim_observed _ M); reflexivity].
Qed.

Context (D : DecisionPrims R).

Lemma guarantees_Rest_suspendMachine (lib : Lib) :
  guarantees R (Rest.suspendMachine lib).
Proof.
  unfold Rest.suspendMachine, Rest.getAccessToken,
    Rest.getMachineMetadata, Rest.performInstanceAction, http_NewRequest.
  repeat first [prog_head | prim_solve P
               | apply (prim_suspend _ D); reflexivity].
Qed.

Lemma guarantees_Rest_suspendInstance (lib : Lib) :
  guarantees R (Rest.suspendInstance lib).
Proof.
  unfold Rest.suspendInstance.
  repeat first [apply guarantees_Rest_suspendMachine | prog_head | prim_solve P
               | apply (prim_suspend _ D); reflexivity].
Qed.

Lemma guarantees_Sdk_suspendInstance : guarantees R Sdk.suspendInstance.
Proof.
  unfold Sdk.suspendInstance, Sdk.suspendMachine, Sdk.createComputeService.
  repeat first [prog_head | prim_solve P
               | apply (prim_suspend _ D); reflexivity].
Qed.

Lemma guarantees_mock : guarantees R mockSuspendInstance.
Proof.
  unfold mockSuspendInstance.
  repeat first [prog_head | prim_solve P
               | apply (prim_suspend _ D); reflexivity].
Qed.

Lemma guarantees_suspendFunc (lib : Lib) (b : Build) :
  guarantees R (suspendFunc lib b).
Proof.
  destruct b; [apply guarantees_Rest_suspendInstance
              | apply guarantees_Sdk_suspendInstance | apply guarantees_mock].
Qed.

Lemma guarantees_proceedWithShutdown (sf : Prog (option error)) (d : Duration) :
  guarantees R sf -> guarantees R (proceedWithShutdown sf d).
Proof.
  intros Hsf. unfold proceedWithShutdown.
  repeat first [exact Hsf | apply (prim_signal _ D) | prog_head | prim_solve P].
Qed.

Lemma guarantees_initiateShutdown (lib : Lib) (sf : Prog (option error)) :
  guarantees R sf -> guarantees R (initiateShutdown lib sf).
Proof.
  intros Hsf. unfold initiateShutdown.
  repeat first [apply guarantees_checkGitHubActions
               | apply guarantees_proceedWithShutdown | exact Hsf
               | prog_head | prim_solve P].
Qed.

Lemma guarantees_timerCallback (lib : Lib) (b : Build) :
  guarantees R (timerCallback lib (suspendFunc lib b)).
Proof.
  unfold timerCallback.
  repeat first [apply guarantees_initiateShutdown | apply guarantees_suspendFunc
               | prog_head | prim_solve P].
Qed.
End Programs.

(** ** Invariants of the running process *)

(** A state invariant [I] is kept by every run when the primitive actions
    keep it.  The goroutine of a timer callback starts only once a timer
    is due: what holds from then on ([Late]) may be assumed by its steps. *)
Section Invariant.
Context (lib : Lib) (b : Build).
Context (I Late : State -> Prop).

Local Abbreviation Rany := (Rany I Late).
Local Abbreviation Rlate := (Rlate I Late).
Local Abbreviation thread_ok := (thread_ok I Late).
Local Abbreviation sys_inv := (sys_inv I Late).

Hypothesis Hany : Prims Rany.
Hypothesis Hmain : MainPrims Rany.
Hypothesis Hlate : DecisionPrims Rlate.
Hypothesis Htick : forall s d, 0 <= d ->
  Rany s (set_clock (clock s + d) s).
Hypothesis Hfire : forall s t due,
  I s -> timers s !! t = Some due -> due <= clock s ->
  I (set_timers (delete t (timers s)) s)
  /\ Late (set_timers (delete t (timers s)) s).

Lemma Rany_Rlate (s s' : State) : Rany s s' -> Rlate s s'.
Proof. unfold Rany, Rlate. intros H HL HI. destruct (H HI). auto. Qed.

Lemma Prims_Rlate : Prims Rlate.
Proof.
  destruct Hany. constructor; intros; apply Rany_Rlate; auto.
Qed.

Lemma thread_ok_next (s s' : State) (p : Prog unit) :
  (Late s -> Late s') -> thread_ok s p -> thread_ok s' p.
Proof. intros HL [H | [H1 H2]]; [left | right]; auto. Qed.

Lemma boot_inv (cfg : Config) (now : Time) :
  I (shared (boot cfg now)) -> sys_inv (boot cfg now).
Proof.
  intros HI. split; [exact HI |]. constructor; [| constructor].
  left. apply guarantees_main; [exact Hany | exact Hmain].
Qed.

Lemma exec_invariant (y y' : Sys) (l : Label) :
  sys_inv y -> exec lib b y l = Some y' -> sys_inv y'.
Proof.
  intros [HI HP]. unfold exec. destruct (halted (shared y)); [discriminate |].
  destruct l as [d | t | r | i o].
  - destruct (Z.leb_spec 0 d) as [Hd |]; [| discriminate]. intros [= <-].
    destruct (Htick (shared y) d Hd HI) as [HI' HL']. split; [exact HI' |].
    cbn [pool shared]. eapply Forall_impl; [exact HP |].
    intros p. apply thread_ok_next. exact HL'.
  - destruct (timers (shared y) !! t) as [due |] eqn:Et; [| discriminate].
    destruct (Z.leb_spec due (clock (shared y))) as [Hdue |]; [| discriminate].
    intros [= <-]. destruct (Hfire _ _ _ HI Et Hdue) as [HI' HL'].
    split; [exact HI' |]. cbn [pool shared]. apply Forall_app. split.
    + eapply Forall_impl; [exact HP |]. intros p. apply thread_ok_next. auto.
    + constructor; [| constructor]. right. split; [exact HL' |].
      apply guarantees_timerCallback; [apply Prims_Rlate | exact Hlate].
  - destruct (listening (shared y)); [| discriminate]. intros [= <-].
    split; [exact HI |]. cbn [pool shared]. apply Forall_app. split; [exact HP |].
    constructor; [| constructor]. left. apply guarantees_serve. exact Hany.
  - destruct (pool y !! i) as [p |] eqn:Ep; [| discriminate].
    destruct (step_thread o p (shared y)) as [[p' s'] |] eqn:Es; [| discriminate].
    intros [= <-]. cbn [pool shared].
    assert (Hp : thread_ok (shared y) p).
    { rewrite Forall_lookup in HP. exact (HP i p Ep). }
    assert (Hstep : I s' /\ (Late (shared y) -> Late s') /\ thread_ok s' p').
    { destruct Hp as [Hg | [HL Hg]].
      - destruct (step_thread_guarantees _ _ _ _ _ _ Hg Es) as [HR Hg'].
        destruct (HR HI) as [HI' HL']. repeat split; auto. left. exact Hg'.
      - destruct (step_thread_guarantees _ _ _ _ _ _ Hg Es) as [HR Hg'].
        destruct (HR HL HI) as [HI' HL']. repeat split; auto.
        right. auto. }
    destruct Hstep as (HI' & HL' & Hp'). split; [exact HI' |].
    apply Forall_insert; [| exact Hp'].
    eapply Forall_impl; [exact HP |]. intros q. apply thread_ok_next. exact HL'.
Qed.

Lemma execs_invariant (ls : list Label) (y y' : Sys) :
  sys_inv y -> execs lib b y ls = Some y' -> sys_inv y'.
Proof.
  revert y. induction ls as [| l ls IH]; intros y Hy; cbn [execs].
  - intros [= <-]. exact Hy.
  - destruct (exec lib b y l) as [y1 |] eqn:E; [| discriminate].
    apply IH. eapply exec_invariant; eassumption.
Qed.

(** Every state a run from [boot] reaches satisfies [I]. *)
Lemma reachable_invariant (cfg : Config) (now : Time) (ls : list Label) (y : Sys) :
  I (shared (boot cfg now)) ->
  execs lib b (boot cfg now) ls = Some y -> I (shared y).
Proof.
  intros HI He. eapply (execs_invariant ls (boot cfg now) y); [| exact He].
  apply boot_inv. exact HI.
Qed.
End Invariant.

(** ** C4: one scheduled decision at most *)

Lemma resetShutdownTimer_timers (s : State) :
  timers (resetShutdownTimer s).2 =
    <[timerSeq s := when (InactivityTimeout (config s)) s]>
      (match shutdownTimer s with
       | Some t => delete t (timers s)
       | None => timers s
       end)
  /\ shutdownTimer (resetShutdownTimer s).2 = Some (timerSeq s).
Proof. unfold resetShutdownTimer. destruct (shutdownTimer s); split; reflexivity. Qed.

Lemma held_others_gone (s : State) :
  held s ->
  match shutdownTimer s with
  | Some t => delete t (timers s)
  | None => timers s
  end = ∅.
Proof.
  intros H. apply map_empty. intros i.
  destruct (shutdownTimer s) as [t |] eqn:Et.
  - destruct (delete t (timers s) !! i) as [due |] eqn:Ei; [| reflexivity].
    apply lookup_delete_Some in Ei as [Hne Hi].
    apply H in Hi. congruence.
  - destruct (timers s !! i) as [due |] eqn:Ei; [| reflexivity].
    apply H in Ei. congruence.
Qed.

(** After a rearm exactly one timer is pending, the new one. *)
Lemma resetShutdownTimer_single (s : State) :
  held s ->
  timers (resetShutdownTimer s).2
    = {[ timerSeq s := when (InactivityTimeout (config s)) s ]}
  /\ shutdownTimer (resetShutdownTimer s).2 = Some (timerSeq s).
Proof.
  intros H. destruct (resetShutdownTimer_timers s) as [Et Es].
  rewrite Et, Es, (held_others_gone s H), insert_empty. split; reflexivity.
Qed.

Lemma resetShutdownTimer_held (s : State) :
  held s -> held (resetShutdownTimer s).2.
Proof.
  intros H. destruct (resetShutdownTimer_single s H) as [Et Es].
  intros t due. rewrite Et, Es. intros [-> _]%lookup_singleton_Some. reflexivity.
Qed.

Lemma stopShutdownTimer_held (s : State) :
  held s -> held (stopShutdownTimer s).2.
Proof.
  intros H. pose proof (held_others_gone s H) as E. unfold stopShutdownTimer.
  destruct (shutdownTimer s) as [t0 |]; [| exact H].
  intros t due. cbn. rewrite E. intros Hl. by apply lookup_empty_Some in Hl.
Qed.

Lemma held_size (s : State) : held s -> (size (timers s) <= 1)%nat.
Proof.
  intros H. pose proof (held_others_gone s H) as E.
  destruct (shutdownTimer s) as [t |].
  - destruct (timers s !! t) as [due |] eqn:Et.
    + rewrite <- (insert_delete_id (timers s) t due Et), E, insert_empty,
        map_size_singleton. reflexivity.
    + rewrite delete_id in E by exact Et. rewrite E, map_size_empty. lia.
  - rewrite E, map_size_empty. lia.
Qed.

Lemma held_Prims : Prims (Rany held (fun _ => True)).
Proof.
  constructor; unfold Rany; intros; (split; [| trivial]).
  - assumption.
  - assumption.
  - apply resetShutdownTimer_held; assumption.
  - apply stopShutdownTimer_held; assumption.
  - assumption.
  - assumption.
  - assumption.
Qed.

Lemma held_MainPrims : MainPrims (Rany held (fun _ => True)).
Proof. constructor; unfold Rany; intros; (split; [assumption | trivial]). Qed.

Lemma held_DecisionPrims : DecisionPrims (Rlate held (fun _ => True)).
Proof.
  constructor; unfold Rlate; intros; (split; [| trivial]).
  - assumption.
  - unfold signalShutdown, chan_close.
    destruct (serverShutdown s); assumption.
Qed.

Lemma held_reachable (lib : Lib) (b : Build) (cfg : Config) (now : Time)
    (ls : list Label) (y : Sys) :
  execs lib b (boot cfg now) ls = Some y -> held (shared y).
Proof.
  apply (reachable_invariant lib b held (fun _ => True)).
  - exact held_Prims.
  - exact held_MainPrims.
  - exact held_DecisionPrims.
  - unfold Rany. intros s d _ H. split; [exact H | trivial].
  - intros s t due H _ _. split; [| trivial].
    intros t' due'. cbn. intros [_ Hl]%lookup_delete_Some. exact (H _ _ Hl).
  - intros t due Hl. cbn in Hl. by apply lookup_empty_Some in Hl.
Qed.

(** C4. In every state the process reaches, every pending timer is the
    one [shutdownTimer] points to, so at most one decision is scheduled.
    [resetShutdownTimer], one atomic action under [shutdownMutex], stops
    that timer before it installs the new one: after two calls in a row
    exactly one timer is pending, and once it has fired no second firing
    is possible. *)
Theorem at_most_one_scheduled_decision
    (lib : Lib) (b : Build) (cfg : Config) (now : Time)
    (ls : list Label) (y : Sys) :
  execs lib b (boot cfg now) ls = Some y ->
  held (shared y)
  /\ (size (timers (shared y)) <= 1)%nat
  /\ let s1 := (resetShutdownTimer (shared y)).2 in
     let s2 := (resetShutdownTimer s1).2 in
     timers s2 = {[ timerSeq s1 := when (InactivityTimeout (config s1)) s1 ]}
     /\ shutdownTimer s2 = Some (timerSeq s1)
     /\ forall t y1 t',
          exec lib b (mkSys s2 (pool y)) (LFire t) = Some y1 ->
          exec lib b y1 (LFire t') = None.
Proof.
  intros He. pose proof (held_reachable lib b cfg now ls y He) as H.
  split; [exact H |]. split; [apply held_size; exact H |].
  intros s1 s2.
  assert (H1 : held s1) by (apply resetShutdownTimer_held; exact H).
  destruct (resetShutdownTimer_single s1 H1) as [Et Es]. fold s2 in Et, Es.
  split; [exact Et |]. split; [exact Es |].
  intros t y1 t'. unfold exec at 1. cbn [shared pool].
  destruct (halted s2); [discriminate |]. rewrite Et.
  destruct (_ !! t) as [due |] eqn:El; [| discriminate].
  apply lookup_singleton_Some in El as [<- _].
  destruct (due <=? clock s2); [| discriminate]. intros [= <-].
  unfold exec. cbn [shared pool]. destruct (halted _); [reflexivity |].
  cbn [timers set_timers]. rewrite delete_singleton_eq, lookup_empty. reflexivity.
Qed.

(** ** C5: the shutdown signal closes once *)

Lemma signalShutdown_idempotent (s : State) :
  let s1 := (signalShutdown s).2 in
  serverShutdown s1 = true /\ crashed s1 = crashed s
  /\ signalShutdown s1 = (tt, s1)
  /\ (serverShutdown s = true -> s1 = s).
Proof.
  unfold signalShutdown, chan_close.
  destruct (serverShutdown s) eqn:E; cbn [snd].
  - rewrite E. auto.
  - cbn. repeat split. intros H. congruence.
Qed.















(** ** C2: no suspension before the timeout has run *)

Lemma when_ge (d : Duration) (s : State) : clock s + d <= when d s.
Proof. unfold when. destruct (Z.leb_spec d 0); lia. Qed.

Lemma timely_emit (cfg : Config) (e : Event) (s : State) :
  (suspend_event e = true -> timeout_passed cfg s) ->
  timely cfg s ->
  timely cfg (emit e s)
  /\ (timeout_passed cfg s -> timeout_passed cfg (emit e s)).
Proof.
  intros He [Hc H]. split.
  - split; [exact Hc |]. cbn [trace emit set_trace first_armed].
    destruct (first_armed (trace s)) as [a |] eqn:Ea.
    + destruct H as (H1 & H2 & H3). repeat split; try assumption.
      constructor; [| exact H3]. cbn [fst snd]. intros Hs.
      destruct (He Hs) as (a' & Ea' & Ha'). congruence.
    + destruct H as [H1 H2].
      assert (Hs : suspend_event e = false).
      { destruct (suspend_event e) eqn:Es; [| reflexivity].
        destruct (He eq_refl) as (a' & Ea' & _). congruence. }
      destruct e; cbn [timers clock];
        try (split; [exact H1 | constructor; [exact Hs | exact H2]]).
      split; [cbn; lia |]. split.
      * intros t0 due0. cbn. rewrite H1. intros Hl.
        by apply lookup_empty_Some in Hl.
      * constructor; [cbn; discriminate |].
        eapply Forall_impl; [exact H2 |]. cbn beta. intros te Hf. congruence.
  - intros (a & Ea & Ha). exists a. cbn [trace emit set_trace first_armed clock].
    rewrite Ea. auto.
Qed.

Lemma timely_setters (cfg : Config) (s s' : State) :
  config s' = config s -> clock s' = clock s -> timers s' = timers s ->
  trace s' = trace s ->
  timely cfg s ->
  timely cfg s' /\ (timeout_passed cfg s -> timeout_passed cfg s').
Proof.
  unfold timely, timeout_passed. intros -> -> -> ->. auto.
Qed.

(** Dropping pending timers keeps the invariant. *)
Lemma timely_delete (cfg : Config) (t : nat) (s : State) :
  timely cfg s ->
  timely cfg (set_timers (delete t (timers s)) s)
  /\ (timeout_passed cfg s ->
      timeout_passed cfg (set_timers (delete t (timers s)) s)).
Proof.
  intros [Hc H]. split; [| intros Hp; exact Hp].
  split; [exact Hc |]. cbn [trace set_timers timers clock].
  destruct (first_armed (trace s)) as [a |].
  - destruct H as (H1 & H2 & H3). repeat split; try assumption.
    intros t' due' [_ Hl]%lookup_delete_Some. eauto.
  - destruct H as [H1 H2]. split; [| exact H2]. rewrite H1. apply delete_empty.
Qed.

(** Scheduling a timer the timeout ahead keeps it, and arms the
    controller if it was not. *)
Lemma timely_AfterFunc (cfg : Config) (s : State) :
  timely cfg s ->
  timely cfg (time_AfterFunc (InactivityTimeout cfg) s).2
  /\ (timeout_passed cfg s ->
      timeout_passed cfg (time_AfterFunc (InactivityTimeout cfg) s).2).
Proof.
  intros [Hc H]. pose proof (when_ge (InactivityTimeout cfg) s) as Hw. split.
  - split; [exact Hc |].
    cbn [time_AfterFunc snd trace emit set_trace set_timerSeq set_timers timers
           clock first_armed].
    destruct (first_armed (trace s)) as [a |].
    + destruct H as (H1 & H2 & H3). repeat split; try assumption.
      * intros t due [[<- <-] | [_ Hl]]%lookup_insert_Some; [lia | eauto].
      * constructor; [cbn; discriminate | exact H3].
    + destruct H as [H1 H2]. repeat split; [lia | |].
      * intros t due. rewrite H1, insert_empty.
        intros [_ <-]%lookup_singleton_Some. exact Hw.
      * constructor; [cbn; discriminate |].
        eapply Forall_impl; [exact H2 |]. cbn beta. intros te Hf. congruence.
  - intros (a & Ea & Ha). exists a.
    cbn [time_AfterFunc snd trace emit set_trace set_timerSeq set_timers
           clock first_armed].
    rewrite Ea. auto.
Qed.

Lemma Rtimely_trans (cfg : Config) (s1 s2 s3 : State) :
  Rtimely cfg s1 s2 -> Rtimely cfg s2 s3 -> Rtimely cfg s1 s3.
Proof.
  unfold Rtimely, Rany. intros H12 H23 H1.
  destruct (H12 H1) as [H2 L2]. destruct (H23 H2) as [H3 L3]. auto.
Qed.

Lemma Rtimely_quiet (cfg : Config) (e : Event) (s : State) :
  suspend_event e = false -> Rtimely cfg s (emit e s).
Proof.
  intros He H. apply timely_emit; [| exact H]. congruence.
Qed.

Lemma Rtimely_Stop (cfg : Config) (t : nat) (s : State) :
  Rtimely cfg s (Timer_Stop t s).2.
Proof.
  unfold Timer_Stop. cbn [snd].
  eapply Rtimely_trans; [intros H; apply (timely_delete cfg t s H) |].
  apply Rtimely_quiet. reflexivity.
Qed.

Lemma Rtimely_reset (cfg : Config) (s : State) :
  Rtimely cfg s (resetShutdownTimer s).2.
Proof.
  intros H. pose proof H as [Hc _]. revert H. fold (Rtimely cfg s (resetShutdownTimer s).2).
  unfold resetShutdownTimer.
  set (s1 := match shutdownTimer s with Some t => (Timer_Stop t s).2 | None => s end).
  assert (H1 : Rtimely cfg s s1).
  { subst s1. destruct (shutdownTimer s); [apply Rtimely_Stop | intros H; auto]. }
  assert (Hc1 : config s1 = cfg).
  { subst s1. destruct (shutdownTimer s); exact Hc. }
  rewrite Hc1.
  destruct (time_AfterFunc (InactivityTimeout cfg) s1) as [t s2] eqn:E2.
  cbn [snd].
  eapply Rtimely_trans; [exact H1 |].
  eapply Rtimely_trans;
    [intros H; pose proof (timely_AfterFunc cfg s1 H) as HA; rewrite E2 in HA;
     exact HA |].
  eapply Rtimely_trans; [| apply Rtimely_quiet; reflexivity].
  intros H. apply (timely_setters cfg s2); try reflexivity. exact H.
Qed.

Lemma timely_Prims (cfg : Config) : Prims (Rtimely cfg).
Proof.
  constructor.
  - intros s H. auto.
  - intros e s He _ _. apply Rtimely_quiet. exact He.
  - apply Rtimely_reset.
  - intros s. unfold stopShutdownTimer.
    destruct (shutdownTimer s) as [t |]; [| intros H; auto]. cbn [snd].
    eapply Rtimely_trans; [apply Rtimely_Stop |].
    eapply Rtimely_trans; [| apply Rtimely_quiet; reflexivity].
    intros H. apply (timely_setters cfg (Timer_Stop t s).2); try reflexivity.
    exact H.
  - intros s H. apply (timely_setters cfg s); try reflexivity. exact H.
  - intros v s H. apply (timely_setters cfg s); try reflexivity. exact H.
  - intros s H. apply (timely_setters cfg s); try reflexivity. exact H.
Qed.

Lemma timely_MainPrims (cfg : Config) : MainPrims (Rtimely cfg).
Proof.
  constructor. intros e s He. apply Rtimely_quiet.
  destruct e as [lvl msg attrs | | | | | |]; try discriminate.
  cbn in He |- *. apply String.eqb_eq in He. subst msg. reflexivity.
Qed.

Lemma timely_DecisionPrims (cfg : Config) :
  DecisionPrims (Rlate (timely cfg) (timeout_passed cfg)).
Proof.
  constructor; unfold Rlate.
  - intros e s _ HL H. destruct (timely_emit cfg e s (fun _ => HL) H). auto.
  - intros s HL H. unfold signalShutdown, chan_close.
    destruct (serverShutdown s); cbn [snd]; [auto |].
    eapply Rany_Rlate; [| exact HL | exact H].
    eapply Rtimely_trans; [| apply Rtimely_quiet; reflexivity].
    intros H'. apply (timely_setters cfg s); try reflexivity. exact H'.
Qed.

Lemma timely_reachable (lib : Lib) (b : Build) (cfg : Config) (now : Time)
    (ls : list Label) (y : Sys) :
  execs lib b (boot cfg now) ls = Some y -> timely cfg (shared y).
Proof.
  apply (reachable_invariant lib b (timely cfg) (timeout_passed cfg)).
  - apply timely_Prims.
  - apply timely_MainPrims.
  - apply timely_DecisionPrims.
  - intros s d Hd [Hc H]. split.
    + split; [exact Hc |]. cbn [trace set_clock timers clock].
      destruct (first_armed (trace s)); [| exact H].
      destruct H as (H1 & H2 & H3). repeat split; try assumption. lia.
    + intros (a & Ea & Ha). exists a. cbn [trace set_clock clock].
      split; [exact Ea | lia].
  - intros s t due H Hl Hdue. destruct (timely_delete cfg t s H) as [H' _].
    split; [exact H' |]. destruct H as [_ H]. unfold timeout_passed.
    cbn [trace set_timers clock].
    destruct (first_armed (trace s)) as [a |].
    + exists a. split; [reflexivity |]. destruct H as (_ & H2 & _).
      specialize (H2 t due Hl). lia.
    + destruct H as [H1 _]. rewrite H1 in Hl. by apply lookup_empty_Some in Hl.
  - split; [reflexivity |]. cbn. split; [reflexivity | constructor].
Qed.

(** C2. In every run of the process, for every timeout value (positive or
    not): an event of the suspend procedure (its first statement, the
    suspend request of either strategy, the flag of the test double)
    carries a time stamp that lies at least the configured timeout after
    the moment the controller was first armed.  This holds whether or not
    liveness signals arrive and whatever the fallback probe reports, so
    in particular when there is no signal and no fresh fallback activity. *)
Theorem no_suspend_before_timeout
    (lib : Lib) (b : Build) (cfg : Config) (now : Time)
    (ls : list Label) (y : Sys) (armed t : Time) (e : Event) :
  execs lib b (boot cfg now) ls = Some y ->
  first_armed (trace (shared y)) = Some armed ->
  In (t, e) (trace (shared y)) ->
  suspend_event e = true ->
  armed + InactivityTimeout cfg <= t.
Proof.
  intros He Ea Hin Hs.
  destruct (timely_reachable lib b cfg now ls y He) as [_ H].
  rewrite Ea in H. destruct H as (_ & _ & H3).
  rewrite Forall_forall in H3. apply list_elem_of_In in Hin.
  exact (H3 (t, e) Hin Hs).
Qed.

(** ** C3: the decision routine always decides *)

Lemma crash_Prims : Prims Rcrash.
Proof.
  constructor; unfold Rcrash; intros; try reflexivity.
  - destruct (resetShutdownTimer_frame s) as (_ & _ & _ & _ & H' & _). exact H'.
  - unfold stopShutdownTimer. destruct (shutdownTimer s); reflexivity.
Qed.

Lemma crash_DecisionPrims : DecisionPrims Rcrash.
Proof.
  constructor; unfold Rcrash; intros; try reflexivity.
  destruct (signalShutdown_idempotent s) as (_ & H & _). exact H.
Qed.

Lemma suspendFunc_no_crash (lib : Lib) (b : Build) (o : Oracle) (s : State) :
  crashed (run o (suspendFunc lib b) s).2 = crashed s.
Proof.
  apply (run_guarantees Rcrash o (suspendFunc lib b)).
  - reflexivity.
  - unfold Rcrash. intros s1 s2 s3 H1 H2. congruence.
  - apply guarantees_suspendFunc; [exact crash_Prims | exact crash_DecisionPrims].
Qed.

(** C3. [initiateShutdown] is a total function of the state and of the
    answers of the outside world, it never panics, and it ends in one of
    two ways.  With fresh fallback activity it rearms and leaves
    [serverShutdown] as it was: when it returns a new timer is pending,
    due a timeout from now, [shutdownTimer] holds it, the call of
    [time.AfterFunc] is on record and no close is.  Otherwise
    [serverShutdown] is closed when it returns (by this call, if it was
    open): with an identity field missing, the suspend procedure is not
    run (no suspension event is added) and the close follows the warning;
    with the identity complete, the close follows the report of the
    suspend call, whether that call returned an error or not. *)
Theorem initiateShutdown_always_decides
    (lib : Lib) (b : Build) (o : Oracle) (s : State) :
  let s' := (run o (initiateShutdown lib (suspendFunc lib b)) s).2 in
  let s1 := emit (EvIO dockerLogs) s in
  let s2 := proceeding (Time_Sub (clock s) (lastPing (tracker s))) s1 in
  let due := when (InactivityTimeout (config s)) s in
  crashed s' = crashed s
  /\ if fallback_fresh lib o s then
       s' = stayingOnline
              (Time_Sub (clock s) (run o (getLastGitHubActionsActivity lib) s).1.1) s1
       /\ serverShutdown s' = serverShutdown s
       /\ timers s' !! timerSeq s = Some due
       /\ shutdownTimer s' = Some (timerSeq s)
       /\ In (clock s, EvAfterFunc (timerSeq s) due) (trace s')
       /\ count_events arm_event (trace s') = S (count_events arm_event (trace s))
       /\ count_events close_event (trace s') = count_events close_event (trace s)
     else
       serverShutdown s' = true
       /\ if missingGCPConfig (config s) then
            s' = (signalShutdown (missingWarned s2)).2
            /\ count_events suspend_event (trace s')
               = count_events suspend_event (trace s)
            /\ count_events close_event (trace s')
               = (count_events close_event (trace s)
                  + if serverShutdown s then 0 else 1)%nat
          else
            let r := run o (suspendFunc lib b) s2 in
            s' = (signalShutdown (suspendReported r.1 r.2)).2.
Proof.
  intros s' s1 s2 due. subst s'. rewrite run_initiateShutdown. cbn zeta.
  rewrite run_checkGitHubActions. cbn zeta. fold s1.
  destruct (fallback_fresh lib o s); cbn [fst snd].
  - set (d := Time_Sub (clock s) (run o (getLastGitHubActionsActivity lib) s).1.1).
    destruct (stayingOnline_frame d s1) as (_ & _ & Hsd & _ & Hcr).
    destruct (stayingOnline_rearmed d s1) as (_ & R2 & R3 & _ & R5 & _).
    rewrite Hsd, Hcr. split; [reflexivity |]. split; [reflexivity |].
    split; [reflexivity |]. split; [exact R2 |]. split; [exact R3 |].
    split; [exact R5 |].
    unfold stayingOnline. rewrite resetShutdownTimer_trace, !count_events_app.
    unfold rearm_events. cbn [shutdownTimer slog emit set_trace s1].
    destruct (shutdownTimer s); split; reflexivity.
  - rewrite run_proceedWithShutdown. cbn zeta. fold s2.
    change (config s1) with (config s).
    destruct (missingGCPConfig (config s)).
    + destruct (signalShutdown_idempotent (missingWarned s2)) as (H1 & H2 & _).
      rewrite H1, H2. split; [reflexivity |]. split; [reflexivity |].
      split; [reflexivity |].
      unfold signalShutdown, chan_close.
      change (serverShutdown (missingWarned s2)) with (serverShutdown s).
      destruct (serverShutdown s); cbn; [split; lia | split; [reflexivity | lia]].
    + set (r := run o (suspendFunc lib b) s2).
      destruct (signalShutdown_idempotent (suspendReported r.1 r.2))
        as (H1 & H2 & _).
      rewrite H1, H2. repeat split.
      transitivity (crashed r.2).
      * destruct r.1; reflexivity.
      * subst r. rewrite suspendFunc_no_crash. reflexivity.
Qed.

(** ** C10: the decision does not depend on the last ping *)

Lemma secure_bind {A B} (p : Prog A) (f : A -> Prog B) :
  secure p -> (forall a, secure (f a)) -> secure (bind p f).
Proof.
  intros Hp Hf. induction Hp as [a | C act k Hact Hk IH | r k Hk IH]; cbn [bind].
  - apply Hf.
  - apply sec_Atomic; assumption.
  - apply sec_IO; assumption.
Qed.

Lemma blind_emit (e : Event) (s : State) :
  blind (emit e s) = emit (blind_event e) (blind s).
Proof. reflexivity. Qed.

Lemma run_secure {A} (o : Oracle) (p : Prog A) :
  oracle_blind o -> secure p ->
  forall s1 s2, blind s1 = blind s2 ->
    (run o p s1).1 = (run o p s2).1
    /\ blind (run o p s1).2 = blind (run o p s2).2.
Proof.
  intros Ho Hp. induction Hp as [a | C act k Hact Hk IH | r k Hk IH];
    intros s1 s2 E; cbn [run].
  - auto.
  - destruct (Hact s1) as [A1 B1]. destruct (Hact s2) as [A2 B2].
    rewrite E in A1, B1.
    destruct (act s1) as [b1 t1]. destruct (act s2) as [b2 t2].
    cbn [fst snd] in *. assert (Hb : b1 = b2) by congruence. rewrite Hb.
    apply IH. congruence.
  - rewrite (Ho r s1 s2 E). apply IH. rewrite !blind_emit, E. reflexivity.
Qed.

Lemma commutes_modify_emit (e : Event) :
  blind_event e = e -> commutes (fun s => (tt, emit e s)).
Proof. intros He s. cbn [fst snd]. rewrite blind_emit, He. auto. Qed.

Lemma commutes_config : commutes (fun s => (config s, s)).
Proof. intros s. auto. Qed.

Lemma commutes_clock : commutes (fun s => (clock s, s)).
Proof. intros s. auto. Qed.

Lemma commutes_reset : commutes resetShutdownTimer.
Proof.
  intros s. unfold resetShutdownTimer. cbn [shutdownTimer blind].
  destruct (shutdownTimer s); split; reflexivity.
Qed.

Lemma commutes_signal : commutes signalShutdown.
Proof.
  intros s. unfold signalShutdown, chan_close. cbn [serverShutdown blind].
  destruct (serverShutdown s); split; reflexivity.
Qed.

Ltac sec_head :=
  lazymatch goal with
  | |- secure (bind _ _) => apply secure_bind
  | |- secure (Ret _) => apply sec_Ret
  | |- secure (modify (slog _ _ _)) =>
      apply sec_Atomic; [apply commutes_modify_emit; reflexivity | intro]
  | |- secure (modify (emit _)) =>
      apply sec_Atomic; [apply commutes_modify_emit; reflexivity | intro]
  | |- secure (gets config) => apply sec_Atomic; [apply commutes_config | intro]
  | |- secure (gets clock) => apply sec_Atomic; [apply commutes_clock | intro]
  | |- secure (Atomic resetShutdownTimer _) =>
      apply sec_Atomic; [apply commutes_reset | intro]
  | |- secure (Atomic signalShutdown _) =>
      apply sec_Atomic; [apply commutes_signal | intro]
  | |- secure (call _) => apply sec_IO; intro
  | |- secure (match (match ?y with _ => _ end) with _ => _ end) => destruct y
  | |- secure (match ?x with _ => _ end) => destruct x
  | |- forall _, _ => intro
  end.

Lemma secure_checkGitHubActions (lib : Lib) (now : Time) :
  secure (checkGitHubActions lib now).
Proof.
  unfold checkGitHubActions, getLastGitHubActionsActivity. repeat sec_head.
Qed.

Lemma secure_suspendFunc (lib : Lib) (b : Build) : secure (suspendFunc lib b).
Proof.
  destruct b; cbn [suspendFunc].
  - unfold Rest.suspendInstance, Rest.suspendMachine, Rest.getAccessToken,
      Rest.getMachineMetadata, Rest.performInstanceAction, http_NewRequest.
    repeat sec_head.
  - unfold Sdk.suspendInstance, Sdk.suspendMachine, Sdk.createComputeService.
    repeat sec_head.
  - unfold mockSuspendInstance. repeat sec_head.
Qed.

Lemma run_proceed_split (o : Oracle) (sf : Prog (option error))
    (d : Duration) (s : State) :
  run o (proceedWithShutdown sf d) s = run o (afterProceeding sf) (proceeding d s).
Proof. unfold proceedWithShutdown. rewrite run_bind. reflexivity. Qed.

Lemma secure_afterProceeding (lib : Lib) (b : Build) :
  secure (afterProceeding (suspendFunc lib b)).
Proof.
  unfold afterProceeding. repeat first [apply secure_suspendFunc | sec_head].
Qed.

Lemma blind_proceeding (d1 d2 : Duration) (s1 s2 : State) :
  blind s1 = blind s2 -> blind (proceeding d1 s1) = blind (proceeding d2 s2).
Proof.
  intros E. unfold proceeding, slog. rewrite !blind_emit, E. reflexivity.
Qed.

Lemma suspend_event_blind (e : Event) :
  suspend_event (blind_event e) = suspend_event e.
Proof. destruct e; reflexivity. Qed.

Lemma count_suspend_blind (tr : list (Time * Event)) :
  count_events suspend_event (List.map (fun te => (te.1, blind_event te.2)) tr)
  = count_events suspend_event tr.
Proof.
  induction tr as [| [t e] tr IH]; [reflexivity |].
  cbn [List.map count_events fst snd]. rewrite suspend_event_blind, IH.
  reflexivity.
Qed.

Lemma initiateShutdown_not_fresh_closes
    (lib : Lib) (o : Oracle) (sf : Prog (option error)) (s : State) :
  fallback_fresh lib o s = false ->
  serverShutdown (run o (initiateShutdown lib sf) s).2 = true.
Proof.
  intros Hf. rewrite run_initiateShutdown. cbn zeta.
  rewrite run_checkGitHubActions. cbn zeta. rewrite Hf. cbn [fst snd].
  rewrite run_proceedWithShutdown. cbn zeta.
  match goal with
  | |- serverShutdown (signalShutdown ?x).2 = true =>
      destruct (signalShutdown_idempotent x) as [H _]; exact H
  end.
Qed.

Lemma initiateShutdown_blind (lib : Lib) (b : Build) (o : Oracle)
    (s1 s2 : State) :
  oracle_blind o -> blind s1 = blind s2 ->
  blind (run o (initiateShutdown lib (suspendFunc lib b)) s1).2
  = blind (run o (initiateShutdown lib (suspendFunc lib b)) s2).2.
Proof.
  intros Ho E. rewrite !run_initiateShutdown. cbn zeta.
  assert (Ec : clock s2 = clock s1).
  { apply (f_equal clock) in E. cbn in E. congruence. }
  rewrite Ec.
  destruct (run_secure o (checkGitHubActions lib (clock s1)) Ho
              (secure_checkGitHubActions lib (clock s1)) s1 s2 E) as [E1 E2].
  rewrite <- E1.
  destruct (run o (checkGitHubActions lib (clock s1)) s1).1; [exact E2 |].
  rewrite !run_proceed_split.
  refine (proj2 (run_secure o _ Ho (secure_afterProceeding lib b) _ _ _)).
  apply blind_proceeding. exact E2.
Qed.

(** C10. Take two invocations of [initiateShutdown] in states that are
    the same except for the stored [lastPing], with an outside world that
    does not see the tracker.  The states they leave agree on everything
    but the tracker and the log attribute [ping_duration_seconds]: the
    same timer state, the same [serverShutdown], the same events of the
    probe, of the suspend procedure and of the close, in the same order.
    In particular, without fresh fallback activity [serverShutdown] is
    closed at the end even when [lastPing] is the present moment. *)
Theorem initiateShutdown_ignores_lastPing
    (lib : Lib) (b : Build) (o : Oracle) (s : State) (t : Time) :
  oracle_blind o ->
  let s1 := (run o (initiateShutdown lib (suspendFunc lib b)) s).2 in
  let s2 := (run o (initiateShutdown lib (suspendFunc lib b)) (with_lastPing t s)).2 in
  blind s1 = blind s2
  /\ serverShutdown s1 = serverShutdown s2
  /\ timers s1 = timers s2
  /\ shutdownTimer s1 = shutdownTimer s2
  /\ count_events suspend_event (trace s1) = count_events suspend_event (trace s2)
  /\ (fallback_fresh lib o s = false ->
      serverShutdown
        (run o (initiateShutdown lib (suspendFunc lib b))
             (with_lastPing (clock s) s)).2 = true).
Proof.
  intros Ho s1 s2.
  assert (E0 : blind s = blind (with_lastPing t s)) by reflexivity.
  assert (E : blind s1 = blind s2).
  { apply initiateShutdown_blind; assumption. }
  split; [exact E |].
  split; [exact (f_equal serverShutdown E) |].
  split; [exact (f_equal timers E) |].
  split; [exact (f_equal shutdownTimer E) |].
  split.
  - rewrite <- (count_suspend_blind (trace s1)), <- (count_suspend_blind (trace s2)).
    exact (f_equal (fun x => count_events suspend_event (trace x)) E).
  - intros Hf.
    assert (E' : blind s1
                 = blind (run o (initiateShutdown lib (suspendFunc lib b))
                              (with_lastPing (clock s) s)).2).
    { apply initiateShutdown_blind; [assumption | reflexivity]. }
    apply (f_equal serverShutdown) in E'. cbn [serverShutdown blind] in E'.
    rewrite <- E'. apply initiateShutdown_not_fresh_closes. exact Hf.
Qed.

(** ** C6: the suspend procedure of the REST strategy *)

(** Each helper makes one request at most, and changes nothing else. *)
Lemma getAccessToken_state (lib : Lib) (o : Oracle) (s : State) :
  (run o (Rest.getAccessToken lib) s).2 =
    match http_NewRequest_err lib "GET" Rest.tokenURL with
    | Some _ => s
    | None => emit (EvIO (ReqHttpDo (10 * Second) tokenRequest)) s
    end.
Proof.
  unfold Rest.getAccessToken, http_NewRequest.
  destruct (http_NewRequest_err lib "GET" Rest.tokenURL); [reflexivity |].
  rewrite run_bind. cbn [call run fst snd].
  fold tokenRequest.
  destruct (o _ s) as [resp | e]; [| reflexivity].
  destruct (negb _); [reflexivity |].
  destruct (json_Decode_AccessToken lib (Body resp)) as [t [e |]]; reflexivity.
Qed.

Lemma getMachineMetadata_state (lib : Lib) (o : Oracle) (t : AccessToken)
    (url : string) (s : State) :
  (run o (Rest.getMachineMetadata lib t url) s).2 =
    match http_NewRequest_err lib "GET" url with
    | Some _ => s
    | None => emit (EvIO (ReqHttpDo (30 * Second) (statusRequest t url))) s
    end.
Proof.
  unfold Rest.getMachineMetadata, http_NewRequest.
  destruct (http_NewRequest_err lib "GET" url); [reflexivity |].
  rewrite run_bind. cbn [call run fst snd].
  fold (statusRequest t url).
  destruct (o _ s) as [resp | e]; [| reflexivity].
  destruct (negb _); [reflexivity |].
  destruct (json_Decode_ComputeInstance lib (Body resp)) as [vm [e |]];
    reflexivity.
Qed.

Lemma performInstanceAction_state (lib : Lib) (o : Oracle) (t : AccessToken)
    (url : string) (s : State) :
  (run o (Rest.performInstanceAction lib t url "suspend") s).2 =
    match http_NewRequest_err lib "POST" (url +:+ "/suspend") with
    | Some _ => s
    | None => emit (EvIO (ReqHttpDo (30 * Second) (suspendRequest t url))) s
    end.
Proof.
  unfold Rest.performInstanceAction, http_NewRequest.
  change (url +:+ "/" +:+ "suspend") with (url +:+ "/suspend").
  destruct (http_NewRequest_err lib "POST" (url +:+ "/suspend")); [reflexivity |].
  rewrite run_bind. cbn [call run fst snd].
  fold (suspendRequest t url).
  destruct (o _ s) as [resp | e]; [| reflexivity].
  destruct (negb _); reflexivity.
Qed.

(** When each helper succeeds: the request could be built, the call
    returned a response, its status is 200, and (for the two that read a
    body) the body decoded. *)
Lemma getAccessToken_ok (lib : Lib) (o : Oracle) (s : State) :
  (run o (Rest.getAccessToken lib) s).1.2 = None <->
  http_NewRequest_err lib "GET" Rest.tokenURL = None
  /\ exists resp, o (ReqHttpDo (10 * Second) tokenRequest) s = Ok resp
       /\ StatusCode resp = StatusOK
       /\ (json_Decode_AccessToken lib (Body resp)).2 = None.
Proof.
  unfold Rest.getAccessToken, http_NewRequest.
  destruct (http_NewRequest_err lib "GET" Rest.tokenURL);
    [split; [discriminate | intros [H _]; discriminate] |].
  rewrite run_bind. cbn [call run fst snd].
  change (Request_Header_Set "Metadata-Flavor" "Google"
            (mkRequest "GET" Rest.tokenURL [])) with tokenRequest.
  destruct (o (ReqHttpDo (10 * Second) tokenRequest) s) as [resp | e];
    cbn [run fst snd].
  - destruct (Z.eqb_spec (StatusCode resp) StatusOK) as [Hc | Hc]; cbn [negb].
    + destruct (json_Decode_AccessToken lib (Body resp)) as [t [e |]] eqn:Ed;
        cbn [run fst snd].
      * split; [discriminate |]. intros (_ & r & Hr & _ & H).
        injection Hr as <-. rewrite Ed in H. discriminate.
      * split; [| reflexivity]. intros _. split; [reflexivity |].
        exists resp. rewrite Ed. auto.
    + cbn [run fst snd]. split; [discriminate |].
      intros (_ & r & Hr & H & _). injection Hr as <-. contradiction.
  - split; [discriminate | intros (_ & r & H & _); discriminate].
Qed.

Lemma getMachineMetadata_ok (lib : Lib) (o : Oracle) (t : AccessToken)
    (url : string) (s : State) :
  (run o (Rest.getMachineMetadata lib t url) s).1.2 = None <->
  http_NewRequest_err lib "GET" url = None
  /\ exists resp, o (ReqHttpDo (30 * Second) (statusRequest t url)) s = Ok resp
       /\ StatusCode resp = StatusOK
       /\ (json_Decode_ComputeInstance lib (Body resp)).2 = None.
Proof.
  unfold Rest.getMachineMetadata, http_NewRequest.
  destruct (http_NewRequest_err lib "GET" url);
    [split; [discriminate | intros [H _]; discriminate] |].
  rewrite run_bind. cbn [call run fst snd].
  change (Request_Header_Set "Authorization" ("Bearer " +:+ Token t)
            (mkRequest "GET" url [])) with (statusRequest t url).
  destruct (o (ReqHttpDo (30 * Second) (statusRequest t url)) s) as [resp | e];
    cbn [run fst snd].
  - destruct (Z.eqb_spec (StatusCode resp) StatusOK) as [Hc | Hc]; cbn [negb].
    + destruct (json_Decode_ComputeInstance lib (Body resp)) as [vm [e |]] eqn:Ed;
        cbn [run fst snd].
      * split; [discriminate |]. intros (_ & r & Hr & _ & H).
        injection Hr as <-. rewrite Ed in H. discriminate.
      * split; [| reflexivity]. intros _. split; [reflexivity |].
        exists resp. rewrite Ed. auto.
    + cbn [run fst snd]. split; [discriminate |].
      intros (_ & r & Hr & H & _). injection Hr as <-. contradiction.
  - split; [discriminate | intros (_ & r & H & _); discriminate].
Qed.

Lemma performInstanceAction_ok (lib : Lib) (o : Oracle) (t : AccessToken)
    (url : string) (s : State) :
  (run o (Rest.performInstanceAction lib t url "suspend") s).1 = None <->
  http_NewRequest_err lib "POST" (url +:+ "/suspend") = None
  /\ exists resp, o (ReqHttpDo (30 * Second) (suspendRequest t url)) s = Ok resp
       /\ StatusCode resp = StatusOK.
Proof.
  unfold Rest.performInstanceAction, http_NewRequest.
  change (url +:+ "/" +:+ "suspend") with (url +:+ "/suspend").
  destruct (http_NewRequest_err lib "POST" (url +:+ "/suspend"));
    [split; [discriminate | intros [H _]; discriminate] |].
  rewrite run_bind. cbn [call run fst snd].
  change (Request_Header_Set "Authorization" ("Bearer " +:+ Token t)
            (mkRequest "POST" (url +:+ "/suspend") []))
    with (suspendRequest t url).
  destruct (o (ReqHttpDo (30 * Second) (suspendRequest t url)) s) as [resp | e];
    cbn [run fst snd].
  - destruct (Z.eqb_spec (StatusCode resp) StatusOK) as [Hc | Hc]; cbn [negb run fst].
    + split; [eauto | reflexivity].
    + split; [discriminate |]. intros (_ & r & Hr & H).
      injection Hr as <-. contradiction.
  - split; [discriminate | intros (_ & r & H & _); discriminate].
Qed.

Lemma run_Rest_suspendMachine (lib : Lib) (o : Oracle) (s : State) :
  run o (Rest.suspendMachine lib) s =
    let url := Rest.targetURL (config s) in
    let tok := run o (Rest.getAccessToken lib) (checking s) in
    match tok.1.2 with
    | Some e => ((mkComputeInstance "", Some ("getAccessToken: " +:+ e)), tok.2)
    | None =>
      let md := run o (Rest.getMachineMetadata lib tok.1.1 url) tok.2 in
      match md.1.2 with
      | Some e => ((md.1.1, Some ("getMachineMetadata: " +:+ e)), md.2)
      | None =>
        if String.eqb (Status md.1.1) "RUNNING" then
          let act := run o (Rest.performInstanceAction lib tok.1.1 url "suspend")
                           (running md.2) in
          match act.1 with
          | Some e => ((md.1.1, Some ("performInstanceAction: " +:+ e)), act.2)
          | None => ((md.1.1, None), act.2)
          end
        else ((md.1.1, None), notRunning (Status md.1.1) md.2)
      end
    end.
Proof.
  unfold Rest.suspendMachine. run_step. run_step. fold (checking s).
  run_step.
  destruct (run o (Rest.getAccessToken lib) (checking s)) as [[t [e |]] s1];
    cbn [fst snd]; [reflexivity |].
  run_step.
  destruct (run o (Rest.getMachineMetadata lib t (Rest.targetURL (config s))) s1)
    as [[vm [e |]] s2]; cbn [fst snd]; [reflexivity |].
  destruct (String.eqb (Status vm) "RUNNING").
  - run_step. run_step. fold (running s2).
    destruct (run o (Rest.performInstanceAction lib t _ "suspend") (running s2))
      as [[e |] s3]; reflexivity.
  - run_step. reflexivity.
Qed.

Lemma run_Rest_suspendInstance (lib : Lib) (o : Oracle) (s : State) :
  run o (Rest.suspendInstance lib) s =
    let r := run o (Rest.suspendMachine lib) (attempting s) in
    match r.1.2 with
    | Some e => (Some ("failed to suspend machine: " +:+ e), r.2)
    | None => (None, completed r.2)
    end.
Proof.
  unfold Rest.suspendInstance. run_step. run_step.
  unfold attempting. destruct (resetShutdownTimer _) as [[] s1]. cbn [fst snd].
  run_step. destruct (run o (Rest.suspendMachine lib) s1) as [[vm [e |]] s2];
    cbn [fst snd]; [reflexivity |].
  run_step. reflexivity.
Qed.

Lemma attempting_spec (s : State) :
  timers (attempting s) !! timerSeq s
    = Some (when (InactivityTimeout (config s)) s)
  /\ shutdownTimer (attempting s) = Some (timerSeq s)
  /\ config (attempting s) = config s
  /\ clock (attempting s) = clock s
  /\ count_events io_event (trace (attempting s)) = count_events io_event (trace s)
  /\ count_events action_event (trace (attempting s))
     = count_events action_event (trace s).
Proof.
  unfold attempting.
  set (s0 := slog LevelInfo "Attempting to suspend instance directly via GCP API" [] s).
  destruct (resetShutdownTimer_timers s0) as [Et Es].
  destruct (resetShutdownTimer_frame s0) as (Hc & _ & _ & Hk & _).
  rewrite Et, Es, Hc, Hk, resetShutdownTimer_trace, !count_events_app.
  unfold rearm_events. repeat split.
  - apply lookup_insert_eq.
  - destruct (shutdownTimer s0); reflexivity.
  - destruct (shutdownTimer s0); reflexivity.
Qed.

Lemma Rgrow_refl (s : State) : Rgrow s s.
Proof. exists []. reflexivity. Qed.

Lemma Rgrow_trans (s1 s2 s3 : State) : Rgrow s1 s2 -> Rgrow s2 s3 -> Rgrow s1 s3.
Proof.
  intros [e1 H1] [e2 H2]. exists (e2 ++ e1). rewrite H2, H1, app_assoc. reflexivity.
Qed.

Lemma Rgrow_emit (e : Event) (s : State) : Rgrow s (emit e s).
Proof. exists [(clock s, e)]. reflexivity. Qed.

Lemma grow_Prims : Prims Rgrow.
Proof.
  constructor; intros.
  - apply Rgrow_refl.
  - apply Rgrow_emit.
  - eexists. apply resetShutdownTimer_trace.
  - unfold stopShutdownTimer. destruct (shutdownTimer s);
      [eexists [_; _]; reflexivity | apply Rgrow_refl].
  - exists []. reflexivity.
  - exists []. reflexivity.
  - exists []. reflexivity.
Qed.

Lemma grow_DecisionPrims : DecisionPrims Rgrow.
Proof.
  constructor; intros.
  - apply Rgrow_emit.
  - unfold signalShutdown, chan_close. destruct (serverShutdown s);
      [apply Rgrow_refl | eexists [_]; reflexivity].
Qed.

Lemma trace_completed (s : State) :
  trace (completed s)
  = (clock s, EvLog LevelInfo "Suspend request completed successfully" [])
    :: trace s.
Proof. reflexivity. Qed.

Lemma new_events_app (evs : list (Time * Event)) (s s' : State) :
  trace s' = evs ++ trace s -> new_events s s' = rev evs.
Proof.
  intros E. unfold new_events. rewrite E, length_app.
  replace (length evs + length (trace s) - length (trace s))%nat
    with (length evs) by lia.
  rewrite take_app_length. reflexivity.
Qed.

Lemma grow_nil (tr : list (Time * Event)) : tr = [] ++ tr.
Proof. reflexivity. Qed.

Lemma grow_cons (x : Time * Event) (evs tr tr' : list (Time * Event)) :
  tr' = evs ++ tr -> x :: tr' = (x :: evs) ++ tr.
Proof. intros ->. reflexivity. Qed.

Ltac grown := repeat first [apply grow_nil | eapply grow_cons | reflexivity].

Ltac pair_eq :=
  apply injective_projections; cbn [fst snd]; [| reflexivity].

(** Each helper of the REST strategy, against the answer of the outside
    world: a request that cannot be built is not sent; otherwise the
    request is sent and the helper succeeds exactly when the answer is a
    success. *)
Lemma getAccessToken_unbuilt (lib : Lib) (o : Oracle) (s : State) (e : error) :
  http_NewRequest_err lib "GET" Rest.tokenURL = Some e ->
  run o (Rest.getAccessToken lib) s = ((mkAccessToken "" 0 "", Some e), s).
Proof.
  intros H. unfold Rest.getAccessToken, http_NewRequest. rewrite H. reflexivity.
Qed.

Lemma getAccessToken_answer (lib : Lib) (o : Oracle) (s : State) :
  http_NewRequest_err lib "GET" Rest.tokenURL = None ->
  let q := ReqHttpDo (10 * Second) tokenRequest in
  let r := run o (Rest.getAccessToken lib) s in
  r.2 = emit (EvIO q) s
  /\ match token_of lib (o q s) with
     | Some t => r.1 = (t, None)
     | None => r.1.2 <> None
     end.
Proof.
  intros H q r. subst r. unfold Rest.getAccessToken, http_NewRequest. rewrite H.
  rewrite run_bind. cbn [call run fst snd].
  change (Request_Header_Set "Metadata-Flavor" "Google"
            (mkRequest "GET" Rest.tokenURL [])) with tokenRequest.
  fold q. unfold token_of.
  destruct (o q s) as [resp | e]; cbn [run fst snd];
    [| split; [reflexivity | discriminate]].
  destruct (StatusCode resp =? StatusOK); cbn [negb];
    [| split; [reflexivity | discriminate]].
  destruct (json_Decode_AccessToken lib (Body resp)) as [t [e |]];
    cbn [run fst snd]; split; try reflexivity; discriminate.
Qed.

Lemma getMachineMetadata_unbuilt (lib : Lib) (o : Oracle) (t : AccessToken)
    (url : string) (s : State) (e : error) :
  http_NewRequest_err lib "GET" url = Some e ->
  run o (Rest.getMachineMetadata lib t url) s = ((mkComputeInstance "", Some e), s).
Proof.
  intros H. unfold Rest.getMachineMetadata, http_NewRequest. rewrite H.
  reflexivity.
Qed.

Lemma getMachineMetadata_answer (lib : Lib) (o : Oracle) (t : AccessToken)
    (url : string) (s : State) :
  http_NewRequest_err lib "GET" url = None ->
  let q := ReqHttpDo (30 * Second) (statusRequest t url) in
  let r := run o (Rest.getMachineMetadata lib t url) s in
  r.2 = emit (EvIO q) s
  /\ match instance_of lib (o q s) with
     | Some vm => r.1 = (vm, None)
     | None => r.1.2 <> None
     end.
Proof.
  intros H q r. subst r. unfold Rest.getMachineMetadata, http_NewRequest.
  rewrite H. rewrite run_bind. cbn [call run fst snd].
  change (Request_Header_Set "Authorization" ("Bearer " +:+ Token t)
            (mkRequest "GET" url [])) with (statusRequest t url).
  fold q. unfold instance_of.
  destruct (o q s) as [resp | e]; cbn [run fst snd];
    [| split; [reflexivity | discriminate]].
  destruct (StatusCode resp =? StatusOK); cbn [negb];
    [| split; [reflexivity | discriminate]].
  destruct (json_Decode_ComputeInstance lib (Body resp)) as [vm [e |]];
    cbn [run fst snd]; split; try reflexivity; discriminate.
Qed.

Lemma performInstanceAction_unbuilt (lib : Lib) (o : Oracle) (t : AccessToken)
    (url : string) (s : State) (e : error) :
  http_NewRequest_err lib "POST" (url +:+ "/suspend") = Some e ->
  run o (Rest.performInstanceAction lib t url "suspend") s = (Some e, s).
Proof.
  intros H. unfold Rest.performInstanceAction, http_NewRequest.
  change (url +:+ "/" +:+ "suspend") with (url +:+ "/suspend").
  rewrite H. reflexivity.
Qed.

Lemma performInstanceAction_answer (lib : Lib) (o : Oracle) (t : AccessToken)
    (url : string) (s : State) :
  http_NewRequest_err lib "POST" (url +:+ "/suspend") = None ->
  let q := ReqHttpDo (30 * Second) (suspendRequest t url) in
  let r := run o (Rest.performInstanceAction lib t url "suspend") s in
  r.2 = emit (EvIO q) s
  /\ (r.1 = None <-> accepted (o q s) = true).
Proof.
  intros H q r. subst r. unfold Rest.performInstanceAction, http_NewRequest.
  change (url +:+ "/" +:+ "suspend") with (url +:+ "/suspend").
  rewrite H. rewrite run_bind. cbn [call run fst snd].
  change (Request_Header_Set "Authorization" ("Bearer " +:+ Token t)
            (mkRequest "POST" (url +:+ "/suspend") []))
    with (suspendRequest t url).
  fold q. unfold accepted.
  destruct (o q s) as [resp | e]; cbn [run fst snd];
    [| split; [reflexivity | split; discriminate]].
  destruct (StatusCode resp =? StatusOK); cbn [negb run fst snd];
    split; try reflexivity; split; try discriminate; reflexivity.
Qed.

(** The rearm at the head of [suspendInstance] makes no remote call. *)
Lemma attempting_quiet (s : State) :
  exists aevs, trace (attempting s) = aevs ++ trace s
               /\ io_requests (rev aevs) = [].
Proof.
  unfold attempting. rewrite resetShutdownTimer_trace.
  set (s1 := slog LevelInfo "Attempting to suspend instance directly via GCP API"
                  [] s).
  exists (rearm_events s1 ++ [(clock s, EvLog LevelInfo
            "Attempting to suspend instance directly via GCP API" [])]).
  split.
  - rewrite <- app_assoc. reflexivity.
  - rewrite rev_app_distr. unfold rearm_events. cbn [rev app].
    destruct (shutdownTimer s1); reflexivity.
Qed.

Ltac new_events_are :=
  erewrite new_events_app;
  [| cbn [trace emit set_trace checking running notRunning completed slog];
     grown].

(** [suspendMachine] of the REST strategy sends the requests, and fails at
    the sub-step, that the specification names for the answers it gets. *)
Lemma Rest_suspendMachine_expected (lib : Lib) (o : Oracle) (s : State) :
  let r := run o (Rest.suspendMachine lib) s in
  let ex := Rest_expected lib o (Rest.targetURL (config s)) (checking s) in
  io_requests (new_events s r.2) = ex.1
  /\ Rest_stage r.1.2 = ex.2
  /\ (r.1.2 = None <-> ex.2 = None)
  /\ io_requests (new_events s (completed r.2)) = ex.1.
Proof.
  intros r ex. subst r ex. rewrite run_Rest_suspendMachine. cbn zeta.
  set (url := Rest.targetURL (config s)). set (sc := checking s).
  unfold Rest_expected.
  destruct (http_NewRequest_err lib "GET" Rest.tokenURL) as [e |] eqn:Nt.
  { rewrite (getAccessToken_unbuilt lib o sc e Nt). cbn [fst snd].
    repeat split; try discriminate; new_events_are; reflexivity. }
  destruct (getAccessToken_answer lib o sc Nt) as [St Ht]. cbn zeta in St, Ht.
  destruct (run o (Rest.getAccessToken lib) sc) as [[t' e'] s'].
  cbn [fst snd] in *. subst s'.
  set (q1 := ReqHttpDo (10 * Second) tokenRequest) in *.
  destruct (token_of lib (o q1 sc)) as [t |].
  2:{ destruct e' as [e' |]; [| contradiction]. cbn [fst snd].
      repeat split; try discriminate; new_events_are; reflexivity. }
  injection Ht as -> ->. cbn [fst snd].
  destruct (http_NewRequest_err lib "GET" url) as [e |] eqn:Nm.
  { rewrite (getMachineMetadata_unbuilt lib o t url _ e Nm). cbn [fst snd].
    repeat split; try discriminate; new_events_are; reflexivity. }
  destruct (getMachineMetadata_answer lib o t url (emit (EvIO q1) sc) Nm)
    as [Sm Hm]. cbn zeta in Sm, Hm.
  destruct (run o (Rest.getMachineMetadata lib t url) (emit (EvIO q1) sc))
    as [[vm' e'] s'].
  cbn [fst snd] in *. subst s'.
  set (q2 := ReqHttpDo (30 * Second) (statusRequest t url)) in *.
  destruct (instance_of lib (o q2 (emit (EvIO q1) sc))) as [vm |].
  2:{ destruct e' as [e' |]; [| contradiction]. cbn [fst snd].
      repeat split; try discriminate; new_events_are; reflexivity. }
  injection Hm as -> ->. cbn [fst snd].
  destruct (String.eqb (Status vm) "RUNNING").
  2:{ cbn [fst snd]. repeat split; new_events_are; reflexivity. }
  set (s2 := running (emit (EvIO q2) (emit (EvIO q1) sc))).
  destruct (http_NewRequest_err lib "POST" (url +:+ "/suspend")) as [e |] eqn:Np.
  { rewrite (performInstanceAction_unbuilt lib o t url s2 e Np). cbn [fst snd].
    repeat split; try discriminate; subst s2; new_events_are; reflexivity. }
  destruct (performInstanceAction_answer lib o t url s2 Np) as [Sa Ha].
  cbn zeta in Sa, Ha.
  destruct (run o (Rest.performInstanceAction lib t url "suspend") s2)
    as [e' s'].
  cbn [fst snd] in *. subst s'.
  set (q3 := ReqHttpDo (30 * Second) (suspendRequest t url)) in *.
  destruct (accepted (o q3 s2)).
  - assert (He : e' = None) by (apply Ha; reflexivity). subst e'. cbn [fst snd].
    repeat split; subst s2; new_events_are; reflexivity.
  - destruct e' as [e' |]; [| destruct Ha as [Ha _]; discriminate (Ha eq_refl)].
    cbn [fst snd].
    repeat split; try discriminate; subst s2; new_events_are; reflexivity.
Qed.

(** The steps of [suspendInstance], through its helpers. *)
Lemma Rest_suspendInstance_steps (lib : Lib) (o : Oracle) (s : State) :
  let s0 := attempting s in
  let url := Rest.targetURL (config s) in
  let tok := run o (Rest.getAccessToken lib) (checking s0) in
  let md := run o (Rest.getMachineMetadata lib tok.1.1 url) tok.2 in
  let is_running := String.eqb (Status md.1.1) "RUNNING" in
  let act := run o (Rest.performInstanceAction lib tok.1.1 url "suspend")
                 (running md.2) in
  let called := bool_decide (tok.1.2 = None) && bool_decide (md.1.2 = None)
                && is_running in
  let sent := called
              && bool_decide (http_NewRequest_err lib "POST" (url +:+ "/suspend")
                              = None) in
  let r := run o (Rest.suspendInstance lib) s in
  (timers s0 !! timerSeq s = Some (when (InactivityTimeout (config s)) s)
   /\ shutdownTimer s0 = Some (timerSeq s)
   /\ count_events io_event (trace s0) = count_events io_event (trace s)
   /\ exists evs, trace r.2 = evs ++ trace s0)
  /\ (called = true ->
      r.2 = match act.1 with Some _ => act.2 | None => completed act.2 end)
  /\ count_events action_event (trace r.2)
     = (count_events action_event (trace s) + if sent then 1 else 0)%nat
  /\ (r.1 = None <->
      tok.1.2 = None /\ md.1.2 = None /\ (is_running = true -> act.1 = None)).
Proof.
  intros s0 url tok md is_running act called sent r.
  destruct (attempting_spec s) as (A1 & A2 & A3 & A4 & A5 & A6).
  fold s0 in A1, A2, A3, A4, A5, A6.
  assert (Er : r = let m := run o (Rest.suspendMachine lib) s0 in
                   match m.1.2 with
                   | Some e => (Some ("failed to suspend machine: " +:+ e), m.2)
                   | None => (None, completed m.2)
                   end).
  { subst r s0. apply run_Rest_suspendInstance. }
  cbn zeta in Er. rewrite run_Rest_suspendMachine in Er. cbn zeta in Er.
  rewrite A3 in Er. fold url tok in Er. fold md in Er. fold is_running act in Er.
  assert (G : Rgrow s0 (run o (Rest.suspendMachine lib) s0).2).
  { apply run_guarantees; [apply Rgrow_refl | apply Rgrow_trans |].
    apply guarantees_Rest_suspendMachine;
      [exact grow_Prims | exact grow_DecisionPrims]. }
  rewrite run_Rest_suspendMachine in G. cbn zeta in G.
  rewrite A3 in G. fold url tok in G. fold md in G. fold is_running act in G.
  assert (St : tok.2 = match http_NewRequest_err lib "GET" Rest.tokenURL with
                       | Some _ => checking s0
                       | None => emit (EvIO (ReqHttpDo (10 * Second) tokenRequest))
                                      (checking s0)
                       end) by apply getAccessToken_state.
  assert (Sm : md.2 = match http_NewRequest_err lib "GET" url with
                      | Some _ => tok.2
                      | None => emit (EvIO (ReqHttpDo (30 * Second)
                                              (statusRequest tok.1.1 url))) tok.2
                      end) by apply getMachineMetadata_state.
  assert (Sa : act.2 = match http_NewRequest_err lib "POST" (url +:+ "/suspend") with
                       | Some _ => running md.2
                       | None => emit (EvIO (ReqHttpDo (30 * Second)
                                               (suspendRequest tok.1.1 url)))
                                      (running md.2)
                       end) by apply performInstanceAction_state.
  assert (Ct : count_events action_event (trace tok.2)
               = count_events action_event (trace s)).
  { rewrite St. destruct (http_NewRequest_err lib "GET" Rest.tokenURL);
      cbn; exact A6. }
  assert (Cm : count_events action_event (trace md.2)
               = count_events action_event (trace s)).
  { rewrite Sm. destruct (http_NewRequest_err lib "GET" url); cbn; exact Ct. }
  subst called sent. rewrite Er. clear Er. revert G.
  destruct (tok.1.2) as [e1 |]; cbn [fst snd bool_decide andb].
  { rewrite bool_decide_false by discriminate. cbn [andb]. intros G.
    repeat split; try assumption; try discriminate.
    - rewrite Ct. lia.
    - intros (H & _). discriminate. }
  rewrite bool_decide_true by reflexivity. cbn [andb].
  destruct (md.1.2) as [e2 |]; cbn [fst snd].
  { rewrite bool_decide_false by discriminate. cbn [andb]. intros G.
    repeat split; try assumption; try discriminate.
    - rewrite Cm. lia.
    - intros (_ & H & _). discriminate. }
  rewrite bool_decide_true by reflexivity. cbn [andb].
  destruct is_running.
  - assert (Ca : count_events action_event (trace act.2)
                 = (count_events action_event (trace s)
                    + if bool_decide (http_NewRequest_err lib "POST"
                                        (url +:+ "/suspend") = None)
                      then 1 else 0)%nat).
    { rewrite Sa. destruct (http_NewRequest_err lib "POST" (url +:+ "/suspend"));
        cbn; rewrite Cm; lia. }
    destruct (act.1) as [e3 |]; cbn [fst snd]; intros G.
    + repeat split; try assumption; try discriminate; try reflexivity.
      intros (_ & _ & H). specialize (H eq_refl). discriminate.
    + repeat split; try assumption; try reflexivity.
      destruct G as [evs G]. rewrite trace_completed, G.
      eexists (_ :: evs). reflexivity.
  - cbn [fst snd]. intros G. repeat split; try assumption; try discriminate.
    + destruct G as [evs G]. rewrite trace_completed, G.
      eexists (_ :: evs). reflexivity.
    + cbn. rewrite Cm. lia.
Qed.

(** C6. [suspendInstance] of the REST strategy, started in [s] against any
    outside world.  The timer is rearmed first: in the state [s0] in which
    [suspendMachine] starts the new timer is pending and no remote call
    has been made, and all that follows is added to the trace of [s0].
    Then the token is fetched, the status is fetched, and
    [performInstanceAction] is called exactly when both succeeded and the
    status is "RUNNING"; it sends the suspend request unless that request
    cannot be built.  With another status the procedure succeeds and no
    suspend request is sent.  The procedure returns an error exactly when
    the token fetch failed, or the status fetch failed, or the status was
    "RUNNING" and the suspend action failed.

    Against the answers of the outside world: the requests that reach it
    after the rearm are exactly those the specification names for these
    answers, in its order (the token request; then, with a token, the
    GET of the instance; then, with status "RUNNING", the POST of the
    suspend action), and the procedure returns nil exactly when none of
    the sub-steps failed: every request could be built and was answered
    with status 200 and, for the first two, a body that decodes. *)
Theorem Rest_suspendInstance_contract (lib : Lib) (o : Oracle) (s : State) :
  let s0 := attempting s in
  let url := Rest.targetURL (config s) in
  let tok := run o (Rest.getAccessToken lib) (checking s0) in
  let md := run o (Rest.getMachineMetadata lib tok.1.1 url) tok.2 in
  let is_running := String.eqb (Status md.1.1) "RUNNING" in
  let act := run o (Rest.performInstanceAction lib tok.1.1 url "suspend")
                 (running md.2) in
  let called := bool_decide (tok.1.2 = None) && bool_decide (md.1.2 = None)
                && is_running in
  let sent := called
              && bool_decide (http_NewRequest_err lib "POST" (url +:+ "/suspend")
                              = None) in
  let r := run o (Rest.suspendInstance lib) s in
  let expected := Rest_expected lib o url (checking s0) in
  (timers s0 !! timerSeq s = Some (when (InactivityTimeout (config s)) s)
   /\ shutdownTimer s0 = Some (timerSeq s)
   /\ count_events io_event (trace s0) = count_events io_event (trace s)
   /\ exists evs, trace r.2 = evs ++ trace s0)
  /\ (called = true ->
      r.2 = match act.1 with Some _ => act.2 | None => completed act.2 end)
  /\ count_events action_event (trace r.2)
     = (count_events action_event (trace s) + if sent then 1 else 0)%nat
  /\ (r.1 = None <->
      tok.1.2 = None /\ md.1.2 = None /\ (is_running = true -> act.1 = None))
  /\ io_requests (new_events s0 r.2) = expected.1
  /\ (r.1 = None <-> expected.2 = None)
  /\ io_requests (new_events s r.2) = expected.1.
Proof.
  intros s0 url tok md is_running act called sent r expected.
  pose proof (Rest_suspendInstance_steps lib o s) as Hold. cbn zeta in Hold.
  fold s0 url in Hold. fold tok in Hold. fold md in Hold.
  fold is_running act in Hold. fold r in Hold.
  destruct Hold as (H1 & H2 & H3 & H4).
  split; [exact H1 |]. split; [exact H2 |]. split; [exact H3 |].
  split; [exact H4 |].
  destruct (attempting_spec s) as (_ & _ & A3 & _). fold s0 in A3.
  destruct (Rest_suspendMachine_expected lib o s0) as (E1 & _ & E3 & E4).
  cbn zeta in E1, E3, E4. rewrite A3 in E1, E3, E4.
  fold url in E1, E3, E4. fold expected in E1, E3, E4.
  assert (Er : r = let m := run o (Rest.suspendMachine lib) s0 in
                   match m.1.2 with
                   | Some e => (Some ("failed to suspend machine: " +:+ e), m.2)
                   | None => (None, completed m.2)
                   end).
  { subst r s0. apply run_Rest_suspendInstance. }
  cbn zeta in Er.
  destruct (attempting_quiet s) as (aevs & Ea & Eio). fold s0 in Ea.
  assert (G : Rgrow s0 (run o (Rest.suspendMachine lib) s0).2).
  { apply run_guarantees; [apply Rgrow_refl | apply Rgrow_trans |].
    apply guarantees_Rest_suspendMachine;
      [exact grow_Prims | exact grow_DecisionPrims]. }
  assert (Hshift : forall X, Rgrow s0 X ->
            io_requests (new_events s X) = io_requests (new_events s0 X)).
  { intros X [evs EX].
    rewrite (new_events_app evs s0 X EX).
    rewrite (new_events_app (evs ++ aevs) s X)
      by (rewrite EX, Ea, app_assoc; reflexivity).
    rewrite rev_app_distr. unfold io_requests in *. rewrite omap_app, Eio.
    reflexivity. }
  rewrite Er.
  destruct ((run o (Rest.suspendMachine lib) s0).1.2) as [e |]; cbn [fst snd].
  - split; [exact E1 |]. split.
    + split; [discriminate |]. intros H. apply E3 in H. discriminate.
    + rewrite Hshift by exact G. exact E1.
  - split; [exact E4 |]. split.
    + split; [intros _; apply E3; reflexivity | reflexivity].
    + rewrite Hshift; [exact E4 |].
      eapply Rgrow_trans; [exact G |]. apply Rgrow_emit.
Qed.

(** ** C8: the two strategies *)

Lemma run_Sdk_suspendMachine (o : Oracle) (s : State) :
  run o Sdk.suspendMachine s =
    let cfg := config s in
    let get := ReqInstancesGet (GoogleProjectID cfg) (GCEZone cfg) (GCEInstance cfg) in
    let sus := ReqInstancesSuspend (GoogleProjectID cfg) (GCEZone cfg)
                                   (GCEInstance cfg) in
    let svc := run o Sdk.createComputeService (checking s) in
    match svc.1 with
    | Some e => ((None, Some ("createComputeService: " +:+ e)), svc.2)
    | None =>
      match o get svc.2 with
      | Err e => ((None, Some ("failed to get instance: " +:+ e)),
                  emit (EvIO get) svc.2)
      | Ok instance =>
        if String.eqb (Status instance) "RUNNING" then
          let s1 := running (emit (EvIO get) svc.2) in
          match o sus s1 with
          | Some e => ((Some instance, Some ("failed to suspend instance: " +:+ e)),
                       emit (EvIO sus) s1)
          | None => ((Some instance, None), emit (EvIO sus) s1)
          end
        else ((Some instance, None),
              notRunning (Status instance) (emit (EvIO get) svc.2))
      end
    end.
Proof.
  unfold Sdk.suspendMachine. run_step. run_step. fold (checking s). run_step.
  destruct (run o Sdk.createComputeService (checking s)) as [[e |] s1];
    cbn [fst snd]; [reflexivity |].
  run_step. cbn [call run fst snd].
  destruct (o _ s1) as [instance | e]; [| reflexivity].
  destruct (String.eqb (Status instance) "RUNNING").
  - run_step. run_step. cbn [call run fst snd]. fold (running (emit (EvIO
      (ReqInstancesGet (GoogleProjectID (config s)) (GCEZone (config s))
         (GCEInstance (config s)))) s1)).
    destruct (o _ _) as [e |]; reflexivity.
  - run_step. reflexivity.
Qed.

Lemma run_createComputeService (o : Oracle) (s : State) :
  let q1 := ReqFindDefaultCredentials Sdk.ComputeScope in
  run o Sdk.createComputeService s =
    match o q1 s with
    | Some e => (Some ("failed to find default credentials: " +:+ e),
                 emit (EvIO q1) s)
    | None =>
      match o ReqNewService (emit (EvIO q1) s) with
      | Some e => (Some ("failed to create compute service: " +:+ e),
                   emit (EvIO ReqNewService) (emit (EvIO q1) s))
      | None => (None, emit (EvIO ReqNewService) (emit (EvIO q1) s))
      end
    end.
Proof.
  intros q1. unfold Sdk.createComputeService. rewrite run_bind.
  cbn [call run fst snd]. fold q1.
  destruct (o q1 s) as [e |]; [reflexivity |].
  rewrite run_bind. cbn [call run fst snd].
  destruct (o ReqNewService _); reflexivity.
Qed.

(** [suspendMachine] of the SDK strategy makes the calls, and fails at the
    sub-step, that the specification names for the answers it gets. *)
Lemma Sdk_suspendMachine_expected (o : Oracle) (s : State) :
  let r := run o Sdk.suspendMachine s in
  let ex := Sdk_expected o (config s) (checking s) in
  io_requests (new_events s r.2) = ex.1
  /\ Sdk_stage r.1.2 = ex.2
  /\ (r.1.2 = None <-> ex.2 = None)
  /\ io_requests (new_events s (completed r.2)) = ex.1.
Proof.
  intros r ex. subst r ex. rewrite run_Sdk_suspendMachine. cbn zeta.
  rewrite run_createComputeService. cbn zeta. unfold Sdk_expected.
  set (sc := checking s).
  set (q1 := ReqFindDefaultCredentials Sdk.ComputeScope).
  set (q3 := ReqInstancesGet (GoogleProjectID (config s)) (GCEZone (config s))
                             (GCEInstance (config s))).
  set (q4 := ReqInstancesSuspend (GoogleProjectID (config s)) (GCEZone (config s))
                                 (GCEInstance (config s))).
  destruct (o q1 sc) as [e1 |]; cbn [fst snd].
  { repeat split; try discriminate; new_events_are; reflexivity. }
  destruct (o ReqNewService (emit (EvIO q1) sc)) as [e2 |]; cbn [fst snd].
  { repeat split; try discriminate; new_events_are; reflexivity. }
  destruct (o q3 _) as [instance | e3]; cbn [fst snd].
  2:{ repeat split; try discriminate; new_events_are; reflexivity. }
  destruct (String.eqb (Status instance) "RUNNING").
  - destruct (o q4 _) as [e4 |]; cbn [fst snd];
      repeat split; try discriminate; new_events_are; reflexivity.
  - cbn [fst snd]. repeat split; new_events_are; reflexivity.
Qed.









(** ** C9: a failed write on the liveness endpoint *)

Lemma run_Write_fail (e : error) (o : Oracle) (data : string)
    (w : ResponseWriter) (s : State) :
  run (fail_writes e o) (Write data w) s
  = ((WriteHeader 200 w, Some e), emit (EvIO (ReqWrite data)) s).
Proof. reflexivity. Qed.

Lemma WriteHeader_sent (code : Z) (w : ResponseWriter) (c : Z) :
  rwStatus w = Some c -> WriteHeader code w = w.
Proof. unfold WriteHeader. intros ->. reflexivity. Qed.

(** Once a status is sent, [http.Error] cannot change it. *)
Lemma http_Error_superfluous (e : error) (o : Oracle) (w : ResponseWriter)
    (msg : string) (code c : Z) (s : State) :
  rwStatus w = Some c ->
  rwStatus (run (fail_writes e o) (http_Error w msg code) s).1 = Some c
  /\ (run (fail_writes e o) (http_Error w msg code) s).2
     = emit (EvIO (ReqWrite (msg +:+ LF))) s.
Proof.
  intros Hw. unfold http_Error. rewrite run_bind, run_Write_fail.
  cbn [fst snd run].
  set (w1 := rw_Header_Set _ _ (rw_Header_Set _ _ (rw_Header_Del _ w))).
  assert (H1 : rwStatus w1 = Some c) by exact Hw.
  rewrite (WriteHeader_sent code w1 c H1), (WriteHeader_sent 200 w1 c H1).
  split; [exact H1 | reflexivity].
Qed.

(** C9, as the code has it.  [pingHandler] records the signal first: the
    tracker holds the present time and the incremented count, and the
    timer is rearmed, before the body is written.  But it also calls
    [WriteHeader(200)] before the write, so when the write fails the
    [WriteHeader(500)] of [http.Error] is superfluous: the status of the
    response stays 200. *)
Theorem pingHandler_write_failure_status
    (e : error) (o : Oracle) (r : Inbound) (s : State) :
  let res := run (fail_writes e o) (pingHandler newResponseWriter r) s in
  rwStatus res.1 = Some StatusOK
  /\ rwStatus res.1 <> Some StatusInternalServerError
  /\ tracker res.2
     = mkActivityTracker (wrap64 (requestCount (tracker s) + 1)) (clock s)
  /\ shutdownTimer res.2 = Some (timerSeq s)
  /\ timers res.2 !! timerSeq s = Some (when (InactivityTimeout (config s)) s).
Proof.
  intros res. subst res. unfold pingHandler.
  run_step. run_step. run_step.
  set (s1 := (recordPing s).2).
  destruct (resetShutdownTimer_timers s1) as [Et Es].
  destruct (resetShutdownTimer_frame s1) as (_ & Htr & _).
  cbn zeta in Htr. set (s2 := (resetShutdownTimer s1).2) in *.
  rewrite run_bind, run_Write_fail. cbn [fst snd]. run_step.
  set (w := WriteHeader 200 (WriteHeader StatusOK _)).
  assert (Hw : rwStatus w = Some StatusOK) by reflexivity.
  match goal with
  | |- context [run (fail_writes e o) (http_Error w ?m ?c) ?st] =>
      destruct (http_Error_superfluous e o w m c StatusOK st Hw) as [H1 H2]
  end.
  rewrite H1, H2. repeat split.
  - discriminate.
  - exact Htr.
  - exact Es.
  - cbn [timers slog emit set_trace]. rewrite Et. apply lookup_insert_eq.
Qed.

(** ** C7: the keep-online flag and a ping *)

(** C7, as the code has it.  With [LIBOPS_KEEP_ONLINE=yes], [main] does
    not arm the timer, but [pingHandler] calls [resetShutdownTimer]
    whatever the flag: after one ping the timer is armed, and when the
    timeout has run the suspend request is sent. *)
Theorem keep_online_ping_suspends :
  execs demoLib BuildRest (boot keepOnlineConfig 0) keepOnlineSchedule
    = Some keepOnlineFinal
  /\ LibOpsKeepOnline (config (shared keepOnlineFinal)) = "yes"%string
  /\ first_armed (trace (shared keepOnlineFinal)) = Some 0
  /\ count_events action_event (trace (shared keepOnlineFinal)) = 1%nat
  /\ count_events suspend_event (trace (shared keepOnlineFinal)) = 2%nat
  /\ serverShutdown (shared keepOnlineFinal) = true.
Proof. vm_compute. repeat split. Qed.

(** ** The scenarios of the tests *)

(** [TestTimerResetOnPingRequest]: two seconds after the ping nothing was
    suspended, the old timer is gone and the new one is not due. *)
Example test_no_suspend_right_after_ping :
  count_events suspend_event
    (traceOf (execs demoLib BuildTest (boot demoConfig 0) pingResetPrefix)) = 0%nat
  /\ execs demoLib BuildTest (boot demoConfig 0) (pingResetPrefix ++ [LFire 0]) = None
  /\ execs demoLib BuildTest (boot demoConfig 0) (pingResetPrefix ++ [LFire 1]) = None.
Proof. vm_compute. repeat split. Qed.

(** A full timeout after the ping the test double is called. *)
Example test_suspend_after_timeout_following_ping :
  count_events suspend_event
    (traceOf (execs demoLib BuildTest (boot demoConfig 0)
                (pingResetPrefix ++ pingResetSuffix))) = 1%nat
  /\ In (179 * Second, EvMockSuspend)
        (traceOf (execs demoLib BuildTest (boot demoConfig 0)
                    (pingResetPrefix ++ pingResetSuffix))).
Proof. vm_compute. split; [reflexivity |]. repeat (try (left; reflexivity); right). Qed.

(** ** The theorems at concrete inputs *)

Lemma demo_run : execs demoLib BuildRest (boot demoConfig 0) demoSchedule = Some demoFinal.
Proof. vm_compute. reflexivity. Qed.

Lemma initiateShutdown_fresh_fallback_rearms_witness :
  run busyWorld (getLastGitHubActionsActivity demoLib) demoState
    = (((12 * 3600 + 5) * Second, None), emit (EvIO dockerLogs) demoState)
  /\ Time_Sub (clock demoState) ((12 * 3600 + 5) * Second)
     < InactivityTimeout (config demoState)
  /\ serverShutdown
       (run busyWorld (initiateShutdown demoLib (suspendFunc demoLib BuildRest))
            demoState).2
     = serverShutdown demoState.
Proof.
  assert (H1 : run busyWorld (getLastGitHubActionsActivity demoLib) demoState
               = (((12 * 3600 + 5) * Second, None), emit (EvIO dockerLogs) demoState))
    by reflexivity.
  assert (H2 : Time_Sub (clock demoState) ((12 * 3600 + 5) * Second)
               < InactivityTimeout (config demoState))
    by (vm_compute; reflexivity).
  split; [exact H1 |]. split; [exact H2 |].
  exact (proj1 (proj2 (initiateShutdown_fresh_fallback_rearms
                         demoLib busyWorld (suspendFunc demoLib BuildRest)
                         demoState _ _ H1 H2))).
Defined.

Lemma no_suspend_before_timeout_witness :
  0 + InactivityTimeout demoConfig <= 90 * Second.
Proof.
  apply (no_suspend_before_timeout demoLib BuildRest demoConfig 0 demoSchedule
           demoFinal 0 (90 * Second)
           (EvLog LevelInfo "Attempting to suspend instance directly via GCP API" [])).
  - exact demo_run.
  - vm_compute. reflexivity.
  - vm_compute. repeat (try (left; reflexivity); right).
  - reflexivity.
Defined.

Lemma at_most_one_scheduled_decision_witness :
  (size (timers (shared demoFinal)) <= 1)%nat.
Proof.
  exact (proj1 (proj2 (at_most_one_scheduled_decision demoLib BuildRest
                         demoConfig 0 demoSchedule demoFinal demo_run))).
Defined.



Lemma idleWorld_blind : oracle_blind idleWorld.
Proof. intros r s1 s2 E. destruct r; reflexivity. Qed.

Lemma initiateShutdown_ignores_lastPing_witness :
  serverShutdown
    (run idleWorld (initiateShutdown demoLib (suspendFunc demoLib BuildRest))
         demoState).2
  = serverShutdown
      (run idleWorld (initiateShutdown demoLib (suspendFunc demoLib BuildRest))
           (with_lastPing (clock demoState) demoState)).2.
Proof.
  exact (proj1 (proj2 (initiateShutdown_ignores_lastPing demoLib BuildRest
                         idleWorld demoState (clock demoState) idleWorld_blind))).
Defined.

(** * Further properties of the code *)

(** ** The handlers *)

Lemma Ranswer_refl (s : State) : Ranswer s s.
Proof. unfold Ranswer. repeat split. Qed.

Lemma Ranswer_trans (s1 s2 s3 : State) :
  Ranswer s1 s2 -> Ranswer s2 s3 -> Ranswer s1 s3.
Proof.
  unfold Ranswer. intros H1 H2.
  destruct H1 as (A1 & A2 & A3 & A4 & A5 & A6 & A7 & A8 & A9).
  destruct H2 as (B1 & B2 & B3 & B4 & B5 & B6 & B7 & B8 & B9).
  repeat split; congruence.
Qed.

Lemma Ranswer_emit (e : Event) (s : State) :
  suspend_event e = false -> Ranswer s (emit e s).
Proof. intros He. unfold Ranswer. cbn. rewrite He. repeat split. Qed.

Lemma guarantees_serve_other (r : Inbound) :
  String.eqb (Path r) "/ping" = false -> guarantees Ranswer (serve r).
Proof.
  intros Hp. unfold serve. rewrite Hp. unfold healthHandler.
  destruct (String.eqb (Path r) "/healthcheck").
  - apply guarantees_bind; [apply g_Ret |]. intros w.
    apply guarantees_modify. intros s. apply Ranswer_emit. reflexivity.
  - apply g_Ret.
Qed.

(** X1. A request to [/healthcheck] is answered with status 200, an empty
    body and the header [Content-Type: text/plain], and a request to any
    path other than [/ping] changes nothing the controller depends on:
    run on its own or step by step among other goroutines, its handler
    leaves the tracker, the pending timers, [shutdownTimer],
    [serverShutdown] and the configuration as they were and adds no
    suspension event. *)
Theorem healthcheck_is_pure (o : Oracle) (r : Inbound) (s : State) :
  String.eqb (Path r) "/ping" = false ->
  guarantees Ranswer (serve r)
  /\ Ranswer s (run o (serve r) s).2
  /\ (String.eqb (Path r) "/healthcheck" = true ->
      run o (serve r) s = (tt, emit (EvResponse StatusOK "") s)
      /\ (run o (healthHandler newResponseWriter r) s).1
         = mkResponseWriter [("Content-Type", "text/plain")]%string
                            (Some StatusOK)
                            [("Content-Type", "text/plain")]%string "").
Proof.
  intros Hp. pose proof (guarantees_serve_other r Hp) as G.
  split; [exact G |]. split.
  - apply run_guarantees; [apply Ranswer_refl | apply Ranswer_trans | exact G].
  - intros Hh. unfold serve. rewrite Hp, Hh. split; reflexivity.
Qed.

(** X2. A request to [/ping] whose response can be written, served in a
    state in which every pending timer is the one [shutdownTimer] holds.
    The handler records the ping, rearms the timer, logs, and only then
    writes: the trace grows by exactly these events in this order, the
    response is 200 with body "pong" and [Content-Type: text/plain], the
    tracker holds the present time and the count incremented by one
    (plainly so below the largest [int64]), and the one pending timer is
    the new one, due a timeout from now. *)
Theorem ping_is_served (o : Oracle) (r : Inbound) (s : State) :
  String.eqb (Path r) "/ping" = true ->
  held s ->
  let res := run (pass_writes o) (pingHandler newResponseWriter r) s in
  let s' := (run (pass_writes o) (serve r) s).2 in
  res.1 = mkResponseWriter [("Content-Type", "text/plain")]%string (Some StatusOK)
                           [("Content-Type", "text/plain")]%string "pong"
  /\ trace s'
     = (clock s, EvResponse StatusOK "pong")
       :: (clock s, EvIO (ReqWrite "pong"))
       :: (clock s, EvLog LevelInfo "Ping request received"
                      [("remote_addr"%string, AString (RemoteAddr r));
                       ("user_agent"%string, AString (UserAgent r));
                       ("timer_reset"%string, ABool true)])
       :: rearm_events s ++ trace s
  /\ lastPing (tracker s') = clock s
  /\ requestCount (tracker s') = wrap64 (requestCount (tracker s) + 1)
  /\ (- 2 ^ 63 <= requestCount (tracker s) < 2 ^ 63 - 1 ->
      requestCount (tracker s') = requestCount (tracker s) + 1)
  /\ timers s' = {[ timerSeq s := when (InactivityTimeout (config s)) s ]}
  /\ shutdownTimer s' = Some (timerSeq s)
  /\ clock s' = clock s /\ serverShutdown s' = serverShutdown s.
Proof.
  intros Hp Hh res s'.
  set (s1 := (recordPing s).2).
  assert (Hh1 : held s1) by exact Hh.
  destruct (resetShutdownTimer_single s1 Hh1) as [Et Es].
  destruct (resetShutdownTimer_frame s1) as (_ & Htr & Hsd & Hck & _).
  cbn zeta in Htr, Hsd, Hck.
  pose proof (resetShutdownTimer_trace s1) as Etr.
  set (s2 := (resetShutdownTimer s1).2) in *.
  set (s3 := slog LevelInfo "Ping request received"
               [("remote_addr"%string, AString (RemoteAddr r));
                ("user_agent"%string, AString (UserAgent r));
                ("timer_reset"%string, ABool true)] s2).
  assert (Eres : res = (mkResponseWriter [("Content-Type", "text/plain")]%string
                          (Some StatusOK)
                          [("Content-Type", "text/plain")]%string "pong",
                        emit (EvIO (ReqWrite "pong")) s3)).
  { subst res. unfold pingHandler. run_step. run_step. run_step.
    fold s1 s2. fold s3. reflexivity. }
  assert (Es' : s' = emit (EvResponse StatusOK "pong")
                       (emit (EvIO (ReqWrite "pong")) s3)).
  { subst s'. unfold serve. rewrite Hp. rewrite run_bind. fold res.
    rewrite Eres. reflexivity. }
  split; [rewrite Eres; reflexivity |].
  rewrite Es'. cbn [trace tracker timers shutdownTimer clock serverShutdown
                    emit set_trace slog s3].
  rewrite Etr, Htr, Et, Es, Hck, Hsd.
  repeat split.
  intros Hrange. cbn [s1 recordPing snd set_tracker tracker requestCount].
  unfold wrap64. rewrite Z.mod_small by lia. lia.
Qed.

(** ** Stopping the timer *)

(** X3. [stopShutdownTimer] forgets the timer: afterwards [shutdownTimer]
    is nil, the timer it held is not pending, and a second call does
    nothing.  In a state in which every pending timer is the one held (and
    every state the process reaches is one) nothing is pending afterwards,
    so no decision can fire until the timer is armed again. *)
Theorem stopShutdownTimer_cancels
    (lib : Lib) (b : Build) (s : State) (gs : list (Prog unit)) :
  let s' := (stopShutdownTimer s).2 in
  shutdownTimer s' = None
  /\ (forall t, shutdownTimer s = Some t -> timers s' !! t = None)
  /\ stopShutdownTimer s' = (tt, s')
  /\ (held s ->
      timers s' = ∅ /\ forall t, exec lib b (mkSys s' gs) (LFire t) = None).
Proof.
  intros s'. pose proof (held_others_gone s) as Hg.
  assert (Hn : shutdownTimer s' = None).
  { subst s'. unfold stopShutdownTimer.
    destruct (shutdownTimer s) eqn:E0; [reflexivity | exact E0]. }
  split; [exact Hn |]. split.
  { intros t Ht. subst s'. unfold stopShutdownTimer. rewrite Ht. cbn.
    apply lookup_delete_eq. }
  split; [unfold stopShutdownTimer at 1; rewrite Hn; reflexivity |].
  intros Hh. specialize (Hg Hh).
  assert (He : timers s' = ∅).
  { subst s'. unfold stopShutdownTimer.
    destruct (shutdownTimer s); exact Hg. }
  split; [exact He |].
  intros t. unfold exec. cbn [shared pool]. destruct (halted s'); [reflexivity |].
  rewrite He, lookup_empty. reflexivity.
Qed.

(** ** The configuration *)

Lemma getEnv_empty (env : gmap string string) (key d : string) :
  os_Getenv env key = ""%string -> getEnv env key d = d.
Proof. unfold getEnv. intros ->. reflexivity. Qed.

Lemma getEnv_set (env : gmap string string) (key d : string) :
  os_Getenv env key <> ""%string -> getEnv env key d = os_Getenv env key.
Proof.
  unfold getEnv. intros H. cbn zeta.
  destruct (String.eqb_spec (os_Getenv env key) ""); [contradiction | reflexivity].
Qed.

(** X4. The timeout [loadConfig] computes from [INACTIVITY_TIMEOUT].  A
    variable that is unset, empty or not an integer gives the default of
    90 seconds.  An integer [n] is taken as it is, zero and negative
    numbers included, and multiplied by [time.Second] in [int64]: the
    timeout is [n] seconds as long as [|n| <= 9223372036], and from
    9223372037 on the product wraps around, so that a very long timeout
    becomes a negative one. *)
Theorem loadConfig_timeout (atoi : string -> option Z) (env : gmap string string) :
  let v := os_Getenv env "INACTIVITY_TIMEOUT" in
  let T := InactivityTimeout (loadConfig atoi env) in
  (v = ""%string \/ atoi v = None -> T = 90 * Second)
  /\ (forall n, v <> ""%string -> atoi v = Some n ->
        (- 9223372036 <= n <= 9223372036 -> T = n * Second)
        /\ (9223372036 < n <= 18446744073 -> T = n * Second - 2 ^ 64 /\ T < 0)).
Proof.
  intros v T. subst T. unfold loadConfig. cbn [InactivityTimeout].
  unfold getDurationEnv. split.
  - intros [Hv | Hv].
    + rewrite getEnv_empty by exact Hv. reflexivity.
    + destruct (String.eqb_spec v "") as [E | E].
      * rewrite getEnv_empty by exact E. reflexivity.
      * rewrite getEnv_set by exact E. fold v.
        destruct (String.eqb_spec v ""); [contradiction |]. cbn [negb].
        rewrite Hv. reflexivity.
  - intros n Hne Hn. rewrite getEnv_set by exact Hne. fold v.
    destruct (String.eqb_spec v ""); [contradiction |]. cbn [negb]. rewrite Hn.
    unfold wrap64, Second. split; intros Hr.
    + rewrite Z.mod_small by lia. lia.
    + assert (E : (n * 1000000000 + 2 ^ 63) mod 2 ^ 64
                  = n * 1000000000 + 2 ^ 63 - 2 ^ 64).
      { symmetry. apply (Z.mod_unique _ _ 1); lia. }
      rewrite E. lia.
Qed.

(** X5. Suspension needs the whole identity of the machine.  When one of
    [GCP_PROJECT], [GCP_ZONE] and [GCP_INSTANCE_NAME] is unset or empty in
    the environment the configuration was loaded from, the decision to
    shut down does not run [suspendFunc], whatever it is: it logs that it
    proceeds, logs the warning, and signals the shutdown, and these are
    all the events it adds: no request leaves the process and no timer
    changes.  When all three are set, it runs [suspendFunc] right after
    the first log line, reports its result and signals the shutdown.
    Signalling the shutdown: afterwards the shutdown channel is closed; it
    is closed now (one close event) when it was still open, and left alone
    when it was closed already, so the close never panics. *)
Theorem identity_from_environment
    (atoi : string -> option Z) (env : gmap string string)
    (o : Oracle) (sf : Prog (option error)) (d : Duration) (s : State) :
  config s = loadConfig atoi env ->
  let unset := os_Getenv env "GCP_PROJECT" = ""%string
               \/ os_Getenv env "GCP_ZONE" = ""%string
               \/ os_Getenv env "GCP_INSTANCE_NAME" = ""%string in
  let s' := (run o (proceedWithShutdown sf d) s).2 in
  let started := (clock s, EvLog LevelInfo "Proceeding with shutdown"
                             [("ping_duration_seconds"%string, ASeconds d)]) in
  let warned := (clock s, EvLog LevelWarn "Missing GCP configuration, cannot suspend"
                            [("project"%string, AString (GoogleProjectID (config s)));
                             ("zone"%string, AString (GCEZone (config s)));
                             ("instance"%string, AString (GCEInstance (config s)))]) in
  let ran := run o sf (set_trace (started :: trace s) s) in
  let reported := (clock ran.2,
                   match ran.1 with
                   | Some e => EvLog LevelError "Failed to suspend instance"
                                     [("error"%string, AString e)]
                   | None => EvLog LevelInfo "Suspend request sent successfully" []
                   end) in
  (missingGCPConfig (config s) = true <-> unset)
  /\ (unset ->
      run o (proceedWithShutdown sf d) s
      = signalShutdown (missingWarned (proceeding d s)))
  /\ (~ unset ->
      run o (proceedWithShutdown sf d) s
      = let r := run o sf (proceeding d s) in
        signalShutdown (suspendReported r.1 r.2))
  /\ (unset ->
      serverShutdown s' = true
      /\ trace s' = (if serverShutdown s then [] else [(clock s, EvClose)])
                    ++ warned :: started :: trace s
      /\ io_requests (new_events s s') = []
      /\ count_events suspend_event (trace s') = count_events suspend_event (trace s)
      /\ timers s' = timers s /\ shutdownTimer s' = shutdownTimer s
      /\ crashed s' = crashed s /\ exited s' = exited s)
  /\ (~ unset ->
      serverShutdown s' = true
      /\ trace s' = (if serverShutdown ran.2 then [] else [(clock ran.2, EvClose)])
                    ++ reported :: trace ran.2
      /\ timers s' = timers ran.2 /\ shutdownTimer s' = shutdownTimer ran.2
      /\ crashed s' = crashed ran.2 /\ exited s' = exited ran.2).
Proof.
  intros Hc unset s' started warned ran reported.
  assert (Hm : missingGCPConfig (config s) = true <-> unset).
  { rewrite Hc. unfold missingGCPConfig, loadConfig, unset.
    cbn [GoogleProjectID GCEZone GCEInstance].
    rewrite !orb_true_iff, !String.eqb_eq.
    assert (G : forall k, getEnv env k "" = ""%string
                          <-> os_Getenv env k = ""%string).
    { intros k. destruct (String.eqb_spec (os_Getenv env k) "") as [E | E].
      - rewrite getEnv_empty by exact E. tauto.
      - rewrite getEnv_set by exact E. tauto. }
    rewrite !G. tauto. }
  split; [exact Hm |].
  assert (Hrun : run o (proceedWithShutdown sf d) s
                 = signalShutdown
                     (if missingGCPConfig (config s)
                      then missingWarned (proceeding d s)
                      else suspendReported ran.1 ran.2)).
  { rewrite run_proceedWithShutdown. reflexivity. }
  assert (Hyes : unset -> missingGCPConfig (config s) = true)
    by (intros Hu; apply Hm; exact Hu).
  assert (Hno : ~ unset -> missingGCPConfig (config s) = false).
  { intros Hu. destruct (missingGCPConfig (config s)); [| reflexivity].
    exfalso. apply Hu, Hm. reflexivity. }
  split; [intros Hu; rewrite Hrun, (Hyes Hu); reflexivity |].
  split; [intros Hu; rewrite Hrun, (Hno Hu); reflexivity |].
  split.
  - intros Hu. subst s'. rewrite Hrun, (Hyes Hu). clear Hrun.
    assert (Etr : trace (signalShutdown (missingWarned (proceeding d s))).2
                  = (if serverShutdown s then [] else [(clock s, EvClose)])
                    ++ warned :: started :: trace s).
    { unfold signalShutdown, chan_close, missingWarned, proceeding, slog, emit.
      cbn. destruct (serverShutdown s); reflexivity. }
    split.
    { unfold signalShutdown, chan_close, missingWarned, proceeding, slog, emit.
      cbn. destruct (serverShutdown s) eqn:E; cbn; [exact E | reflexivity]. }
    split; [exact Etr |].
    split.
    { erewrite new_events_app
        by (rewrite Etr;
            change (?a ++ ?x :: ?y :: trace s) with (a ++ [x; y] ++ trace s);
            rewrite app_assoc; reflexivity).
      destruct (serverShutdown s); reflexivity. }
    split.
    { rewrite Etr, count_events_app. destruct (serverShutdown s); reflexivity. }
    unfold signalShutdown, chan_close, missingWarned, proceeding, slog, emit.
    cbn. destruct (serverShutdown s); cbn; repeat split.
  - intros Hu. subst s'. rewrite Hrun, (Hno Hu). clear Hrun.
    subst reported. clearbody ran. destruct ran as [err s2]. cbn [fst snd].
    unfold signalShutdown, chan_close, suspendReported, slog, emit.
    destruct err as [e |]; cbn; destruct (serverShutdown s2) eqn:E; cbn;
      repeat split; exact E.
Qed.

(** X6. How soon a rearmed timer can fire, in a live process in which
    every pending timer is the one [shutdownTimer] holds.  With a positive
    timeout nothing can fire until time has passed; with a timeout that is
    zero or negative (the configuration accepts both) the timer is due the
    moment it is armed, so the decision to shut down may start right after
    any rearming, a ping included. *)
Theorem rearmed_timer_due
    (lib : Lib) (b : Build) (s : State) (gs : list (Prog unit)) :
  held s -> halted s = false ->
  let s' := (resetShutdownTimer s).2 in
  let T := InactivityTimeout (config s) in
  (0 < T -> forall t, exec lib b (mkSys s' gs) (LFire t) = None)
  /\ (T <= 0 ->
      exec lib b (mkSys s' gs) (LFire (timerSeq s))
      = Some (mkSys (set_timers ∅ s')
                    (gs ++ [timerCallback lib (suspendFunc lib b)]))).
Proof.
  intros Hh Hn s' T.
  destruct (resetShutdownTimer_single s Hh) as [Et _].
  destruct (resetShutdownTimer_frame s) as (_ & _ & _ & Hck & Hcr & Hex & _).
  cbn zeta in Hck, Hcr, Hex. fold s' in Et, Hck, Hcr, Hex.
  assert (Hn' : halted s' = false).
  { unfold halted in *. rewrite Hcr, Hex. exact Hn. }
  split.
  - intros HT t. unfold exec. cbn [shared pool]. rewrite Hn', Et.
    destruct (decide (t = timerSeq s)) as [-> | Hne].
    + rewrite lookup_singleton_eq. unfold when. fold T.
      destruct (Z.leb_spec T 0); [lia |]. rewrite Hck.
      destruct (Z.leb_spec (clock s + T) (clock s)); [lia | reflexivity].
    + rewrite lookup_singleton_ne by congruence. reflexivity.
  - intros HT. unfold exec. cbn [shared pool]. rewrite Hn', Et.
    rewrite lookup_singleton_eq. unfold when. fold T.
    destruct (Z.leb_spec T 0); [| lia]. rewrite Hck.
    destruct (Z.leb_spec (clock s) (clock s)); [| lia].
    rewrite delete_singleton_eq. reflexivity.
Qed.

(** ** More invariants of the running process *)

Lemma stopShutdownTimer_frame (s : State) :
  let s' := (stopShutdownTimer s).2 in
  config s' = config s /\ tracker s' = tracker s /\
  serverShutdown s' = serverShutdown s /\ clock s' = clock s /\
  crashed s' = crashed s.
Proof.
  unfold stopShutdownTimer. destruct (shutdownTimer s); cbn; repeat split.
Qed.

Lemma signalShutdown_frame (s : State) :
  let s' := (signalShutdown s).2 in
  config s' = config s /\ tracker s' = tracker s /\ clock s' = clock s
  /\ timers s' = timers s /\ shutdownTimer s' = shutdownTimer s.
Proof.
  unfold signalShutdown, chan_close. destruct (serverShutdown s); cbn; repeat split.
Qed.

Lemma steady_frame (cfg : Config) (now : Time) (s s' : State) :
  config s' = config s -> tracker s' = tracker s -> clock s' = clock s ->
  steady cfg now s -> steady cfg now s'.
Proof. unfold steady. intros -> -> ->. trivial. Qed.

Lemma steady_Prims (cfg : Config) (now : Time) :
  Prims (Rany (steady cfg now) (fun _ => True)).
Proof.
  constructor; unfold Rany; intros; (split; [| trivial]).
  - assumption.
  - assumption.
  - destruct (resetShutdownTimer_frame s) as (F1 & F2 & _ & F3 & _).
    eapply steady_frame; eassumption.
  - destruct (stopShutdownTimer_frame s) as (F1 & F2 & _ & F3 & _).
    eapply steady_frame; eassumption.
  - destruct H as (Hc & Hn & Hl). unfold steady. cbn. repeat split; [assumption | lia | lia].
  - assumption.
  - assumption.
Qed.

Lemma steady_DecisionPrims (cfg : Config) (now : Time) :
  DecisionPrims (Rlate (steady cfg now) (fun _ => True)).
Proof.
  constructor; unfold Rlate; intros; (split; [| trivial]).
  - assumption.
  - destruct (signalShutdown_frame s) as (F1 & F2 & F3 & _).
    eapply steady_frame; eassumption.
Qed.

(** X7. Two facts about every state the process reaches, whatever the
    schedule: the configuration is the one [init] loaded (no code writes
    to it), and the time of the last ping lies between the start of the
    process and the present, so the idle time [now.Sub(lastPing)] that
    [initiateShutdown] computes is never negative. *)
Theorem lastPing_never_ahead
    (lib : Lib) (b : Build) (cfg : Config) (now : Time)
    (ls : list Label) (y : Sys) :
  execs lib b (boot cfg now) ls = Some y ->
  config (shared y) = cfg
  /\ now <= lastPing (tracker (shared y)) <= clock (shared y)
  /\ 0 <= Time_Sub (clock (shared y)) (lastPing (tracker (shared y))).
Proof.
  intros He.
  assert (H : steady cfg now (shared y)).
  { revert He.
    apply (reachable_invariant lib b (steady cfg now) (fun _ => True)).
    - apply steady_Prims.
    - constructor. unfold Rany. intros e s _ H. split; [exact H | trivial].
    - apply steady_DecisionPrims.
    - unfold Rany. intros s d Hd (Hc & Hn & Hl). split; [| trivial].
      unfold steady. cbn. repeat split; [assumption | lia | lia].
    - intros s t due H _ _. split; [exact H | trivial].
    - unfold steady. cbn. repeat split; lia. }
  destruct H as (Hc & Hn & Hl). split; [exact Hc |]. split; [lia |].
  unfold Time_Sub, minDuration, maxDuration. cbn zeta.
  destruct (Z.ltb_spec (clock (shared y) - lastPing (tracker (shared y))) (- 2 ^ 63));
    [lia |].
  destruct (Z.ltb_spec (2 ^ 63 - 1) (clock (shared y) - lastPing (tracker (shared y))));
    lia.
Qed.

(** ** Programs that keep an invariant *)

Section Ensures.
Context (I : State -> Prop).

Lemma ensures_bind {A B} (p : Prog A) (f : A -> Prog B) :
  ensures I p -> (forall a, ensures I (f a)) -> ensures I (bind p f).
Proof.
  intros Hp Hf. induction Hp as [a | C act k Hact Hk IH | r k Hr Hk IH];
    cbn [bind].
  - apply Hf.
  - apply e_Atomic; assumption.
  - apply e_IO; assumption.
Qed.

(** The value read is the one of a state of [I]. *)
Lemma ensures_gets_bind {A B} (f : State -> B) (k : B -> Prog A) :
  (forall s, I s -> ensures I (k (f s))) -> ensures I (bind (gets f) k).
Proof.
  intros H. cbn [bind gets]. apply e_Atomic; cbn [fst snd]; [auto |].
  intros s Hs. cbn [bind]. apply H. exact Hs.
Qed.

Lemma ensures_atomic {B} (act : State -> B * State) :
  (forall s, I s -> I (act s).2) -> ensures I (Atomic act Ret).
Proof. intros H. apply e_Atomic; [exact H | intros; apply e_Ret]. Qed.

Lemma ensures_modify (f : State -> State) :
  (forall s, I s -> I (f s)) -> ensures I (modify f).
Proof. intros H. apply ensures_atomic. exact H. Qed.

Lemma ensures_call (r : IOReq) :
  (forall s, I s -> I (emit (EvIO r) s)) -> ensures I (call r).
Proof. intros H. apply e_IO; [exact H | intros; apply e_Ret]. Qed.

(** A program all of whose steps keep [I] ensures it. *)
Lemma guarantees_ensures {A} (p : Prog A) :
  guarantees (Rany I (fun _ => True)) p -> ensures I p.
Proof.
  intros Hp. induction Hp as [a | C act k Hact Hk IH | r k Hr Hk IH].
  - apply e_Ret.
  - apply e_Atomic; [intros s Hs; apply (Hact s Hs) | intros s _; apply IH].
  - apply e_IO; [intros s Hs; apply (Hr s Hs) | exact IH].
Qed.

Lemma ensures_step (o : Oracle) (p p' : Prog unit) (s s' : State) :
  ensures I p -> I s -> step_thread o p s = Some (p', s') ->
  I s' /\ ensures I p'.
Proof.
  intros Hp Hs. destruct Hp as [a | C act k Hact Hk | r k Hr Hk];
    cbn [step_thread].
  - discriminate.
  - specialize (Hact s Hs). specialize (Hk s Hs).
    destruct (act s) as [c s0]. intros [= <- <-]. split; assumption.
  - destruct (io_enabled r (o r s) s); [| discriminate]. intros [= <- <-].
    split; [apply Hr; exact Hs | apply Hk].
Qed.

Context (lib : Lib) (b : Build) (ok : Inbound -> bool).

Hypothesis Htick : forall s d, 0 <= d -> I s -> I (set_clock (clock s + d) s).
Hypothesis Hfire : forall s t due,
  I s -> timers s !! t = Some due -> due <= clock s ->
  I (set_timers (delete t (timers s)) s)
  /\ ensures I (timerCallback lib (suspendFunc lib b)).
Hypothesis Hserve : forall r, ok r = true -> ensures I (serve r).

Lemma exec_ensures (y y' : Sys) (l : Label) :
  I (shared y) -> Forall (ensures I) (pool y) ->
  label_ok ok l = true -> exec lib b y l = Some y' ->
  I (shared y') /\ Forall (ensures I) (pool y').
Proof.
  intros HI HP Hl. unfold exec. destruct (halted (shared y)); [discriminate |].
  destruct l as [d | t | r | i o].
  - destruct (Z.leb_spec 0 d) as [Hd |]; [| discriminate]. intros [= <-].
    split; [apply Htick; assumption | exact HP].
  - destruct (timers (shared y) !! t) as [due |] eqn:Et; [| discriminate].
    destruct (Z.leb_spec due (clock (shared y))) as [Hdue |]; [| discriminate].
    intros [= <-]. destruct (Hfire _ _ _ HI Et Hdue) as [HI' Hcb].
    split; [exact HI' |]. cbn [pool]. apply Forall_app. split; [exact HP |].
    constructor; [exact Hcb | constructor].
  - destruct (listening (shared y)); [| discriminate]. intros [= <-].
    split; [exact HI |]. cbn [pool]. apply Forall_app. split; [exact HP |].
    constructor; [apply Hserve; exact Hl | constructor].
  - destruct (pool y !! i) as [p |] eqn:Ep; [| discriminate].
    destruct (step_thread o p (shared y)) as [[p' s'] |] eqn:Es; [| discriminate].
    intros [= <-]. cbn [pool shared].
    assert (Hp : ensures I p).
    { rewrite Forall_lookup in HP. exact (HP i p Ep). }
    destruct (ensures_step o p p' (shared y) s' Hp HI Es) as [HI' Hp'].
    split; [exact HI' |]. apply Forall_insert; assumption.
Qed.

Lemma execs_ensures (ls : list Label) (y y' : Sys) :
  I (shared y) -> Forall (ensures I) (pool y) ->
  forallb (label_ok ok) ls = true -> execs lib b y ls = Some y' ->
  I (shared y') /\ Forall (ensures I) (pool y').
Proof.
  revert y. induction ls as [| l ls IH]; intros y HI HP; cbn [execs forallb].
  - intros _ [= <-]. split; assumption.
  - intros [Hl Hls]%andb_true_iff.
    destruct (exec lib b y l) as [y1 |] eqn:E; [| discriminate].
    destruct (exec_ensures y y1 l HI HP Hl E) as [HI1 HP1].
    apply IH; assumption.
Qed.
End Ensures.

Ltac ens_head :=
  lazymatch goal with
  | |- ensures _ (bind (gets _) _) => apply ensures_gets_bind; intros ? ?
  | |- ensures _ (bind _ _) => apply ensures_bind
  | |- ensures _ (Ret _) => apply e_Ret
  | |- ensures _ (modify _) => apply ensures_modify; intros ? ?
  | |- ensures _ (gets _) => apply ensures_atomic; intros ? ?
  | |- ensures _ (call _) => apply ensures_call; intros ? ?
  | |- ensures _ (Atomic _ Ret) => apply ensures_atomic; intros ? ?
  | |- ensures _ (match (match ?y with _ => _ end) with _ => _ end) => destruct y
  | |- ensures _ (match ?x with _ => _ end) => destruct x
  | |- forall _, _ => intro
  end.

(** ** The keep-online flag without a ping *)

Lemma never_armed_emit (e : Event) (s : State) :
  arm_event e = false -> suspend_event e = false -> close_event e = false ->
  never_armed s -> never_armed (emit e s).
Proof.
  intros H1 H2 H3 (K & T & S & C & P & F). unfold never_armed. cbn.
  repeat split; try assumption. constructor; [cbn; auto | exact F].
Qed.

Lemma never_armed_stop (s : State) :
  never_armed s -> never_armed (stopShutdownTimer s).2.
Proof.
  intros H. unfold stopShutdownTimer.
  destruct H as (K & T & S & C & P & F). rewrite S. cbn.
  repeat split; assumption.
Qed.

Lemma ensures_main_keep_online : ensures never_armed main.
Proof.
  unfold main. apply ensures_gets_bind. intros s0 H0.
  destruct H0 as (K & _). rewrite K. cbn [String.eqb Ascii.eqb Bool.eqb negb].
  repeat first
    [ ens_head
    | apply never_armed_stop; assumption
    | apply never_armed_emit; [reflexivity | reflexivity | reflexivity | assumption]
    | assumption ].
Qed.

Lemma ensures_serve_not_ping (r : Inbound) :
  not_ping r = true -> ensures never_armed (serve r).
Proof.
  unfold not_ping. intros Hp. apply negb_true_iff in Hp.
  unfold serve, healthHandler. rewrite Hp.
  repeat first
    [ ens_head
    | apply never_armed_emit; [reflexivity | reflexivity | reflexivity | assumption] ].
Qed.

(** X8. What [LIBOPS_KEEP_ONLINE=yes] does guarantee.  As long as no
    request to [/ping] arrives, whatever else happens (health checks,
    signals, time passing), the timer is never armed: in every state the
    process reaches no timer is pending, [shutdownTimer] is nil, no
    [time.AfterFunc] was ever called, nothing was suspended,
    [serverShutdown] is open, and no timer can fire. *)
Theorem keep_online_without_ping
    (lib : Lib) (b : Build) (cfg : Config) (now : Time)
    (ls : list Label) (y : Sys) :
  LibOpsKeepOnline cfg = "yes"%string ->
  forallb (label_ok not_ping) ls = true ->
  execs lib b (boot cfg now) ls = Some y ->
  timers (shared y) = ∅
  /\ shutdownTimer (shared y) = None
  /\ serverShutdown (shared y) = false
  /\ Forall (fun te => arm_event te.2 = false /\ suspend_event te.2 = false
                       /\ close_event te.2 = false) (trace (shared y))
  /\ forall t, exec lib b y (LFire t) = None.
Proof.
  intros Hk Hls He.
  assert (H : never_armed (shared y)).
  { eapply (execs_ensures never_armed lib b not_ping); [| | | | | exact Hls | exact He].
    - intros s d _ H. exact H.
    - intros s t due (_ & T & _) Ht. rewrite T in Ht.
      by apply lookup_empty_Some in Ht.
    - exact ensures_serve_not_ping.
    - unfold never_armed. cbn. repeat split; [exact Hk | constructor].
    - cbn. constructor; [exact ensures_main_keep_online | constructor]. }
  destruct H as (_ & T & S & C & _ & F).
  repeat split; try assumption.
  intros t. unfold exec. destruct (halted (shared y)); [reflexivity |].
  rewrite T, lookup_empty. reflexivity.
Qed.

(** ** An incomplete identity *)

Lemma never_suspended_grow (evs : list (Time * Event)) (s s' : State) :
  config s' = config s -> trace s' = evs ++ trace s ->
  Forall (fun te => suspend_event te.2 = false) evs ->
  never_suspended s -> never_suspended s'.
Proof.
  intros Hc Ht He [M F]. split; [rewrite Hc; exact M |].
  rewrite Ht. apply Forall_app. split; assumption.
Qed.

Lemma never_suspended_emit (e : Event) (s : State) :
  suspend_event e = false -> never_suspended s -> never_suspended (emit e s).
Proof.
  intros He. apply (never_suspended_grow [(clock s, e)]); [reflexivity ..|].
  constructor; [exact He | constructor].
Qed.

Lemma never_suspended_signal (s : State) :
  never_suspended s -> never_suspended (signalShutdown s).2.
Proof.
  unfold signalShutdown, chan_close. destruct (serverShutdown s); [trivial |].
  apply (never_suspended_grow [(clock s, EvClose)]); [reflexivity ..|].
  constructor; [reflexivity | constructor].
Qed.

Lemma observed_not_suspend (e : Event) :
  observed_event e = true -> suspend_event e = false.
Proof.
  destruct e; cbn; try reflexivity; try discriminate.
  intros ->%String.eqb_eq. reflexivity.
Qed.

Lemma never_suspended_Prims : Prims (Rany never_suspended (fun _ => True)).
Proof.
  constructor; unfold Rany; intros; (split; [| trivial]).
  - assumption.
  - apply never_suspended_emit; assumption.
  - destruct (resetShutdownTimer_frame s) as (F1 & _).
    eapply never_suspended_grow;
      [exact F1 | apply resetShutdownTimer_trace | | assumption].
    eapply Forall_impl; [apply rearm_events_quiet |]. cbn beta. tauto.
  - unfold stopShutdownTimer. destruct (shutdownTimer s); [| assumption].
    destruct H as [M F]. split; [exact M |]. cbn. repeat constructor. exact F.
  - assumption.
  - assumption.
  - assumption.
Qed.

Lemma never_suspended_MainPrims : MainPrims (Rany never_suspended (fun _ => True)).
Proof.
  constructor. unfold Rany. intros e s He H. split; [| trivial].
  apply never_suspended_emit; [apply observed_not_suspend; exact He | exact H].
Qed.

(** With an incomplete identity the closure of the timer never reaches
    [suspendFunc]. *)
Lemma ensures_timerCallback_missing (lib : Lib) (sf : Prog (option error)) :
  ensures never_suspended (timerCallback lib sf).
Proof.
  unfold timerCallback, initiateShutdown, proceedWithShutdown.
  repeat first
    [ match goal with
      | H : never_suspended ?s |- context [missingGCPConfig (config ?s)] =>
          rewrite (proj1 H)
      end
    | apply guarantees_ensures, guarantees_checkGitHubActions,
        never_suspended_Prims
    | apply never_suspended_signal; assumption
    | apply never_suspended_emit; [reflexivity | assumption]
    | assumption
    | ens_head ].
Qed.

(** X9. A process started from an environment in which one of
    [GCP_PROJECT], [GCP_ZONE] and [GCP_INSTANCE_NAME] is unset or empty
    never suspends anything: in no run, with whatever requests, timers and
    interleaving, does the trace contain a suspension attempt, a suspend
    request of either strategy or a call of the test double. *)
Theorem incomplete_identity_never_suspends
    (lib : Lib) (b : Build) (atoi : string -> option Z)
    (env : gmap string string) (now : Time) (ls : list Label) (y : Sys) :
  os_Getenv env "GCP_PROJECT" = ""%string
  \/ os_Getenv env "GCP_ZONE" = ""%string
  \/ os_Getenv env "GCP_INSTANCE_NAME" = ""%string ->
  execs lib b (init atoi env now) ls = Some y ->
  count_events suspend_event (trace (shared y)) = 0%nat
  /\ Forall (fun te => suspend_event te.2 = false) (trace (shared y)).
Proof.
  intros Hu He.
  assert (Hm : missingGCPConfig (loadConfig atoi env) = true).
  { unfold missingGCPConfig, loadConfig. cbn [GoogleProjectID GCEZone GCEInstance].
    rewrite !orb_true_iff, !String.eqb_eq.
    destruct Hu as [E | [E | E]]; rewrite (getEnv_empty _ _ _ E); tauto. }
  assert (H : never_suspended (shared y)).
  { eapply (execs_ensures never_suspended lib b (fun _ => true));
      [| | | | | | exact He].
    - intros s d _ H. exact H.
    - intros s t due H _ _. split; [exact H |].
      apply ensures_timerCallback_missing.
    - intros r _. apply guarantees_ensures, guarantees_serve,
        never_suspended_Prims.
    - split; [exact Hm | constructor].
    - cbn. constructor; [| constructor].
      apply guarantees_ensures, guarantees_main;
        [apply never_suspended_Prims | apply never_suspended_MainPrims].
    - clear. induction ls as [| [] ls IH]; cbn; auto. }
  destruct H as [_ F]. split; [| exact F].
  induction F as [| [t e] tr He' _ IH]; [reflexivity |].
  cbn [count_events]. cbn in He'. rewrite He', IH. reflexivity.
Qed.

(** ** The suspend procedure of the SDK strategy *)

Lemma guarantees_Sdk_suspendMachine (R : State -> State -> Prop) :
  Prims R -> DecisionPrims R -> guarantees R Sdk.suspendMachine.
Proof.
  intros P D. unfold Sdk.suspendMachine, Sdk.createComputeService.
  repeat first [prog_head | prim_solve P
               | apply (prim_suspend _ D); reflexivity].
Qed.

Lemma run_Sdk_suspendInstance (o : Oracle) (s : State) :
  run o Sdk.suspendInstance s =
    let r := run o Sdk.suspendMachine (attempting s) in
    match r.1.2 with
    | Some e => (Some ("failed to suspend machine: " +:+ e), r.2)
    | None => (None, completed r.2)
    end.
Proof.
  unfold Sdk.suspendInstance. run_step. run_step.
  unfold attempting. destruct (resetShutdownTimer _) as [[] s1]. cbn [fst snd].
  run_step. destruct (run o Sdk.suspendMachine s1) as [[vm [e |]] s2];
    cbn [fst snd]; [reflexivity |].
  run_step. reflexivity.
Qed.

Lemma createComputeService_actions (o : Oracle) (s : State) :
  count_events action_event (trace (run o Sdk.createComputeService s).2)
  = count_events action_event (trace s).
Proof.
  unfold Sdk.createComputeService. rewrite run_bind. cbn [call run fst snd].
  destruct (o (ReqFindDefaultCredentials Sdk.ComputeScope) s) as [e |];
    [reflexivity |].
  rewrite run_bind. cbn [call run fst snd].
  destruct (o ReqNewService _); reflexivity.
Qed.

(** The steps of [suspendInstance] of the SDK strategy, through its helper. *)
Lemma Sdk_suspendInstance_steps (o : Oracle) (s : State) :
  let s0 := attempting s in
  let cfg := config s in
  let get := ReqInstancesGet (GoogleProjectID cfg) (GCEZone cfg) (GCEInstance cfg) in
  let sus := ReqInstancesSuspend (GoogleProjectID cfg) (GCEZone cfg)
                                 (GCEInstance cfg) in
  let svc := run o Sdk.createComputeService (checking s0) in
  let got := o get svc.2 in
  let s1 := running (emit (EvIO get) svc.2) in
  let called := bool_decide (svc.1 = None)
                && match got with
                   | Ok i => String.eqb (Status i) "RUNNING"
                   | Err _ => false
                   end in
  let r := run o Sdk.suspendInstance s in
  (timers s0 !! timerSeq s = Some (when (InactivityTimeout (config s)) s)
   /\ shutdownTimer s0 = Some (timerSeq s)
   /\ count_events io_event (trace s0) = count_events io_event (trace s))
  /\ count_events action_event (trace r.2)
     = (count_events action_event (trace s) + if called then 1 else 0)%nat
  /\ (r.1 = None <->
      svc.1 = None
      /\ exists i, got = Ok i
           /\ (String.eqb (Status i) "RUNNING" = true -> o sus s1 = None))
  /\ r.1 = match svc.1 with
           | Some e =>
               Some ("failed to suspend machine: createComputeService: " +:+ e)
           | None =>
             match got with
             | Err e =>
                 Some ("failed to suspend machine: failed to get instance: " +:+ e)
             | Ok i =>
               if String.eqb (Status i) "RUNNING" then
                 match o sus s1 with
                 | Some e =>
                     Some ("failed to suspend machine: failed to suspend instance: "
                           +:+ e)
                 | None => None
                 end
               else None
             end
           end.
Proof.
  intros s0 cfg get sus svc got s1 called r.
  destruct (attempting_spec s) as (A1 & A2 & A3 & A4 & A5 & A6).
  fold s0 in A1, A2, A3, A4, A5, A6.
  split; [repeat split; assumption |].
  assert (Er : r = let m := run o Sdk.suspendMachine s0 in
                   match m.1.2 with
                   | Some e => (Some ("failed to suspend machine: " +:+ e), m.2)
                   | None => (None, completed m.2)
                   end).
  { subst r s0. apply run_Sdk_suspendInstance. }
  cbn zeta in Er. rewrite run_Sdk_suspendMachine in Er. cbn zeta in Er.
  rewrite A3 in Er. fold cfg in Er. fold get sus svc in Er. fold got in Er.
  fold s1 in Er.
  assert (Cs : count_events action_event (trace svc.2)
               = count_events action_event (trace s)).
  { subst svc. rewrite createComputeService_actions. exact A6. }
  subst called. rewrite Er. clear Er. clearbody svc.
  destruct (svc.1) as [e1 |]; cbn [fst snd].
  { rewrite bool_decide_false by discriminate. cbn [andb].
    split; [rewrite Cs; lia |]. split; [| reflexivity].
    split; [discriminate | intros [H _]; discriminate]. }
  rewrite bool_decide_true by reflexivity. cbn [andb].
  destruct got as [i | e2]; cbn [fst snd].
  2:{ split; [cbn; rewrite Cs; lia |]. split; [| reflexivity].
      split; [discriminate | intros (_ & i & H & _); discriminate]. }
  destruct (String.eqb (Status i) "RUNNING") eqn:Ei.
  - destruct (o sus s1) as [e3 |] eqn:E3; cbn [fst snd].
    + split; [cbn; rewrite Cs; lia |]. split; [| reflexivity].
      split; [discriminate |]. intros (_ & j & [= <-] & H).
      specialize (H Ei). discriminate.
    + split; [cbn; rewrite Cs; lia |]. split; [| reflexivity].
      split; [| reflexivity]. intros _. split; [reflexivity |].
      exists i. split; [reflexivity | intros _; reflexivity].
  - cbn [fst snd]. split; [cbn; rewrite Cs; lia |]. split; [| reflexivity].
    split; [| reflexivity]. intros _. split; [reflexivity |].
    exists i. split; [reflexivity |]. rewrite Ei. discriminate.
Qed.

(** X10. [suspendInstance] of the SDK strategy, started in [s] against any
    outside world.  The timer is rearmed before any remote call.  Then a
    compute service is created (on every call anew), the instance is
    fetched, and [Instances.Suspend] is called exactly when both succeeded
    and the status is "RUNNING": the number of suspend calls grows by one
    exactly then.  The procedure returns nil exactly when the service was
    created, the instance was fetched and, if it was running, the suspend
    call succeeded; otherwise the error names the sub-step that failed.
    Creating the service is two calls on the outside world:
    [google.FindDefaultCredentials] for the compute scope and, when that
    succeeds, [compute.NewService]; it fails when either does, with that
    call's error.  Against the answers of the outside world: the calls the
    procedure makes, in order, are the credentials search, the creation of
    the service, [Instances.Get] and [Instances.Suspend], each one made
    exactly when the ones before it succeeded (and, for the last, the
    status is "RUNNING"), and the procedure returns nil exactly when none
    of the calls it made failed. *)
Theorem Sdk_suspendInstance_contract (o : Oracle) (s : State) :
  let s0 := attempting s in
  let cfg := config s in
  let get := ReqInstancesGet (GoogleProjectID cfg) (GCEZone cfg) (GCEInstance cfg) in
  let sus := ReqInstancesSuspend (GoogleProjectID cfg) (GCEZone cfg)
                                 (GCEInstance cfg) in
  let svc := run o Sdk.createComputeService (checking s0) in
  let got := o get svc.2 in
  let s1 := running (emit (EvIO get) svc.2) in
  let called := bool_decide (svc.1 = None)
                && match got with
                   | Ok i => String.eqb (Status i) "RUNNING"
                   | Err _ => false
                   end in
  let r := run o Sdk.suspendInstance s in
  let find := ReqFindDefaultCredentials Sdk.ComputeScope in
  let expected := Sdk_expected o cfg (checking s0) in
  (timers s0 !! timerSeq s = Some (when (InactivityTimeout (config s)) s)
   /\ shutdownTimer s0 = Some (timerSeq s)
   /\ count_events io_event (trace s0) = count_events io_event (trace s))
  /\ count_events action_event (trace r.2)
     = (count_events action_event (trace s) + if called then 1 else 0)%nat
  /\ (r.1 = None <->
      svc.1 = None
      /\ exists i, got = Ok i
           /\ (String.eqb (Status i) "RUNNING" = true -> o sus s1 = None))
  /\ r.1 = match svc.1 with
           | Some e =>
               Some ("failed to suspend machine: createComputeService: " +:+ e)
           | None =>
             match got with
             | Err e =>
                 Some ("failed to suspend machine: failed to get instance: " +:+ e)
             | Ok i =>
               if String.eqb (Status i) "RUNNING" then
                 match o sus s1 with
                 | Some e =>
                     Some ("failed to suspend machine: failed to suspend instance: "
                           +:+ e)
                 | None => None
                 end
               else None
             end
           end
  /\ svc = match o find (checking s0) with
           | Some e => (Some ("failed to find default credentials: " +:+ e),
                        emit (EvIO find) (checking s0))
           | None =>
             match o ReqNewService (emit (EvIO find) (checking s0)) with
             | Some e => (Some ("failed to create compute service: " +:+ e),
                          emit (EvIO ReqNewService) (emit (EvIO find) (checking s0)))
             | None => (None,
                        emit (EvIO ReqNewService) (emit (EvIO find) (checking s0)))
             end
           end
  /\ io_requests (new_events s0 r.2) = expected.1
  /\ (r.1 = None <-> expected.2 = None)
  /\ io_requests (new_events s r.2) = expected.1.
Proof.
  intros s0 cfg get sus svc got s1 called r find expected.
  pose proof (Sdk_suspendInstance_steps o s) as Hold. cbn zeta in Hold.
  fold s0 cfg in Hold. fold get sus in Hold. fold svc in Hold. fold got in Hold.
  fold s1 in Hold. fold r in Hold.
  destruct Hold as (H1 & H2 & H3 & H4).
  split; [exact H1 |]. split; [exact H2 |]. split; [exact H3 |].
  split; [exact H4 |].
  split; [subst svc; apply run_createComputeService |].
  destruct (attempting_spec s) as (_ & _ & A3 & _). fold s0 in A3.
  destruct (Sdk_suspendMachine_expected o s0) as (E1 & _ & E3 & E4).
  cbn zeta in E1, E3, E4. rewrite A3 in E1, E3, E4.
  fold cfg in E1, E3, E4. fold expected in E1, E3, E4.
  assert (Er : r = let m := run o Sdk.suspendMachine s0 in
                   match m.1.2 with
                   | Some e => (Some ("failed to suspend machine: " +:+ e), m.2)
                   | None => (None, completed m.2)
                   end).
  { subst r s0. apply run_Sdk_suspendInstance. }
  cbn zeta in Er.
  destruct (attempting_quiet s) as (aevs & Ea & Eio). fold s0 in Ea.
  assert (G : Rgrow s0 (run o Sdk.suspendMachine s0).2).
  { apply run_guarantees; [apply Rgrow_refl | apply Rgrow_trans |].
    apply guarantees_Sdk_suspendMachine;
      [exact grow_Prims | exact grow_DecisionPrims]. }
  assert (Hshift : forall X, Rgrow s0 X ->
            io_requests (new_events s X) = io_requests (new_events s0 X)).
  { intros X [evs EX].
    rewrite (new_events_app evs s0 X EX).
    rewrite (new_events_app (evs ++ aevs) s X)
      by (rewrite EX, Ea, app_assoc; reflexivity).
    rewrite rev_app_distr. unfold io_requests in *. rewrite omap_app, Eio.
    reflexivity. }
  rewrite Er.
  destruct ((run o Sdk.suspendMachine s0).1.2) as [e |]; cbn [fst snd].
  - split; [exact E1 |]. split.
    + split; [discriminate |]. intros H. apply E3 in H. discriminate.
    + rewrite Hshift by exact G. exact E1.
  - split; [exact E4 |]. split.
    + split; [intros _; apply E3; reflexivity | reflexivity].
    + rewrite Hshift; [exact E4 |].
      eapply Rgrow_trans; [exact G |]. apply Rgrow_emit.
Qed.

(** ** The requests of the REST strategy *)

(** X11. The requests [suspendMachine] of the REST strategy sends, for any
    outside world: at most three, in this order and nothing else.  First
    the token request to the metadata server, with the header
    [Metadata-Flavor: Google] and a client timeout of 10 seconds; then the
    GET of the instance and the POST to the same URL followed by
    [/suspend], each with a timeout of 30 seconds and with the header
    [Authorization: Bearer] followed by the token that was decoded from
    the answer to the first request. *)
Theorem Rest_requests_in_order (lib : Lib) (o : Oracle) (s : State) :
  let url := Rest.targetURL (config s) in
  let tok := run o (Rest.getAccessToken lib) (checking s) in
  let r := run o (Rest.suspendMachine lib) s in
  io_requests (new_events s r.2)
    `prefix_of` [ReqHttpDo (10 * Second) tokenRequest;
                 ReqHttpDo (30 * Second) (statusRequest tok.1.1 url);
                 ReqHttpDo (30 * Second) (suspendRequest tok.1.1 url)]
  /\ (forall resp,
        http_NewRequest_err lib "GET" Rest.tokenURL = None ->
        o (ReqHttpDo (10 * Second) tokenRequest) (checking s) = Ok resp ->
        StatusCode resp = StatusOK ->
        tok.1.1 = (json_Decode_AccessToken lib (Body resp)).1)
  /\ Header tokenRequest = [("Metadata-Flavor", "Google")]%string
  /\ Header (statusRequest tok.1.1 url)
     = [("Authorization"%string, "Bearer " +:+ Token tok.1.1)]
  /\ Header (suspendRequest tok.1.1 url) = Header (statusRequest tok.1.1 url)
  /\ URL (suspendRequest tok.1.1 url) = URL (statusRequest tok.1.1 url) +:+ "/suspend".
Proof.
  intros url tok r. split.
  - subst r. rewrite run_Rest_suspendMachine. cbn zeta. fold url tok.
    set (md := run o (Rest.getMachineMetadata lib tok.1.1 url) tok.2).
    set (act := run o (Rest.performInstanceAction lib tok.1.1 url "suspend")
                    (running md.2)).
    pose proof (getAccessToken_state lib o (checking s)) as St. fold tok in St.
    pose proof (getMachineMetadata_state lib o tok.1.1 url tok.2) as Sm.
    fold md in Sm.
    pose proof (performInstanceAction_state lib o tok.1.1 url (running md.2)) as Sa.
    fold act in Sa.
    pose proof (getAccessToken_ok lib o (checking s)) as Ot. fold tok in Ot.
    pose proof (getMachineMetadata_ok lib o tok.1.1 url tok.2) as Om.
    fold md in Om.
    destruct (tok.1.2) as [e1 |] eqn:Et; cbn [fst snd].
    { rewrite St. destruct (http_NewRequest_err lib "GET" Rest.tokenURL);
        (erewrite new_events_app; [| cbn [trace emit set_trace checking slog]; grown]);
        cbn; eexists; reflexivity. }
    destruct (proj1 Ot eq_refl) as [Nt _]. rewrite Nt in St.
    destruct (md.1.2) as [e2 |] eqn:Em; cbn [fst snd].
    { rewrite Sm, St. destruct (http_NewRequest_err lib "GET" url);
        (erewrite new_events_app; [| cbn [trace emit set_trace checking slog]; grown]);
        cbn; eexists; reflexivity. }
    destruct (proj1 Om eq_refl) as [Nm _]. rewrite Nm in Sm.
    destruct (String.eqb (Status md.1.1) "RUNNING").
    + assert (E : trace act.2 = trace act.2) by reflexivity.
      rewrite Sa in E at 2. rewrite Sm, St in E.
      destruct (act.1); cbn [fst snd];
        destruct (http_NewRequest_err lib "POST" (url +:+ "/suspend"));
        (erewrite new_events_app;
         [| rewrite E; cbn [trace emit set_trace checking running slog]; grown]);
        cbn; eexists; reflexivity.
    + cbn [fst snd]. rewrite Sm, St.
      erewrite new_events_app;
        [| cbn [trace emit set_trace checking notRunning slog]; grown].
      cbn. eexists. reflexivity.
  - split; [| repeat split].
    intros resp Hn Ho Hc. subst tok. unfold Rest.getAccessToken, http_NewRequest.
    rewrite Hn. rewrite run_bind. cbn [call run fst snd].
    change (Request_Header_Set "Metadata-Flavor" "Google"
              (mkRequest "GET" Rest.tokenURL [])) with tokenRequest.
    rewrite Ho. cbn [run fst snd]. rewrite Hc. cbn [Z.eqb StatusOK negb].
    destruct (json_Decode_AccessToken lib (Body resp)) as [t [e |]]; reflexivity.
Qed.

(** ** The line the probe reads *)

Lemma Split_colon_length (s : string) :
  length (strings_Split_colon s) = S (colons s).
Proof.
  induction s as [| c rest IH]; [reflexivity |].
  cbn [strings_Split_colon colons].
  destruct (Ascii.eqb c (Ascii.ascii_of_nat 58)).
  - cbn [length]. rewrite IH. reflexivity.
  - destruct (strings_Split_colon rest) as [| p ps]; [discriminate |].
    cbn [length] in *. lia.
Qed.

Lemma Split_colon_fields (s : string) :
  Forall (fun p => colons p = 0%nat) (strings_Split_colon s).
Proof.
  induction s as [| c rest IH]; [repeat constructor |].
  cbn [strings_Split_colon].
  destruct (Ascii.eqb c (Ascii.ascii_of_nat 58)) eqn:Ec.
  - constructor; [reflexivity | exact IH].
  - destruct (strings_Split_colon rest) as [| p ps].
    + constructor; [| constructor]. cbn [colons]. rewrite Ec. reflexivity.
    + inversion IH as [| ? ? Hp Hps]; subst. constructor; [| exact Hps].
      cbn [colons]. rewrite Ec, Hp. reflexivity.
Qed.

(** Splitting at the colons loses nothing. *)
Lemma Split_colon_Join (s : string) :
  strings_Join_colon (strings_Split_colon s) = s.
Proof.
  induction s as [| c rest IH]; [reflexivity |].
  pose proof (Split_colon_length rest) as Hl.
  cbn [strings_Split_colon].
  destruct (Ascii.eqb_spec c (Ascii.ascii_of_nat 58)) as [-> | Hc].
  - destruct (strings_Split_colon rest) as [| p ps]; [discriminate |].
    cbn [strings_Join_colon] in *. rewrite IH. reflexivity.
  - destruct (strings_Split_colon rest) as [| p ps]; [discriminate |].
    cbn [strings_Join_colon] in *. destruct ps as [| q qs].
    + rewrite IH. reflexivity.
    + rewrite <- IH. reflexivity.
Qed.

Lemma colons_app (a b : string) : colons (a +:+ b) = (colons a + colons b)%nat.
Proof.
  induction a as [| c a IH]; [reflexivity |].
  change (String c a +:+ b) with (String c (a +:+ b)).
  cbn [colons]. rewrite IH. lia.
Qed.

Lemma append_assoc (a b c : string) : (a +:+ b) +:+ c = a +:+ (b +:+ c).
Proof.
  induction a as [| x a IH]; [reflexivity |].
  change (String x (((a +:+ b) +:+ c)) = String x (a +:+ (b +:+ c))).
  rewrite IH. reflexivity.
Qed.

Lemma has_prefix_refl_app (a b : string) : has_prefix a (a +:+ b) = true.
Proof.
  induction a as [| c a IH]; [reflexivity |].
  change (String c a +:+ b) with (String c (a +:+ b)).
  cbn [has_prefix]. rewrite Ascii.eqb_refl. exact IH.
Qed.

(** X12. The line the fallback probe reads.  When [docker logs] gave a
    line that is not empty after trimming, the probe looks at nothing but
    its beginning up to the third colon (the whole line, if it has two
    colons only): that piece is what [time.Parse] gets, and the result is
    the parsed time of day on the date of today, or the parse error.  A
    line with fewer than two colons is never a timestamp. *)
Theorem probe_reads_line_prefix
    (lib : Lib) (o : Oracle) (s : State) (out : string) :
  o (ReqExec "docker" ["logs"; "--tail"; "1"; "github-actions-runner"]%string) s
    = Ok out ->
  let line := strings_TrimSpace lib out in
  line <> ""%string ->
  let r := (run o (getLastGitHubActionsActivity lib) s).1 in
  let unparsed :=
    (Time_zero, Some "could not parse github-actions timestamp"%string) in
  ((colons line < 2)%nat -> r = unparsed)
  /\ ((2 <= colons line)%nat ->
      exists timeStr,
        colons timeStr = 2%nat
        /\ (line = timeStr \/ has_prefix (timeStr +:+ ":") line = true)
        /\ r = match time_Parse lib "15:04:05" timeStr with
               | Some t =>
                   (time_Date_UTC lib (time_Year lib (clock s))
                      (time_Month lib (clock s)) (time_Day lib (clock s))
                      (time_Hour lib t) (time_Minute lib t) (time_Second lib t) 0,
                    None)
               | None => unparsed
               end).
Proof.
  intros Ho line Hne r unparsed.
  pose proof (Split_colon_length line) as Hl.
  pose proof (Split_colon_fields line) as Hf.
  pose proof (Split_colon_Join line) as Hj.
  assert (Er : r = match strings_Split_colon line with
                   | p0 :: p1 :: p2 :: _ =>
                       match time_Parse lib "15:04:05"
                               (p0 +:+ ":" +:+ p1 +:+ ":" +:+ p2) with
                       | Some t =>
                           (time_Date_UTC lib (time_Year lib (clock s))
                              (time_Month lib (clock s)) (time_Day lib (clock s))
                              (time_Hour lib t) (time_Minute lib t)
                              (time_Second lib t) 0, None)
                       | None => unparsed
                       end
                   | _ => unparsed
                   end).
  { subst r. unfold getLastGitHubActionsActivity. rewrite run_bind.
    cbn [call run fst snd]. rewrite Ho. fold line.
    destruct (String.eqb_spec line "") as [E | _]; [contradiction |].
    destruct (strings_Split_colon line) as [| p0 [| p1 [| p2 rest]]];
      try reflexivity.
    destruct (time_Parse lib "15:04:05" _); reflexivity. }
  rewrite Er. clear Er.
  destruct (strings_Split_colon line) as [| p0 [| p1 [| p2 rest]]];
    cbn [length] in Hl.
  - split; [reflexivity | intros; lia].
  - split; [reflexivity | intros; lia].
  - split; [reflexivity | intros; lia].
  - split; [intros; lia |]. intros _.
    exists (p0 +:+ ":" +:+ p1 +:+ ":" +:+ p2).
    inversion Hf as [| ? ? H0 Hf1]; subst.
    inversion Hf1 as [| ? ? H1 Hf2]; subst.
    inversion Hf2 as [| ? ? H2 _]; subst.
    split; [rewrite !colons_app, H0, H1, H2; reflexivity |].
    split; [| reflexivity].
    destruct rest as [| p3 rest].
    + left. symmetry. exact Hj.
    + right. rewrite <- Hj. cbn [strings_Join_colon].
      rewrite <- !append_assoc. apply has_prefix_refl_app.
Qed.

(** ** main from start to end *)

Lemma stopShutdownTimer_quiet (s : State) :
  exists evs, trace (stopShutdownTimer s).2 = evs ++ trace s
    /\ Forall (fun te => arm_event te.2 = false /\ suspend_event te.2 = false
                         /\ close_event te.2 = false) evs.
Proof.
  unfold stopShutdownTimer. destruct (shutdownTimer s) as [t |].
  - eexists [_; _]. split; [reflexivity | repeat constructor].
  - exists []. split; [reflexivity | constructor].
Qed.

Lemma stopShutdownTimer_empty (s : State) :
  held s ->
  timers (stopShutdownTimer s).2 = ∅ /\ shutdownTimer (stopShutdownTimer s).2 = None.
Proof.
  intros H. pose proof (held_others_gone s H) as E. unfold stopShutdownTimer.
  destruct (shutdownTimer s) as [t |] eqn:Et; cbn; auto.
Qed.

Lemma count_events_quiet (f : Event -> bool) (evs : list (Time * Event)) :
  Forall (fun te => f te.2 = false) evs -> count_events f evs = 0%nat.
Proof.
  induction 1 as [| [t e] evs He _ IH]; [reflexivity |].
  cbn [count_events]. cbn in He. rewrite He, IH. reflexivity.
Qed.

Ltac run_io := rewrite run_bind; cbn [run call gets modify fst snd].

(** X13. [main] from its first statement to its last, alone and against
    any outside world (whichever way the [select] is left, whether or not
    the server could listen or shut down), started in a state in which
    every pending timer is the one [shutdownTimer] holds, as it is when
    the process starts.  It calls [time.AfterFunc] once
    when [LIBOPS_KEEP_ONLINE] is anything but the exact string "yes" and
    not at all otherwise; it suspends nothing, does not touch the tracker
    and does not close [serverShutdown]; and when it returns the timer is
    stopped and forgotten, the server does not listen, and the process
    takes no further step. *)
Theorem main_start_to_end (o : Oracle) (s : State) :
  held s ->
  let s' := (run o main s).2 in
  count_events arm_event (trace s')
  = (count_events arm_event (trace s)
     + if String.eqb (LibOpsKeepOnline (config s)) "yes" then 0 else 1)%nat
  /\ count_events suspend_event (trace s') = count_events suspend_event (trace s)
  /\ serverShutdown s' = serverShutdown s
  /\ tracker s' = tracker s
  /\ timers s' = ∅ /\ shutdownTimer s' = None
  /\ listening s' = false /\ exited s' = true
  /\ forall lib b gs l, exec lib b (mkSys s' gs) l = None.
Proof.
  intros Hh s'. subst s'. unfold main. do 3 run_step.
  match goal with
  | |- context [run o (if ?c then ?p else ?q) ?s1] =>
      set (sA := (run o (if c then p else q) s1).2)
  end.
  assert (HA : held sA
    /\ count_events arm_event (trace sA)
       = (count_events arm_event (trace s)
          + if String.eqb (LibOpsKeepOnline (config s)) "yes" then 0 else 1)%nat
    /\ count_events suspend_event (trace sA) = count_events suspend_event (trace s)
    /\ serverShutdown sA = serverShutdown s /\ tracker sA = tracker s).
  { subst sA. destruct (String.eqb (LibOpsKeepOnline (config s)) "yes");
      cbn [negb].
    - cbn [run snd]. repeat split; [exact Hh | cbn; lia].
    - run_step.
      match goal with
      | |- context [resetShutdownTimer ?x] => set (s1 := x)
      end.
      destruct (resetShutdownTimer_frame s1) as (_ & Ft & Fs & _).
      cbn zeta in Ft, Fs. rewrite resetShutdownTimer_trace, !count_events_app, Ft, Fs.
      split; [apply resetShutdownTimer_held; exact Hh |].
      unfold rearm_events. destruct (shutdownTimer s1); cbn; repeat split; lia. }
  clearbody sA. destruct HA as (HhA & HaA & HsA & HdA & HtA).
  run_step. run_io.
  destruct (o (ReqListenAndServe _) _) as [e1 |]; run_step; run_io;
    (destruct (o ReqSelect _); run_step; run_step; run_step;
     match goal with
     | |- context [stopShutdownTimer ?x] => set (s8 := x)
     end;
     assert (Hh8 : held s8) by exact HhA;
     destruct (stopShutdownTimer_empty s8 Hh8) as [Et Es];
     destruct (stopShutdownTimer_frame s8) as (_ & Ftr & Fsd & _);
     destruct (stopShutdownTimer_quiet s8) as (evs & Etr & Hq);
     cbn zeta in Ftr, Fsd;
     assert (Qa : count_events arm_event evs = 0%nat)
       by (apply count_events_quiet; eapply Forall_impl; [exact Hq |];
           cbn beta; tauto);
     assert (Qs : count_events suspend_event evs = 0%nat)
       by (apply count_events_quiet; eapply Forall_impl; [exact Hq |];
           cbn beta; tauto);
     set (s9 := (stopShutdownTimer s8).2) in *;
     run_io; run_step;
     destruct (o ReqServerShutdown s9) as [e2 |]; run_step; run_step;
     cbn [trace tracker timers shutdownTimer serverShutdown listening exited
          emit slog set_trace set_listening set_exited count_events
          arm_event suspend_event String.eqb Ascii.eqb Bool.eqb];
     rewrite Etr, !count_events_app, Qa, Qs, Ftr, Fsd, Et, Es;
     cbn [trace tracker timers shutdownTimer serverShutdown listening exited
          emit slog set_trace set_listening set_exited count_events
          arm_event suspend_event String.eqb Ascii.eqb Bool.eqb s8];
     rewrite HaA, HsA, HdA, HtA;
     repeat split; try lia).
  all: intros lib b gs l; unfold exec; cbn [shared halted exited set_exited orb];
    reflexivity.
Qed.

(** ** What every step of the process guarantees *)

Section Steps.
Context (lib : Lib) (b : Build) (R : State -> State -> Prop).

Hypothesis Hrefl : forall s, R s s.
Hypothesis Htrans : forall s1 s2 s3, R s1 s2 -> R s2 s3 -> R s1 s3.
Hypothesis Hprims : Prims R.
Hypothesis Hdecision : DecisionPrims R.
Hypothesis Htick : forall s d, 0 <= d -> R s (set_clock (clock s + d) s).
Hypothesis Hfire : forall s t, R s (set_timers (delete t (timers s)) s).

Lemma exec_step (y y' : Sys) (l : Label) :
  Forall (guarantees R) (pool y) -> exec lib b y l = Some y' ->
  R (shared y) (shared y') /\ Forall (guarantees R) (pool y').
Proof.
  intros HP. unfold exec. destruct (halted (shared y)); [discriminate |].
  destruct l as [d | t | r | i o].
  - destruct (Z.leb_spec 0 d) as [Hd |]; [| discriminate]. intros [= <-].
    split; [apply Htick; exact Hd | exact HP].
  - destruct (timers (shared y) !! t) as [due |]; [| discriminate].
    destruct (due <=? clock (shared y)); [| discriminate]. intros [= <-].
    split; [apply Hfire |]. cbn [pool]. apply Forall_app. split; [exact HP |].
    constructor; [| constructor]. apply guarantees_timerCallback; assumption.
  - destruct (listening (shared y)); [| discriminate]. intros [= <-].
    split; [apply Hrefl |]. cbn [pool]. apply Forall_app. split; [exact HP |].
    constructor; [| constructor]. apply guarantees_serve. exact Hprims.
  - destruct (pool y !! i) as [p |] eqn:Ep; [| discriminate].
    destruct (step_thread o p (shared y)) as [[p' s'] |] eqn:Es; [| discriminate].
    intros [= <-]. cbn [pool shared].
    assert (Hp : guarantees R p).
    { rewrite Forall_lookup in HP. exact (HP i p Ep). }
    destruct (step_thread_guarantees R o p p' (shared y) s' Hp Es) as [HR Hp'].
    split; [exact HR |]. apply Forall_insert; assumption.
Qed.

Lemma execs_steps (ls : list Label) (y y' : Sys) :
  Forall (guarantees R) (pool y) -> execs lib b y ls = Some y' ->
  R (shared y) (shared y') /\ Forall (guarantees R) (pool y').
Proof.
  revert y. induction ls as [| l ls IH]; intros y HP; cbn [execs].
  - intros [= <-]. split; [apply Hrefl | exact HP].
  - destruct (exec lib b y l) as [y1 |] eqn:E; [| discriminate]. intros He.
    destruct (exec_step y y1 l HP E) as [H1 HP1].
    destruct (IH y1 HP1 He) as [H2 HP2].
    split; [eapply Htrans; eassumption | exact HP2].
Qed.
End Steps.

Lemma Rforward_refl (s : State) : Rforward s s.
Proof.
  unfold Rforward. repeat split; try lia; try tauto. exists []. reflexivity.
Qed.

Lemma Rforward_trans (s1 s2 s3 : State) :
  Rforward s1 s2 -> Rforward s2 s3 -> Rforward s1 s3.
Proof.
  intros (A1 & A2 & [e1 A3] & A4 & A5) (B1 & B2 & [e2 B3] & B4 & B5).
  unfold Rforward. split; [congruence |]. split; [lia |].
  split; [exists (e2 ++ e1); rewrite B3, A3, app_assoc; reflexivity |].
  split; [tauto |]. intros H. specialize (A5 H).
  assert (H2 : lastPing (tracker s2) <= clock s2) by lia.
  specialize (B5 H2). lia.
Qed.

(** A step that leaves configuration, clock, tracker and channel alone and
    adds to the trace. *)
Lemma Rforward_frame (s s' : State) :
  config s' = config s -> clock s' = clock s -> tracker s' = tracker s ->
  (serverShutdown s = true -> serverShutdown s' = true) ->
  Rgrow s s' -> Rforward s s'.
Proof.
  intros Hc Hk Ht Hs Hg. unfold Rforward. rewrite Hc, Hk, Ht.
  repeat split; try lia; assumption.
Qed.

Lemma forward_Prims : Prims Rforward.
Proof.
  constructor; intros.
  - apply Rforward_refl.
  - apply Rforward_frame; try reflexivity; [tauto | apply Rgrow_emit].
  - destruct (resetShutdownTimer_frame s) as (F1 & F2 & F3 & F4 & _).
    cbn zeta in *. apply Rforward_frame; try assumption;
      [rewrite F3; tauto | apply (prim_reset _ grow_Prims)].
  - destruct (stopShutdownTimer_frame s) as (F1 & F2 & F3 & F4 & _).
    cbn zeta in *. apply Rforward_frame; try assumption;
      [rewrite F3; tauto | apply (prim_stop _ grow_Prims)].
  - unfold Rforward. cbn. repeat split; try lia; try tauto.
    exists []. reflexivity.
  - apply Rforward_frame; try reflexivity; [tauto | exists []; reflexivity].
  - apply Rforward_frame; try reflexivity; [tauto | exists []; reflexivity].
Qed.

Lemma forward_DecisionPrims : DecisionPrims Rforward.
Proof.
  constructor; intros.
  - apply Rforward_frame; try reflexivity; [tauto | apply Rgrow_emit].
  - destruct (signalShutdown_frame s) as (F1 & F2 & F3 & _).
    cbn zeta in *. apply Rforward_frame; try assumption.
    + intros _. destruct (signalShutdown_idempotent s) as [H _]. exact H.
    + apply (prim_signal _ grow_DecisionPrims).
Qed.

(** X14. What the process never undoes.  Between any two moments of any
    run, the later one after the earlier: the configuration is the same,
    the clock has not gone back, the time of the last ping has not gone
    back and is not ahead of the clock, everything that had happened is
    still on record, and [serverShutdown], once closed, is still
    closed. *)
Theorem process_moves_forward
    (lib : Lib) (b : Build) (cfg : Config) (now : Time)
    (ls1 ls2 : list Label) (y1 y2 : Sys) :
  execs lib b (boot cfg now) ls1 = Some y1 ->
  execs lib b y1 ls2 = Some y2 ->
  config (shared y2) = config (shared y1)
  /\ clock (shared y1) <= clock (shared y2)
  /\ lastPing (tracker (shared y1)) <= lastPing (tracker (shared y2))
     <= clock (shared y2)
  /\ (exists evs, trace (shared y2) = evs ++ trace (shared y1))
  /\ (serverShutdown (shared y1) = true -> serverShutdown (shared y2) = true).
Proof.
  intros H1 H2.
  assert (St : forall y ls y',
            Forall (guarantees Rforward) (pool y) ->
            execs lib b y ls = Some y' ->
            Rforward (shared y) (shared y')
            /\ Forall (guarantees Rforward) (pool y')).
  { intros y ls y'. apply (execs_steps lib b Rforward).
    - exact Rforward_refl.
    - exact Rforward_trans.
    - exact forward_Prims.
    - exact forward_DecisionPrims.
    - intros s d Hd. unfold Rforward. cbn. repeat split; try lia; try tauto.
      exists []. reflexivity.
    - intros s t. apply Rforward_frame; try reflexivity;
        [tauto | exists []; reflexivity]. }
  assert (P0 : Forall (guarantees Rforward) (pool (boot cfg now))).
  { cbn. constructor; [| constructor]. apply guarantees_main.
    - exact forward_Prims.
    - constructor. intros e s _.
      apply Rforward_frame; try reflexivity; [tauto | apply Rgrow_emit]. }
  destruct (St _ _ _ P0 H1) as [R1 P1].
  destruct (St _ _ _ P1 H2) as [R2 _].
  assert (L1 : lastPing (tracker (shared y1)) <= clock (shared y1)).
  { destruct R1 as (_ & _ & _ & _ & R1). cbn in R1. lia. }
  destruct R2 as (C & K & G & S & L). specialize (L L1).
  repeat split; try assumption; lia.
Qed.

(** ** The status of a ping response, in every world *)

(** X15. Whatever happens to the writes of [pingHandler] (both succeed,
    the first fails and the error text gets through, or both fail), the
    response carries status 200 and the header [Content-Type: text/plain]
    that were sent before the first write.  The body is "pong", or the
    text of [http.Error], or nothing: the status 500 and the headers
    [http.Error] sets never reach the client. *)
Theorem ping_response_always_200 (o : Oracle) (r : Inbound) (s : State) :
  let w := (run o (pingHandler newResponseWriter r) s).1 in
  rwStatus w = Some StatusOK
  /\ rwSentHeader w = [("Content-Type", "text/plain")]%string
  /\ (rwBody w = "pong"%string \/ rwBody w = ""%string
      \/ rwBody w = ("Failed to write response" +:+ LF)%string)
  /\ (String.eqb (Path r) "/ping" = true ->
      exists older,
        trace (run o (serve r) s).2 = (clock s, EvResponse StatusOK (rwBody w)) :: older).
Proof.
  intros w.
  assert (Ew : exists s1 hdr body,
            run o (pingHandler newResponseWriter r) s
            = (mkResponseWriter hdr (Some StatusOK)
                 [("Content-Type", "text/plain")]%string body, s1)
            /\ clock s1 = clock s
            /\ (body = "pong"%string \/ body = ""%string
                \/ body = ("Failed to write response" +:+ LF)%string)).
  { clear w. unfold pingHandler. run_step. run_step. run_step.
    destruct (resetShutdownTimer_frame (recordPing s).2) as (_ & _ & _ & Hck & _).
    cbn zeta in Hck.
    set (s2 := (resetShutdownTimer (recordPing s).2).2) in *.
    rewrite run_bind. unfold Write at 1 2. rewrite run_bind.
    cbn [call run fst snd].
    destruct (o (ReqWrite "pong") _) as [e |]; cbn [run fst snd].
    - run_step. unfold http_Error. rewrite run_bind. unfold Write.
      rewrite run_bind. cbn [call run fst snd].
      destruct (o (ReqWrite _) _) as [e' |]; cbn [run fst snd];
        eexists _, _, _; (split; [reflexivity |]); (split; [exact Hck |]); auto.
    - eexists _, _, _. split; [reflexivity |]. split; [exact Hck |]. auto. }
  destruct Ew as (s1 & hdr & body & E & Hk & Hb). subst w.
  split; [rewrite E; reflexivity |]. split; [rewrite E; reflexivity |].
  split; [rewrite E; exact Hb |].
  intros Hp. unfold serve. rewrite Hp, run_bind, E.
  cbn. rewrite Hk. eexists. reflexivity.
Qed.

(** ** A stale or failed probe *)

(** X16. The other side of the fallback check.  When the probe fails (no
    container, an empty log, a line that is no timestamp), or the activity
    it found is a full timeout old or older (the comparison is strict: an
    activity exactly one timeout old is stale), [initiateShutdown] does
    what it does without a fallback: it goes on to the shutdown in the
    state the probe left, and [serverShutdown] is closed at the end. *)
Theorem stale_probe_proceeds
    (lib : Lib) (o : Oracle) (sf : Prog (option error)) (s : State) :
  let probe := (run o (getLastGitHubActionsActivity lib) s).1 in
  probe.2 <> None
  \/ InactivityTimeout (config s) <= Time_Sub (clock s) probe.1 ->
  run o (initiateShutdown lib sf) s
  = run o (proceedWithShutdown sf (Time_Sub (clock s) (lastPing (tracker s))))
        (emit (EvIO dockerLogs) s)
  /\ serverShutdown (run o (initiateShutdown lib sf) s).2 = true.
Proof.
  intros probe H.
  assert (Hf : fallback_fresh lib o s = false).
  { unfold fallback_fresh. subst probe.
    destruct (run o (getLastGitHubActionsActivity lib) s) as [[ts err] s0].
    cbn [fst snd] in H. destruct H as [H | H].
    - rewrite bool_decide_false by exact H. reflexivity.
    - apply andb_false_iff. right. apply Z.ltb_ge. exact H. }
  assert (E : run o (initiateShutdown lib sf) s
              = run o (proceedWithShutdown sf
                         (Time_Sub (clock s) (lastPing (tracker s))))
                    (emit (EvIO dockerLogs) s)).
  { rewrite run_initiateShutdown. cbn zeta.
    rewrite run_checkGitHubActions. cbn zeta. rewrite Hf. reflexivity. }
  split; [exact E |]. rewrite E, run_proceedWithShutdown. cbn zeta.
  match goal with
  | |- serverShutdown (signalShutdown ?x).2 = true =>
      destruct (signalShutdown_idempotent x) as [Hs _]; exact Hs
  end.
Qed.

(** ** A goroutine that is not interrupted *)

Lemma exec_atomic (lib : Lib) (b : Build) (o : Oracle) (s : State)
    (gs : list (Prog unit)) (i : nat) {B} (act : State -> B * State)
    (k : B -> Prog unit) :
  halted s = false -> gs !! i = Some (Atomic act k) ->
  exec lib b (mkSys s gs) (LStep i o)
  = Some (mkSys (act s).2 (<[i := k (act s).1]> gs)).
Proof.
  intros Hn Hi. unfold exec. cbn [shared pool]. rewrite Hn, Hi.
  cbn [step_thread]. destruct (act s) as [c s1]. reflexivity.
Qed.

Lemma exec_io (lib : Lib) (b : Build) (o : Oracle) (s : State)
    (gs : list (Prog unit)) (i : nat) (r : IOReq) (k : IOResp r -> Prog unit) :
  halted s = false -> gs !! i = Some (IO r k) ->
  io_enabled r (o r s) s = true ->
  exec lib b (mkSys s gs) (LStep i o)
  = Some (mkSys (emit (EvIO r) s) (<[i := k (o r s)]> gs)).
Proof.
  intros Hn Hi He. unfold exec. cbn [shared pool]. rewrite Hn, Hi.
  cbn [step_thread]. rewrite He. reflexivity.
Qed.

(** Scheduled alone until it returns, such a goroutine does what [run]
    says. *)
Lemma execs_run (lib : Lib) (b : Build) (o : Oracle) (p : Prog unit) :
  uninterrupted p ->
  forall (s : State) (gs : list (Prog unit)) (i : nat),
    halted s = false -> gs !! i = Some p ->
    execs lib b (mkSys s gs) (replicate (steps_of o p s) (LStep i o))
    = Some (mkSys (run o p s).2 (<[i := Ret tt]> gs))
    /\ halted (run o p s).2 = false.
Proof.
  induction 1 as [[] | B act k Hact Hk IH | r k Hr Hk IH]; intros s gs i Hn Hi.
  - cbn [steps_of replicate execs run snd].
    rewrite (list_insert_id gs i (Ret tt) Hi). split; [reflexivity | exact Hn].
  - cbn [steps_of run]. specialize (Hact s Hn).
    pose proof (exec_atomic lib b o s gs i act k Hn Hi) as E.
    destruct (act s) as [c s1]. cbn [fst snd] in *.
    cbn [replicate execs]. rewrite E.
    destruct (IH c s1 (<[i := k c]> gs) i Hact) as [E1 H1].
    { apply list_lookup_insert_eq. eapply lookup_lt_Some. exact Hi. }
    rewrite E1, list_insert_insert_eq. split; [reflexivity | exact H1].
  - cbn [steps_of run replicate execs].
    rewrite (exec_io lib b o s gs i r k Hn Hi (Hr _ _)).
    destruct (IH (o r s) (emit (EvIO r) s) (<[i := k (o r s)]> gs) i Hn) as [E1 H1].
    { apply list_lookup_insert_eq. eapply lookup_lt_Some. exact Hi. }
    rewrite E1, list_insert_insert_eq. split; [reflexivity | exact H1].
Qed.

Lemma uninterrupted_bind {A B} (p : Prog A) (f : A -> Prog B) :
  uninterrupted p -> (forall a, uninterrupted (f a)) -> uninterrupted (bind p f).
Proof.
  intros Hp Hf. induction Hp as [a | C act k Hact Hk IH | r k Hr Hk IH];
    cbn [bind].
  - apply Hf.
  - apply u_Atomic; assumption.
  - apply u_IO; assumption.
Qed.

Lemma halted_frame (s s' : State) :
  crashed s' = crashed s -> exited s' = exited s ->
  halted s = false -> halted s' = false.
Proof. unfold halted. intros -> ->. trivial. Qed.

Lemma halted_reset (s : State) :
  halted s = false -> halted (resetShutdownTimer s).2 = false.
Proof.
  destruct (resetShutdownTimer_frame s) as (_ & _ & _ & _ & Hc & He & _).
  apply halted_frame; assumption.
Qed.

Lemma halted_signal (s : State) :
  halted s = false -> halted (signalShutdown s).2 = false.
Proof.
  unfold signalShutdown, chan_close.
  destruct (serverShutdown s); [trivial |]. apply halted_frame; reflexivity.
Qed.

Ltac unint_head :=
  lazymatch goal with
  | |- uninterrupted (bind _ _) => apply uninterrupted_bind
  | |- uninterrupted (Ret _) => apply u_Ret
  | |- uninterrupted (modify _) => apply u_Atomic; [intros ? ? |]
  | |- uninterrupted (gets _) => apply u_Atomic; [intros ? ? |]
  | |- uninterrupted (call _) => apply u_IO; [intros ? ? |]
  | |- uninterrupted (Atomic _ _) => apply u_Atomic; [intros ? ? |]
  | |- uninterrupted (match (match ?y with _ => _ end) with _ => _ end) =>
      destruct y
  | |- uninterrupted (match ?x with _ => _ end) => destruct x
  | |- halted (resetShutdownTimer _).2 = false => apply halted_reset
  | |- halted (signalShutdown _).2 = false => apply halted_signal
  | |- halted _ = false => assumption
  | |- io_enabled _ _ _ = true => reflexivity
  | |- forall _, _ => intro
  end.

Lemma uninterrupted_suspendFunc (lib : Lib) (b : Build) :
  uninterrupted (suspendFunc lib b).
Proof.
  destruct b; unfold suspendFunc, Rest.suspendInstance, Rest.suspendMachine,
    Rest.getAccessToken, Rest.getMachineMetadata, Rest.performInstanceAction,
    http_NewRequest, Sdk.suspendInstance, Sdk.suspendMachine,
    Sdk.createComputeService, mockSuspendInstance;
    repeat unint_head.
Qed.

Lemma uninterrupted_timerCallback (lib : Lib) (b : Build) :
  uninterrupted (timerCallback lib (suspendFunc lib b)).
Proof.
  unfold timerCallback, initiateShutdown, proceedWithShutdown,
    checkGitHubActions, getLastGitHubActionsActivity.
  repeat first [apply uninterrupted_suspendFunc | unint_head].
Qed.

Lemma uninterrupted_serve (r : Inbound) : uninterrupted (serve r).
Proof.
  unfold serve, pingHandler, healthHandler, http_Error, Write.
  repeat unint_head.
Qed.

(** X17. The decision, [suspendFunc] and the two handlers never wait,
    never panic and never end the process.  So a goroutine that runs one
    of them and is scheduled without interruption, from any state of a
    live process and among any other goroutines, takes exactly the steps
    of a run on its own and leaves the state that run leaves: what is
    proved of [initiateShutdown], [suspendInstance] and [pingHandler] run
    alone holds of such a goroutine in the running process. *)
Theorem uninterrupted_goroutine_runs_alone
    (lib : Lib) (b : Build) (o : Oracle) (s : State)
    (gs : list (Prog unit)) (i : nat) (p : Prog unit) :
  p = timerCallback lib (suspendFunc lib b) \/ (exists r, p = serve r) ->
  halted s = false -> gs !! i = Some p ->
  execs lib b (mkSys s gs) (replicate (steps_of o p s) (LStep i o))
  = Some (mkSys (run o p s).2 (<[i := Ret tt]> gs))
  /\ halted (run o p s).2 = false
  /\ exec lib b (mkSys (run o p s).2 (<[i := Ret tt]> gs)) (LStep i o) = None.
Proof.
  intros Hp Hn Hi.
  assert (Hu : uninterrupted p).
  { destruct Hp as [-> | [r ->]];
      [apply uninterrupted_timerCallback | apply uninterrupted_serve]. }
  destruct (execs_run lib b o p Hu s gs i Hn Hi) as [E H].
  split; [exact E |]. split; [exact H |].
  unfold exec. cbn [shared pool]. rewrite H.
  rewrite list_lookup_insert_eq by (eapply lookup_lt_Some; exact Hi).
  reflexivity.
Qed.

(** ** From inactivity to suspension *)

Lemma execs_app (lib : Lib) (b : Build) (l1 l2 : list Label) (y : Sys) :
  execs lib b y (l1 ++ l2)
  = match execs lib b y l1 with
    | Some y1 => execs lib b y1 l2
    | None => None
    end.
Proof.
  revert y. induction l1 as [| l l1 IH]; intros y; [reflexivity |].
  cbn [app execs]. destruct (exec lib b y l); [apply IH | reflexivity].
Qed.

(** The first four steps of [main] when the flag is not set: the timer is
    armed. *)
Lemma main_arms (lib : Lib) (b : Build) (cfg : Config) (now : Time) (o : Oracle) :
  String.eqb (LibOpsKeepOnline cfg) "yes" = false ->
  exists s4 rest,
    execs lib b (boot cfg now) (replicate 4 (LStep 0 o)) = Some (mkSys s4 [rest])
    /\ config s4 = cfg /\ clock s4 = now
    /\ timers s4 = {[ 0%nat := when (InactivityTimeout cfg) s4 ]}
    /\ halted s4 = false /\ crashed s4 = None.
Proof.
  intros Hk. unfold boot, main. cbn [bind gets modify replicate execs].
  erewrite exec_atomic; [| reflexivity | reflexivity].
  cbn [fst snd config insert list_insert].
  erewrite exec_atomic; [| reflexivity | reflexivity].
  cbn [fst snd insert list_insert]. rewrite Hk. cbn [negb bind].
  erewrite exec_atomic; [| reflexivity | reflexivity].
  cbn [fst snd insert list_insert bind].
  erewrite exec_atomic; [| reflexivity | reflexivity].
  cbn [fst snd insert list_insert bind].
  match goal with
  | |- context [resetShutdownTimer ?x] => set (s3 := x)
  end.
  assert (H3 : held s3).
  { intros t due H. cbn in H. by apply lookup_empty_Some in H. }
  destruct (resetShutdownTimer_single s3 H3) as [Et _].
  destruct (resetShutdownTimer_frame s3) as (Fc & _ & _ & Fk & Fcr & Fex & _).
  cbn zeta in Fc, Fk, Fcr, Fex.
  eexists _, _. split; [reflexivity |].
  split; [exact Fc |]. split; [exact Fk |].
  split; [rewrite Et; unfold when; rewrite Fk; reflexivity |].
  split; [unfold halted; rewrite Fcr, Fex; reflexivity | exact Fcr].
Qed.

Lemma run_timerCallback (lib : Lib) (o : Oracle) (sf : Prog (option error))
    (s : State) :
  run o (timerCallback lib sf) s
  = run o (initiateShutdown lib sf)
        (slog LevelInfo "Inactivity timeout reached, initiating shutdown"
           [("timeout_seconds"%string, ASeconds (InactivityTimeout (config s)))] s).
Proof. unfold timerCallback. run_step. run_step. reflexivity. Qed.

Lemma Rgrow_count (f : Event -> bool) (s s' : State) :
  Rgrow s s' ->
  (count_events f (trace s) <= count_events f (trace s'))%nat.
Proof. intros [evs E]. rewrite E, count_events_app. lia. Qed.

(** Whatever it is, [suspendFunc] leaves a mark. *)
Lemma suspendFunc_attempts (lib : Lib) (b : Build) (o : Oracle) (s : State) :
  (count_events suspend_event (trace s)
   < count_events suspend_event (trace (run o (suspendFunc lib b) s).2))%nat.
Proof.
  assert (Ha : count_events suspend_event (trace (attempting s))
               = S (count_events suspend_event (trace s))).
  { unfold attempting. rewrite resetShutdownTimer_trace, count_events_app.
    unfold rearm_events. destruct (shutdownTimer _); reflexivity. }
  destruct b; cbn [suspendFunc].
  - rewrite run_Rest_suspendInstance. cbn zeta.
    assert (G : Rgrow (attempting s) (run o (Rest.suspendMachine lib) (attempting s)).2).
    { apply run_guarantees; [apply Rgrow_refl | apply Rgrow_trans |].
      apply guarantees_Rest_suspendMachine;
        [exact grow_Prims | exact grow_DecisionPrims]. }
    apply (Rgrow_count suspend_event) in G. rewrite Ha in G.
    destruct ((run o (Rest.suspendMachine lib) (attempting s)).1.2);
      cbn [snd trace completed slog emit set_trace count_events suspend_event];
      lia.
  - rewrite run_Sdk_suspendInstance. cbn zeta.
    assert (G : Rgrow (attempting s) (run o Sdk.suspendMachine (attempting s)).2).
    { apply run_guarantees; [apply Rgrow_refl | apply Rgrow_trans |].
      apply guarantees_Sdk_suspendMachine;
        [exact grow_Prims | exact grow_DecisionPrims]. }
    apply (Rgrow_count suspend_event) in G. rewrite Ha in G.
    destruct ((run o Sdk.suspendMachine (attempting s)).1.2);
      cbn [snd trace completed slog emit set_trace count_events suspend_event];
      lia.
  - cbn. lia.
Qed.

(** X18. The controller does what it is for.  Let the flag be anything
    but "yes", the identity of the machine complete, and let there be no
    runner container.  Then from the start of the process, for every
    configuration, build and clock, this can happen and nothing stands in
    its way: [main] arms the timer (four steps), the timeout passes
    without a ping, the timer fires, and the decision runs to its end.
    At that point [suspendFunc] has been called, [serverShutdown] is
    closed, and nothing has panicked. *)
Theorem inactivity_leads_to_suspension
    (lib : Lib) (b : Build) (cfg : Config) (now : Time) (o : Oracle) :
  LibOpsKeepOnline cfg <> "yes"%string ->
  missingGCPConfig cfg = false ->
  (forall s, exists e, o dockerLogs s = Err e) ->
  let T := Z.max 0 (InactivityTimeout cfg) in
  exists n y,
    execs lib b (boot cfg now)
      (replicate 4 (LStep 0 o) ++ [LTick T; LFire 0] ++ replicate n (LStep 1 o))
    = Some y
    /\ config (shared y) = cfg
    /\ serverShutdown (shared y) = true
    /\ crashed (shared y) = None
    /\ (1 <= count_events suspend_event (trace (shared y)))%nat.
Proof.
  intros Hk Hm Ho T.
  assert (Hk' : String.eqb (LibOpsKeepOnline cfg) "yes" = false)
    by (apply String.eqb_neq; exact Hk).
  destruct (main_arms lib b cfg now o Hk')
    as (s4 & rest & E4 & Hc4 & Hk4 & Ht4 & Hh4 & Hcr4).
  set (sT := set_clock (clock s4 + T) s4).
  set (sF := set_timers (delete 0%nat (timers sT)) sT).
  set (cb := timerCallback lib (suspendFunc lib b)).
  assert (ET : exec lib b (mkSys s4 [rest]) (LTick T) = Some (mkSys sT [rest])).
  { unfold exec. cbn [shared pool]. rewrite Hh4.
    destruct (Z.leb_spec 0 T); [reflexivity | lia]. }
  assert (EF : exec lib b (mkSys sT [rest]) (LFire 0) = Some (mkSys sF [rest; cb])).
  { unfold exec. cbn [shared pool].
    assert (HhT : halted sT = false) by exact Hh4. rewrite HhT.
    assert (Et : timers sT = {[ 0%nat := when (InactivityTimeout cfg) s4 ]})
      by exact Ht4.
    rewrite Et, lookup_singleton_eq.
    assert (Hd : when (InactivityTimeout cfg) s4 <= clock sT).
    { unfold when. cbn [sT clock set_clock]. destruct (Z.leb_spec (InactivityTimeout cfg) 0); lia. }
    destruct (Z.leb_spec (when (InactivityTimeout cfg) s4) (clock sT));
      [| lia].
    subst sF. rewrite Et. reflexivity. }
  assert (HhF : halted sF = false) by exact Hh4.
  destruct (execs_run lib b o cb (uninterrupted_timerCallback lib b) sF
              [rest; cb] 1%nat HhF eq_refl) as [ER _].
  exists (steps_of o cb sF), (mkSys (run o cb sF).2 (<[1%nat := Ret tt]> [rest; cb])).
  split.
  { rewrite execs_app, E4. cbn [app execs]. rewrite ET, EF. exact ER. }
  cbn [shared].
  assert (HcF : config sF = cfg) by exact Hc4.
  set (sL := slog LevelInfo "Inactivity timeout reached, initiating shutdown"
               [("timeout_seconds"%string, ASeconds (InactivityTimeout (config sF)))]
               sF).
  assert (Hf : fallback_fresh lib o sL = false).
  { unfold fallback_fresh, getLastGitHubActionsActivity.
    rewrite run_bind. cbn [call run fst snd].
    destruct (Ho sL) as [e He]. unfold dockerLogs in He. rewrite He.
    reflexivity. }
  assert (Er : run o cb sF
               = run o (proceedWithShutdown (suspendFunc lib b)
                          (Time_Sub (clock sL) (lastPing (tracker sL))))
                     (emit (EvIO dockerLogs) sL)).
  { subst cb. rewrite run_timerCallback. fold sL.
    rewrite run_initiateShutdown. cbn zeta.
    rewrite run_checkGitHubActions. cbn zeta. rewrite Hf. reflexivity. }
  split.
  { assert (G : config (run o cb sF).2 = config sF).
    { apply (run_guarantees (fun s s' => config s' = config s) o cb).
      - reflexivity.
      - intros s1 s2 s3 H1 H2. congruence.
      - apply guarantees_timerCallback.
        + constructor; intros; try reflexivity.
          * destruct (resetShutdownTimer_frame s) as (F & _). exact F.
          * destruct (stopShutdownTimer_frame s) as (F & _). exact F.
        + constructor; intros; [reflexivity |].
          destruct (signalShutdown_frame s) as (F & _). exact F. }
    rewrite G. exact HcF. }
  split.
  { subst cb. rewrite run_timerCallback. fold sL.
    apply initiateShutdown_not_fresh_closes. exact Hf. }
  split.
  { assert (G : crashed (run o cb sF).2 = crashed sF).
    { apply (run_guarantees Rcrash o cb).
      - reflexivity.
      - unfold Rcrash. intros s1 s2 s3 H1 H2. congruence.
      - apply guarantees_timerCallback;
          [exact crash_Prims | exact crash_DecisionPrims]. }
    rewrite G. exact Hcr4. }
  rewrite Er, run_proceedWithShutdown. cbn zeta.
  assert (Hm' : missingGCPConfig (config (emit (EvIO dockerLogs) sL)) = false).
  { cbn [config emit set_trace sL slog]. rewrite HcF. exact Hm. }
  rewrite Hm'.
  match goal with
  | |- context [run o (suspendFunc lib b) ?x] =>
      pose proof (suspendFunc_attempts lib b o x) as Hs;
      set (r := run o (suspendFunc lib b) x) in *
  end.
  assert (G1 : (count_events suspend_event (trace r.2)
                <= count_events suspend_event (trace (suspendReported r.1 r.2)))%nat).
  { destruct (r.1); cbn; lia. }
  assert (G2 : Rgrow (suspendReported r.1 r.2)
                     (signalShutdown (suspendReported r.1 r.2)).2)
    by apply (prim_signal _ grow_DecisionPrims).
  apply (Rgrow_count suspend_event) in G2. lia.
Qed.

(** ** A decision waits a full timeout after the last rearm *)

Lemma rested_emit (cfg : Config) (e : Event) (s : State) :
  arm_event e = false -> rested cfg s -> rested cfg (emit e s).
Proof.
  intros He (Hc & Hh & Hd). split; [exact Hc |]. split; [exact Hh |].
  intros t due Ht. cbn [trace emit set_trace last_armed]. rewrite He.
  exact (Hd t due Ht).
Qed.

Lemma rested_reset (cfg : Config) (s : State) :
  rested cfg s -> rested cfg (resetShutdownTimer s).2.
Proof.
  intros (Hc & Hh & _).
  destruct (resetShutdownTimer_single s Hh) as [Et _].
  destruct (resetShutdownTimer_frame s) as (Fc & _).
  split; [rewrite Fc; exact Hc |].
  split; [apply resetShutdownTimer_held; exact Hh |].
  intros t due. rewrite Et. intros [_ <-]%lookup_singleton_Some.
  exists (clock s). split.
  - rewrite resetShutdownTimer_trace. reflexivity.
  - rewrite <- Hc. apply when_ge.
Qed.

Lemma rested_stop (cfg : Config) (s : State) :
  rested cfg s -> rested cfg (stopShutdownTimer s).2.
Proof.
  intros (Hc & Hh & Hd).
  destruct (stopShutdownTimer_frame s) as (Fc & _).
  destruct (stopShutdownTimer_empty s Hh) as [Et _].
  split; [rewrite Fc; exact Hc |].
  split; [apply stopShutdownTimer_held; exact Hh |].
  intros t due. rewrite Et. intros H. by apply lookup_empty_Some in H.
Qed.

Lemma rested_signal (cfg : Config) (s : State) :
  rested cfg s -> rested cfg (signalShutdown s).2.
Proof.
  unfold signalShutdown, chan_close. destruct (serverShutdown s); [trivial |].
  intros H. apply (rested_emit cfg EvClose); [reflexivity | exact H].
Qed.

Ltac rested_step :=
  lazymatch goal with
  | |- rested _ (resetShutdownTimer _).2 => apply rested_reset; assumption
  | |- rested _ (stopShutdownTimer _).2 => apply rested_stop; assumption
  | |- rested _ (signalShutdown _).2 => apply rested_signal; assumption
  | |- rested _ (slog _ _ _ _) => apply rested_emit; [reflexivity | assumption]
  | |- rested _ (emit _ _) => apply rested_emit; [reflexivity | assumption]
  | |- rested _ _ => assumption
  | _ => ens_head
  end.

Lemma ensures_rested_suspendFunc (cfg : Config) (lib : Lib) (b : Build) :
  ensures (rested cfg) (suspendFunc lib b).
Proof.
  destruct b; unfold suspendFunc, Rest.suspendInstance, Rest.suspendMachine,
    Rest.getAccessToken, Rest.getMachineMetadata, Rest.performInstanceAction,
    http_NewRequest, Sdk.suspendInstance, Sdk.suspendMachine,
    Sdk.createComputeService, mockSuspendInstance;
    repeat rested_step.
Qed.

Lemma ensures_rested_timerCallback (cfg : Config) (lib : Lib) (b : Build) :
  ensures (rested cfg) (timerCallback lib (suspendFunc lib b)).
Proof.
  unfold timerCallback, initiateShutdown, proceedWithShutdown,
    checkGitHubActions, getLastGitHubActionsActivity.
  repeat first [apply ensures_rested_suspendFunc | rested_step].
Qed.

Lemma ensures_rested_serve (cfg : Config) (r : Inbound) :
  ensures (rested cfg) (serve r).
Proof.
  unfold serve, pingHandler, healthHandler, http_Error, Write.
  repeat rested_step.
Qed.

Lemma ensures_rested_main (cfg : Config) : ensures (rested cfg) main.
Proof. unfold main. repeat rested_step. Qed.

(** X19. A decision starts only when a full timeout has passed since the
    timer was last armed, whoever armed it: [main], a ping, a fresh
    fallback or [suspendInstance].  In every state the process reaches,
    if the runtime can fire a timer, then [time.AfterFunc] was called
    before, and its latest call lies a timeout or more in the past; and
    every pending timer is due a timeout or more after that call. *)
Theorem decision_waits_a_timeout
    (lib : Lib) (b : Build) (cfg : Config) (now : Time)
    (ls : list Label) (y y' : Sys) (t : nat) :
  execs lib b (boot cfg now) ls = Some y ->
  exec lib b y (LFire t) = Some y' ->
  exists a, last_armed (trace (shared y)) = Some a
            /\ a + InactivityTimeout cfg <= clock (shared y)
            /\ forall t' due, timers (shared y) !! t' = Some due ->
                              a + InactivityTimeout cfg <= due.
Proof.
  intros He Hf.
  assert (H : rested cfg (shared y)).
  { eapply (execs_ensures (rested cfg) lib b (fun _ => true));
      [| | | | | | exact He].
    - intros s d _ H. exact H.
    - intros s t0 due (Hc & Hh & Hd) Ht _. split;
        [| apply ensures_rested_timerCallback].
      split; [exact Hc |]. split.
      + intros t1 due1. cbn. intros [_ Hl]%lookup_delete_Some. exact (Hh _ _ Hl).
      + intros t1 due1. cbn. intros [_ Hl]%lookup_delete_Some. exact (Hd _ _ Hl).
    - intros r _. apply ensures_rested_serve.
    - split; [reflexivity |]. split.
      + intros t0 due H. cbn in H. by apply lookup_empty_Some in H.
      + intros t0 due H. cbn in H. by apply lookup_empty_Some in H.
    - cbn. constructor; [apply ensures_rested_main | constructor].
    - clear. induction ls as [| [] ls IH]; cbn; auto. }
  destruct H as (_ & _ & Hd). revert Hf. unfold exec.
  destruct (halted (shared y)); [discriminate |].
  destruct (timers (shared y) !! t) as [due |] eqn:Et; [| discriminate].
  destruct (Z.leb_spec due (clock (shared y))) as [Hdue |]; [| discriminate].
  intros _. destruct (Hd t due Et) as (a & Ha & Hle).
  exists a. split; [exact Ha |]. split; [lia |].
  intros t' due' Ht'. destruct (Hd t' due' Ht') as (a' & Ha' & Hle').
  congruence.
Qed.

(** ** The further properties at concrete inputs *)

Lemma demoState_held : held demoState.
Proof.
  intros t due H. cbn [timers demoState] in H.
  apply lookup_singleton_Some in H as [<- _]. reflexivity.
Qed.

Lemma quiet_run :
  execs demoLib BuildRest (boot keepOnlineConfig 0) quietSchedule = Some quietFinal.
Proof. vm_compute. reflexivity. Qed.

Lemma unset_run :
  execs demoLib BuildRest (init demoAtoi demoEnv 0) unsetSchedule = Some unsetFinal.
Proof. vm_compute. reflexivity. Qed.

Lemma demo_run_start :
  execs demoLib BuildRest (boot demoConfig 0) demoScheduleStart = Some demoArmed.
Proof. vm_compute. reflexivity. Qed.

Lemma demo_run_rest :
  execs demoLib BuildRest demoArmed demoScheduleRest = Some demoFinal.
Proof. vm_compute. reflexivity. Qed.

Lemma healthcheck_is_pure_witness :
  String.eqb (Path demoHealth) "/ping" = false
  /\ Ranswer demoState (run idleWorld (serve demoHealth) demoState).2.
Proof.
  assert (H : String.eqb (Path demoHealth) "/ping" = false) by reflexivity.
  split; [exact H |].
  exact (proj1 (proj2 (healthcheck_is_pure idleWorld demoHealth demoState H))).
Defined.

Lemma ping_is_served_witness :
  (run (pass_writes idleWorld) (pingHandler newResponseWriter demoPing) demoState).1
  = mkResponseWriter [("Content-Type", "text/plain")]%string (Some StatusOK)
                     [("Content-Type", "text/plain")]%string "pong".
Proof.
  assert (H : String.eqb (Path demoPing) "/ping" = true) by reflexivity.
  exact (proj1 (ping_is_served idleWorld demoPing demoState H demoState_held)).
Defined.

Lemma identity_from_environment_witness :
  run idleWorld (proceedWithShutdown mockSuspendInstance 0)
      (shared (init demoAtoi demoEnv 0))
  = signalShutdown (missingWarned (proceeding 0 (shared (init demoAtoi demoEnv 0)))).
Proof.
  assert (Hc : config (shared (init demoAtoi demoEnv 0)) = loadConfig demoAtoi demoEnv)
    by reflexivity.
  assert (Hu : os_Getenv demoEnv "GCP_PROJECT" = ""%string
               \/ os_Getenv demoEnv "GCP_ZONE" = ""%string
               \/ os_Getenv demoEnv "GCP_INSTANCE_NAME" = ""%string)
    by (left; vm_compute; reflexivity).
  exact (proj1 (proj2 (identity_from_environment demoAtoi demoEnv idleWorld
                         mockSuspendInstance 0 (shared (init demoAtoi demoEnv 0))
                         Hc)) Hu).
Defined.

Lemma rearmed_timer_due_witness :
  exec demoLib BuildRest (mkSys (resetShutdownTimer demoState).2 []) (LFire 1) = None.
Proof.
  assert (Hn : halted demoState = false) by reflexivity.
  assert (HT : 0 < InactivityTimeout (config demoState)) by reflexivity.
  exact (proj1 (rearmed_timer_due demoLib BuildRest demoState [] demoState_held Hn)
               HT 1%nat).
Defined.

Lemma lastPing_never_ahead_witness :
  0 <= lastPing (tracker (shared demoFinal)) <= clock (shared demoFinal).
Proof.
  exact (proj1 (proj2 (lastPing_never_ahead demoLib BuildRest demoConfig 0
                         demoSchedule demoFinal demo_run))).
Defined.

Lemma keep_online_without_ping_witness :
  timers (shared quietFinal) = ∅.
Proof.
  assert (Hk : LibOpsKeepOnline keepOnlineConfig = "yes"%string) by reflexivity.
  assert (Hl : forallb (label_ok not_ping) quietSchedule = true) by reflexivity.
  exact (proj1 (keep_online_without_ping demoLib BuildRest keepOnlineConfig 0
                  quietSchedule quietFinal Hk Hl quiet_run)).
Defined.

Lemma incomplete_identity_never_suspends_witness :
  count_events suspend_event (trace (shared unsetFinal)) = 0%nat.
Proof.
  assert (Hu : os_Getenv demoEnv "GCP_PROJECT" = ""%string
               \/ os_Getenv demoEnv "GCP_ZONE" = ""%string
               \/ os_Getenv demoEnv "GCP_INSTANCE_NAME" = ""%string)
    by (left; vm_compute; reflexivity).
  exact (proj1 (incomplete_identity_never_suspends demoLib BuildRest demoAtoi
                  demoEnv 0 unsetSchedule unsetFinal Hu unset_run)).
Defined.

Lemma probe_reads_line_prefix_witness :
  exists timeStr,
    colons timeStr = 2%nat
    /\ (strings_TrimSpace demoLib "12:00:05:job started" = timeStr
        \/ has_prefix (timeStr +:+ ":")
             (strings_TrimSpace demoLib "12:00:05:job started") = true)
    /\ (run busyWorld (getLastGitHubActionsActivity demoLib) demoState).1
       = match time_Parse demoLib "15:04:05" timeStr with
         | Some t =>
             (time_Date_UTC demoLib (time_Year demoLib (clock demoState))
                (time_Month demoLib (clock demoState))
                (time_Day demoLib (clock demoState))
                (time_Hour demoLib t) (time_Minute demoLib t)
                (time_Second demoLib t) 0, None)
         | None => (Time_zero, Some "could not parse github-actions timestamp"%string)
         end.
Proof.
  assert (Ho : busyWorld (ReqExec "docker" ["logs"; "--tail"; "1";
                                            "github-actions-runner"]%string)
                 demoState
               = Ok "12:00:05:job started"%string) by reflexivity.
  assert (Hne : strings_TrimSpace demoLib "12:00:05:job started" <> ""%string)
    by discriminate.
  assert (H2 : (2 <= colons (strings_TrimSpace demoLib "12:00:05:job started"))%nat)
    by (vm_compute; lia).
  exact (proj2 (probe_reads_line_prefix demoLib busyWorld demoState
                  "12:00:05:job started" Ho Hne) H2).
Defined.

Lemma main_start_to_end_witness :
  exited (run idleWorld main demoState).2 = true.
Proof.
  exact (proj1 (proj2 (proj2 (proj2 (proj2 (proj2 (proj2 (proj2
           (main_start_to_end idleWorld demoState demoState_held))))))))).
Defined.

Lemma process_moves_forward_witness :
  clock (shared demoArmed) <= clock (shared demoFinal).
Proof.
  exact (proj1 (proj2 (process_moves_forward demoLib BuildRest demoConfig 0
                         demoScheduleStart demoScheduleRest demoArmed demoFinal
                         demo_run_start demo_run_rest))).
Defined.

Lemma stale_probe_proceeds_witness :
  serverShutdown
    (run idleWorld (initiateShutdown demoLib (suspendFunc demoLib BuildRest))
         demoState).2 = true.
Proof.
  assert (H : (run idleWorld (getLastGitHubActionsActivity demoLib) demoState).1.2
              <> None
              \/ InactivityTimeout (config demoState)
                 <= Time_Sub (clock demoState)
                      (run idleWorld (getLastGitHubActionsActivity demoLib)
                           demoState).1.1)
    by (left; discriminate).
  exact (proj2 (stale_probe_proceeds demoLib idleWorld
                  (suspendFunc demoLib BuildRest) demoState H)).
Defined.

Lemma uninterrupted_goroutine_runs_alone_witness :
  halted (run idleWorld (serve demoPing) demoState).2 = false.
Proof.
  assert (Hp : serve demoPing = timerCallback demoLib (suspendFunc demoLib BuildRest)
               \/ exists r, serve demoPing = serve r)
    by (right; exists demoPing; reflexivity).
  assert (Hn : halted demoState = false) by reflexivity.
  assert (Hi : [serve demoPing] !! 0%nat = Some (serve demoPing)) by reflexivity.
  exact (proj1 (proj2 (uninterrupted_goroutine_runs_alone demoLib BuildRest
                         idleWorld demoState [serve demoPing] 0 (serve demoPing)
                         Hp Hn Hi))).
Defined.

Lemma inactivity_leads_to_suspension_witness :
  exists n y,
    execs demoLib BuildRest (boot demoConfig 0)
      (replicate 4 (LStep 0 idleWorld)
       ++ [LTick (Z.max 0 (InactivityTimeout demoConfig)); LFire 0]
       ++ replicate n (LStep 1 idleWorld))
    = Some y
    /\ config (shared y) = demoConfig
    /\ serverShutdown (shared y) = true
    /\ crashed (shared y) = None
    /\ (1 <= count_events suspend_event (trace (shared y)))%nat.
Proof.
  assert (Hk : LibOpsKeepOnline demoConfig <> "yes"%string) by discriminate.
  assert (Hm : missingGCPConfig demoConfig = false) by reflexivity.
  assert (Ho : forall s, exists e, idleWorld dockerLogs s = Err e)
    by (intros s; eexists; reflexivity).
  exact (inactivity_leads_to_suspension demoLib BuildRest demoConfig 0 idleWorld
           Hk Hm Ho).
Defined.

Lemma demo_run_due :
  execs demoLib BuildRest (boot demoConfig 0)
        (demoScheduleStart ++ [LTick (90 * Second)]) = Some demoDue.
Proof. vm_compute. reflexivity. Qed.

Lemma demo_fire : exec demoLib BuildRest demoDue (LFire 0) = Some demoFired.
Proof.
  assert (Hh : halted (shared demoDue) = false) by (vm_compute; reflexivity).
  assert (Ht : timers (shared demoDue) !! 0%nat = Some (90 * Second))
    by (vm_compute; reflexivity).
  assert (Hd : (90 * Second <=? clock (shared demoDue)) = true)
    by (vm_compute; reflexivity).
  unfold exec. cbv zeta. rewrite Hh, Ht, Hd. reflexivity.
Qed.

Lemma decision_waits_a_timeout_witness :
  exists a, last_armed (trace (shared demoDue)) = Some a
            /\ a + InactivityTimeout demoConfig <= clock (shared demoDue)
            /\ forall t' due, timers (shared demoDue) !! t' = Some due ->
                              a + InactivityTimeout demoConfig <= due.
Proof.
  exact (decision_waits_a_timeout demoLib BuildRest demoConfig 0
           (demoScheduleStart ++ [LTick (90 * Second)]) demoDue demoFired 0
           demo_run_due demo_fire).
Defined.
